(** * LocalRide: ride lifecycle, fare estimate and request handlers

    A shallow embedding of the two edge functions (create-ride, accept-ride),
    of the driver and customer dashboard callbacks that write rides, and of
    the part of the relational schema (column types, defaults, NOT NULL and
    foreign-key constraints, row-level policies) those functions run against.

    Conventions.
    - A UUID is a natural number; [gen_random_uuid()] is an id that is not yet
      in the table.
    - A JavaScript number is an exact rational (or NaN, or an infinity); the
      rounding of IEEE doubles is not modelled.
    - A DECIMAL(p,2) column holds an integer number of hundredths.
    - A request field is a JSON string, [null], or absent.
    - [Math.random()], [now()] and the text-to-timestamp input function of the
      store are inputs of the functions that use them. *)

From Stdlib Require Import List String Ascii Bool Arith ZArith QArith Qround.
From Stdlib Require Import Lia Permutation Sorted.
Import ListNotations.

Local Close Scope Q_scope.
Local Open Scope string_scope.

(* ===================================================================== *)
(** ** JavaScript values                                                  *)
(* ===================================================================== *)

Module Js.

  (** What a destructured field of [await req.json()] can be. *)
Inductive JsVal : Type :=
  | JUndefined
  | JNull
  | JString (s : string).

  (** [v === 'lit'] *)
Definition strict_eq_str (v : JsVal) (lit : string) : bool :=
    match v with
    | JString s => String.eqb s lit
    | _ => false
    end.

  (** Template-literal interpolation [`${v}`]. *)
Definition to_display (v : JsVal) : string :=
    match v with
    | JUndefined => "undefined"
    | JNull => "null"
    | JString s => s
    end.

  (** Truthiness of a string: [!s] holds exactly for the empty string. *)
Definition str_truthy (s : string) : bool :=
    match s with
    | EmptyString => false
    | String _ _ => true
    end.

  (** [s || dflt] on an optional (nullable) string. *)
Definition or_default (s : option string) (dflt : string) : string :=
    match s with
    | Some t => if str_truthy t then t else dflt
    | None => dflt
    end.

  (** A JavaScript number. *)
Inductive JsNum : Type :=
  | NaN
  | Infinity (negative : bool)
  | Num (q : Q).

  (** [if (n)]: NaN and zero are falsy, everything else is truthy. *)
Definition num_truthy (n : JsNum) : bool :=
    match n with
    | NaN => false
    | Infinity _ => true
    | Num q => negb (Qeq_bool q 0%Q)
    end.

  (** [Math.round(x)]: the integer nearest to [x], ties towards +infinity. *)
Definition Math_round (x : Q) : Z := Qfloor (x + (1 # 2))%Q.

  (** *** [String.prototype.replace(pattern, replacement)] with a string
      pattern: the first occurrence only. *)

Fixpoint strip_prefix (p s : string) : option string :=
    match p with
    | EmptyString => Some s
    | String a p' =>
        match s with
        | EmptyString => None
        | String b s' => if Ascii.eqb a b then strip_prefix p' s' else None
        end
    end.

Fixpoint replace (s pattern replacement : string) : string :=
    match strip_prefix pattern s with
    | Some rest => replacement ++ rest
    | None =>
        match s with
        | EmptyString => EmptyString
        | String c s' => String c (replace s' pattern replacement)
        end
    end.

  (** *** [parseFloat] *)

Definition is_white (c : ascii) : bool :=
    let n := nat_of_ascii c in
    (n =? 32)%nat || (n =? 9)%nat || (n =? 10)%nat || (n =? 11)%nat
    || (n =? 12)%nat || (n =? 13)%nat.

Fixpoint trim_start (s : string) : string :=
    match s with
    | String c s' => if is_white c then trim_start s' else s
    | EmptyString => EmptyString
    end.

Definition digit_of (c : ascii) : option Z :=
    let n := nat_of_ascii c in
    if ((48 <=? n) && (n <=? 57))%nat then Some (Z.of_nat (n - 48)) else None.

  (** Longest run of decimal digits at the head of [s]: its value when
      appended to [acc], how many digits were read, and the rest. *)
Fixpoint read_digits (s : string) (acc : Z) (count : nat)
    : Z * nat * string :=
    match s with
    | String c s' =>
        match digit_of c with
        | Some d => read_digits s' (10 * acc + d)%Z (S count)
        | None => (acc, count, s)
        end
    | EmptyString => (acc, count, s)
    end.

Definition read_sign (s : string) : bool * string :=
    match s with
    | String "-" s' => (true, s')
    | String "+" s' => (false, s')
    | _ => (false, s)
    end.

  (** [10 ^ e] as a rational, for any integer exponent. *)
Definition pow10 (e : Z) : Q :=
    if (0 <=? e)%Z then inject_Z (10 ^ e) else (1 / inject_Z (10 ^ (- e)))%Q.

  (** The optional [e±ddd] part; it counts only when a digit follows. *)
Definition read_exponent (s : string) : Z :=
    match s with
    | String c s' =>
        if Ascii.eqb c "e" || Ascii.eqb c "E" then
          let '(neg, s'') := read_sign s' in
          let '(e, n, _) := read_digits s'' 0%Z 0 in
          match n with
          | O => 0%Z
          | S _ => if neg then (- e)%Z else e
          end
        else 0%Z
    | EmptyString => 0%Z
    end.

  (** [parseFloat(s)]: leading white space is skipped, then the longest
      prefix that is a decimal literal is read; NaN when there is none. *)
Definition parseFloat (s : string) : JsNum :=
    let '(neg, body) := read_sign (trim_start s) in
    match strip_prefix "Infinity" body with
    | Some _ => Infinity neg
    | None =>
        let '(ip, ni, rest) := read_digits body 0%Z 0 in
        let '(m, nf, rest') :=
          match rest with
          | String "." r => read_digits r ip 0
          | _ => (ip, 0, rest)
          end in
        match (ni + nf)%nat with
        | O => NaN
        | S _ =>
            let e := (read_exponent rest' - Z.of_nat nf)%Z in
            let v := (inject_Z m * pow10 e)%Q in
            Num (if neg then (- v)%Q else v)
        end
    end.

End Js.

(* ===================================================================== *)
(** ** The persisted store: schema, constraints, row-level policies       *)
(* ===================================================================== *)

Definition Uuid := nat.

(** [CREATE TYPE public.vehicle_type AS ENUM ('auto', 'car', 'bike')] *)
Inductive VehicleType : Type := Auto | Car | Bike.

(** [CREATE TYPE public.ride_status AS ENUM ('pending', 'accepted',
    'in_progress', 'completed', 'cancelled')] *)
Inductive RideStatus : Type :=
  Pending | Accepted | InProgress | Completed | Cancelled.

(** The two values of [profiles.user_type] the pages branch on. *)
Inductive UserRole : Type := Customer | Rider.

Definition VehicleType_eqb (a b : VehicleType) : bool :=
  match a, b with
  | Auto, Auto | Car, Car | Bike, Bike => true
  | _, _ => false
  end.

Definition RideStatus_eqb (a b : RideStatus) : bool :=
  match a, b with
  | Pending, Pending | Accepted, Accepted | InProgress, InProgress
  | Completed, Completed | Cancelled, Cancelled => true
  | _, _ => false
  end.

(** The text of an enum value, as the dashboards and the JSON bodies carry
    it. *)
Definition vehicle_type_text (v : VehicleType) : string :=
  match v with
  | Auto => "auto"
  | Car => "car"
  | Bike => "bike"
  end.

Definition option_nat_eqb (a : option nat) (b : nat) : bool :=
  match a with
  | Some x => Nat.eqb x b
  | None => false
  end.

Module AuthUser.
Record t : Type := mk { id : Uuid; email : string }.
End AuthUser.

Module Profile.
Record t : Type := mk {
    user_id : Uuid;
    full_name : option string;
    phone : option string;
    user_type : UserRole
  }.
End Profile.

Module DriverProfile.
Record t : Type := mk {
    id : Uuid;
    user_id : Uuid;
    vehicle_type : VehicleType;
    vehicle_number : string;
    license_number : option string;
    is_available : option bool
  }.
End DriverProfile.

(** [public.rides]. The four latitude/longitude columns and [updated_at] are
    left out: no modelled function reads or writes them. The DECIMAL(_,2)
    columns hold hundredths. *)
Module Ride.
Record t : Type := mk {
    id : Uuid;
    customer_id : Uuid;
    driver_id : option Uuid;
    from_location : string;
    to_location : string;
    pickup_time : Z;
    vehicle_type : VehicleType;
    distance_km : option Z;
    estimated_fare : option Z;
    final_fare : option Z;
    status : RideStatus;
    notes : option string;
    created_at : Z
  }.
End Ride.

Module RideNotification.
Record t : Type := mk {
    id : Uuid;
    ride_id : Uuid;
    user_id : Uuid;
    message : string;
    is_read : option bool;
    created_at : Z
  }.
End RideNotification.

Module Store.

  (** The database tables, the identity service's users and the bearer
      tokens it currently resolves. *)
Record t : Type := mk {
    auth_users : list AuthUser.t;
    sessions : list (string * Uuid);
    profiles : list Profile.t;
    driver_profiles : list DriverProfile.t;
    rides : list Ride.t;
    ride_notifications : list RideNotification.t
  }.

  (** Errors the store reports in the [error] field of a result. *)
Inductive PgError : Type :=
  | not_null_violation (column : string)
  | invalid_text_representation (column value : string)
  | invalid_datetime_format (value : string)
  | numeric_value_out_of_range (column : string)
  | foreign_key_violation (constraint : string)
  | PGRST116.

  (** Who a query runs as. The edge functions create their client with the
      service-role key, which bypasses the row-level policies; the dashboards
      run as the signed-in user. *)
Inductive Role : Type :=
  | service_role
  | authenticated (uid : Uuid).

  (** *** Input functions of the column types *)

Definition vehicle_type_in (s : string) : option VehicleType :=
    if String.eqb s "auto" then Some Auto
    else if String.eqb s "car" then Some Car
    else if String.eqb s "bike" then Some Bike
    else None.

Definition ride_status_in (s : string) : option RideStatus :=
    if String.eqb s "pending" then Some Pending
    else if String.eqb s "accepted" then Some Accepted
    else if String.eqb s "in_progress" then Some InProgress
    else if String.eqb s "completed" then Some Completed
    else if String.eqb s "cancelled" then Some Cancelled
    else None.

  (** DECIMAL(precision, 2): the value is rounded to two places, half away
      from zero, and must then have at most [precision - 2] integer digits.
      The result is in hundredths. *)
Definition numeric2_in (precision : Z) (x : Q) : option Z :=
    let h := if Qle_bool 0%Q x
             then Qfloor (x * 100 + (1 # 2))%Q
             else (- Qfloor (- x * 100 + (1 # 2))%Q)%Z in
    if (Z.abs h <? 10 ^ precision)%Z then Some h else None.

  (** *** Row-level policies on [rides] *)

  (** "Users can view their own rides":
      [USING (auth.uid() = customer_id OR auth.uid() = driver_id)] *)
Definition rides_select_policy (role : Role) (r : Ride.t) : bool :=
    match role with
    | service_role => true
    | authenticated uid =>
        Nat.eqb uid (Ride.customer_id r) || option_nat_eqb (Ride.driver_id r) uid
    end.

  (** "Drivers can update rides they're assigned to":
      [USING (auth.uid() = driver_id OR auth.uid() = customer_id)] *)
Definition rides_update_policy (role : Role) (r : Ride.t) : bool :=
    match role with
    | service_role => true
    | authenticated uid =>
        option_nat_eqb (Ride.driver_id r) uid || Nat.eqb uid (Ride.customer_id r)
    end.

  (** *** Query primitives *)

  (** [.single()]: the one row of the result, an error when the result has
      no row or more than one. *)
Definition single {A : Type} (rows : list A) : PgError + A :=
    match rows with
    | [x] => inr x
    | _ => inl PGRST116
    end.

  (** [DEFAULT gen_random_uuid()]: an id no row of the table has. *)
Definition gen_random_uuid (taken : list Uuid) : Uuid :=
    S (fold_right Nat.max 0 taken).

Definition has_profile (st : t) (uid : Uuid) : bool :=
    existsb (fun p => Nat.eqb (Profile.user_id p) uid) (profiles st).

Definition has_ride (st : t) (rid : Uuid) : bool :=
    existsb (fun r => Nat.eqb (Ride.id r) rid) (rides st).

  (** [from('profiles').select('*').eq('user_id', uid)] *)
Definition profiles_by_user (st : t) (uid : Uuid) : list Profile.t :=
    filter (fun p => Nat.eqb (Profile.user_id p) uid) (profiles st).

  (** [from('driver_profiles').select('*').eq('user_id', uid)] *)
Definition driver_profiles_by_user (st : t) (uid : Uuid)
    : list DriverProfile.t :=
    filter (fun d => Nat.eqb (DriverProfile.user_id d) uid) (driver_profiles st).

  (** [from('rides').select(...)]: the rows the caller's role may read. *)
Definition select_rides (role : Role) (st : t) : list Ride.t :=
    filter (rides_select_policy role) (rides st).

  (** [supabase.auth.getUser(jwt)] *)
Definition getUser (st : t) (jwt : string) : option AuthUser.t :=
    match find (fun s => String.eqb (fst s) jwt) (sessions st) with
    | Some (_, uid) => find (fun u => Nat.eqb (AuthUser.id u) uid) (auth_users st)
    | None => None
    end.

  (** [supabase.auth.admin.getUserById(uid)] *)
Definition getUserById (st : t) (uid : Uuid) : option AuthUser.t :=
    find (fun u => Nat.eqb (AuthUser.id u) uid) (auth_users st).

Definition with_rides (st : t) (rs : list Ride.t) : t :=
    mk (auth_users st) (sessions st) (profiles st) (driver_profiles st)
       rs (ride_notifications st).

Definition with_ride_notifications (st : t) (ns : list RideNotification.t)
    : t :=
    mk (auth_users st) (sessions st) (profiles st) (driver_profiles st)
       (rides st) ns.

  (** **** Insert into [rides] *)

  (** The object handed to [from('rides').insert(...)] by create-ride. *)
Record RideInsert : Type := mkRideInsert {
    ins_customer_id : Uuid;
    ins_from_location : Js.JsVal;
    ins_to_location : Js.JsVal;
    ins_pickup_time : Js.JsVal;
    ins_vehicle_type : Js.JsVal;
    ins_notes : Js.JsVal;
    ins_estimated_fare : Z
  }.

  (** A JSON string is the column's text; [null] and an absent key both leave
      the column NULL. *)
Definition text_column (v : Js.JsVal) : option string :=
    match v with
    | Js.JString s => Some s
    | _ => None
    end.

Definition not_null {A : Type} (column : string) (v : option A)
    : PgError + A :=
    match v with
    | Some x => inr x
    | None => inl (not_null_violation column)
    end.

  (** Conversion of an optional text to a column type. *)
Definition convert {A : Type} (input : string -> option A)
      (err : string -> PgError) (v : option string)
    : PgError + option A :=
    match v with
    | None => inr None
    | Some s =>
        match input s with
        | Some x => inr (Some x)
        | None => inl (err s)
        end
    end.

Definition bind_pg {A B : Type} (m : PgError + A) (k : A -> PgError + B)
    : PgError + B :=
    match m with
    | inl e => inl e
    | inr x => k x
    end.

Section Insert.

    (** The store's input function for TIMESTAMP WITH TIME ZONE. *)
Variable timestamptz_in : string -> option Z.

    (** The row [INSERT INTO rides] builds, or the error it raises: the
        values are converted to their column types, the NOT NULL columns are
        checked in column order, then the foreign key on [customer_id].
        [driver_id], [distance_km] and [final_fare] are not in the insert and
        stay NULL; [status] takes its default ['pending']. *)
Definition build_ride (st : t) (now : Z) (row : RideInsert)
      : PgError + Ride.t :=
      bind_pg (convert timestamptz_in invalid_datetime_format
                 (text_column (ins_pickup_time row))) (fun pickup =>
      bind_pg (convert vehicle_type_in
                 (invalid_text_representation "vehicle_type")
                 (text_column (ins_vehicle_type row))) (fun vehicle =>
      bind_pg (match numeric2_in 10 (inject_Z (ins_estimated_fare row)) with
               | Some h => inr h
               | None => inl (numeric_value_out_of_range "estimated_fare")
               end) (fun fare =>
      bind_pg (not_null "from_location"
                 (text_column (ins_from_location row))) (fun from =>
      bind_pg (not_null "to_location"
                 (text_column (ins_to_location row))) (fun to =>
      bind_pg (not_null "pickup_time" pickup) (fun pickup' =>
      bind_pg (not_null "vehicle_type" vehicle) (fun vehicle' =>
      if has_profile st (ins_customer_id row) then
        inr (Ride.mk (gen_random_uuid (map Ride.id (rides st)))
               (ins_customer_id row)
               None
               from to pickup' vehicle'
               None
               (Some fare)
               None
               Pending
               (text_column (ins_notes row))
               now)
      else inl (foreign_key_violation "rides_customer_id_fkey")))))))).

    (** [from('rides').insert(row).select().single()] *)
Definition insert_ride (st : t) (now : Z) (row : RideInsert)
      : (PgError + Ride.t) * t :=
      match build_ride st now row with
      | inr r => (inr r, with_rides st (rides st ++ [r]))
      | inl e => (inl e, st)
      end.

End Insert.

  (** **** Insert into [ride_notifications] *)

Record NotificationInsert : Type := mkNotificationInsert {
    ins_ride_id : Uuid;
    ins_user_id : Uuid;
    ins_message : string
  }.

  (** [from('ride_notifications').insert(row)]: both foreign keys are
      checked; [is_read] takes its default [false]. *)
Definition insert_notification (st : t) (now : Z) (row : NotificationInsert)
    : option PgError * t :=
    if negb (has_ride st (ins_ride_id row)) then
      (Some (foreign_key_violation "ride_notifications_ride_id_fkey"), st)
    else if negb (has_profile st (ins_user_id row)) then
      (Some (foreign_key_violation "ride_notifications_user_id_fkey"), st)
    else
      let n := RideNotification.mk
                 (gen_random_uuid
                    (map RideNotification.id (ride_notifications st)))
                 (ins_ride_id row) (ins_user_id row) (ins_message row)
                 (Some false) now in
      (None, with_ride_notifications st (ride_notifications st ++ [n])).

  (** **** Update of [rides] *)

  (** The object handed to [from('rides').update(...)]. A key that is not in
      the object is [None]; a number that JSON cannot carry travels as
      [null]. *)
Record RideUpdate : Type := mkRideUpdate {
    upd_driver_id : option Uuid;
    upd_status : option string;
    upd_distance_km : option (option Q);
    upd_final_fare : option (option Q)
  }.

  (** The column values of an update after conversion. *)
Record RidePatch : Type := mkRidePatch {
    set_driver_id : option Uuid;
    set_status : option RideStatus;
    set_distance_km : option (option Z);
    set_final_fare : option (option Z)
  }.

Definition convert_numeric (precision : Z) (column : string)
      (v : option (option Q)) : PgError + option (option Z) :=
    match v with
    | None => inr None
    | Some None => inr (Some None)
    | Some (Some q) =>
        match numeric2_in precision q with
        | Some h => inr (Some (Some h))
        | None => inl (numeric_value_out_of_range column)
        end
    end.

Definition convert_update (u : RideUpdate) : PgError + RidePatch :=
    bind_pg (convert ride_status_in (invalid_text_representation "status")
               (upd_status u)) (fun status =>
    bind_pg (convert_numeric 8 "distance_km" (upd_distance_km u)) (fun dist =>
    bind_pg (convert_numeric 10 "final_fare" (upd_final_fare u)) (fun fare =>
    inr (mkRidePatch (upd_driver_id u) status dist fare)))).

Definition override {A : Type} (new : option A) (old : A) : A :=
    match new with
    | Some x => x
    | None => old
    end.

Definition apply_patch (p : RidePatch) (r : Ride.t) : Ride.t :=
    Ride.mk (Ride.id r) (Ride.customer_id r)
      (match set_driver_id p with
       | Some d => Some d
       | None => Ride.driver_id r
       end)
      (Ride.from_location r) (Ride.to_location r) (Ride.pickup_time r)
      (Ride.vehicle_type r)
      (override (set_distance_km p) (Ride.distance_km r))
      (Ride.estimated_fare r)
      (override (set_final_fare p) (Ride.final_fare r))
      (override (set_status p) (Ride.status r))
      (Ride.notes r) (Ride.created_at r).

  (** [from('rides').update(u).eq('id', rid)]: every row with that id which
      the caller's role may update gets the new column values, in one
      statement. A new [driver_id] must reference a profile. (The policy is
      also applied to the new row; the dashboards never change [driver_id]
      or [customer_id], so a row that passed still passes.) *)
Definition update_rides (role : Role) (st : t) (rid : Uuid) (u : RideUpdate)
    : option PgError * t :=
    match convert_update u with
    | inl e => (Some e, st)
    | inr p =>
        let hit (r : Ride.t) :=
          Nat.eqb (Ride.id r) rid && rides_update_policy role r in
        let fk_ok :=
          match set_driver_id p with
          | Some d => has_profile st d || negb (existsb hit (rides st))
          | None => true
          end in
        if fk_ok then
          (None,
           with_rides st
             (map (fun r => if hit r then apply_patch p r else r) (rides st)))
        else (Some (foreign_key_violation "rides_driver_id_fkey"), st)
    end.

(** *** [driver_profiles]: policies and writes of the driver dashboard *)

(** "Drivers can view their own profile" [USING (auth.uid() = user_id)] or
      "Customers can view available drivers" [USING (is_available = true)] *)
Definition driver_profiles_select_policy (role : Role) (d : DriverProfile.t)
  : bool :=
    match role with
    | service_role => true
    | authenticated uid =>
        Nat.eqb uid (DriverProfile.user_id d)
        || match DriverProfile.is_available d with
           | Some true => true
           | _ => false
           end
    end.

(** "Drivers can update their own profile" [USING (auth.uid() = user_id)] *)
Definition driver_profiles_update_policy (role : Role) (d : DriverProfile.t)
  : bool :=
    match role with
    | service_role => true
    | authenticated uid => Nat.eqb uid (DriverProfile.user_id d)
    end.

(** [from('driver_profiles').select('*').eq('user_id', uid)] as [role]. *)
Definition select_driver_profiles (role : Role) (st : t) (uid : Uuid)
  : list DriverProfile.t :=
    filter (fun d => Nat.eqb (DriverProfile.user_id d) uid)
      (filter (driver_profiles_select_policy role) (driver_profiles st)).

Definition with_driver_profiles (st : t) (ds : list DriverProfile.t) : t :=
    mk (auth_users st) (sessions st) (profiles st) ds (rides st)
       (ride_notifications st).

(** What a write to [driver_profiles] can report: a constraint named in the
      table definition. *)
Inductive WriteError : Type :=
  | unique_violation (constraint : string)
  | fkey_violation (constraint : string).

(** [profileData] of the dashboard's form. *)
Record DriverProfileData : Type := mkDriverProfileData {
    data_vehicle_type : VehicleType;
    data_vehicle_number : string;
    data_license_number : string;
    data_is_available : bool
  }.

(** [from('driver_profiles').insert({ ...profileData, user_id: uid })] as
      the signed-in user [uid] (the policy's check [auth.uid() = user_id]
      holds): [UNIQUE(user_id)], then the foreign key to [profiles]. *)
Definition insert_driver_profile (uid : Uuid) (st : t)
      (data : DriverProfileData) : option WriteError * t :=
    if existsb (fun d => Nat.eqb (DriverProfile.user_id d) uid)
         (driver_profiles st)
    then (Some (unique_violation "driver_profiles_user_id_key"), st)
    else if negb (has_profile st uid)
    then (Some (fkey_violation "driver_profiles_user_id_fkey"), st)
    else
      (None,
       with_driver_profiles st
         (driver_profiles st
          ++ [DriverProfile.mk
                (gen_random_uuid (map DriverProfile.id (driver_profiles st)))
                uid (data_vehicle_type data) (data_vehicle_number data)
                (Some (data_license_number data))
                (Some (data_is_available data))])).

(** [from('driver_profiles').update(...).eq('user_id', uid)] as the
      signed-in user [uid]: [change] is applied to the caller's rows. *)
Definition update_driver_profiles (uid : Uuid) (st : t)
      (change : DriverProfile.t -> DriverProfile.t) : t :=
    with_driver_profiles st
      (map (fun d =>
              if Nat.eqb (DriverProfile.user_id d) uid
                 && driver_profiles_update_policy (authenticated uid) d
              then change d else d)
         (driver_profiles st)).

End Store.

(* ===================================================================== *)
(** ** The edge functions                                                 *)
(* ===================================================================== *)

(** What a handler throws inside its [try] block: [new Error(message)], or
    the [error] object of a store call. *)
Inductive Thrown : Type :=
| Error (message : string)
| PostgrestError (e : Store.PgError).

(** The HTTP response of an edge function: the CORS preflight answer, the
    200 answer with its JSON body, or the 400 answer of the [catch] block,
    whose body is [{ error: error.message }]. *)
Inductive Response (A : Type) : Type :=
| Preflight
| Ok200 (body : A)
| Err400 (error : Thrown).

Arguments Preflight {A}.
Arguments Ok200 {A} body.
Arguments Err400 {A} error.

Record Request (B : Type) : Type := mkRequest {
  method : string;
  authorization : option string;
  json : B
}.

Arguments mkRequest {B} method authorization json.
Arguments method {B} r.
Arguments authorization {B} r.
Arguments json {B} r.

(** A [try] block that reads and writes the store and may throw. *)
Definition Handler (A : Type) : Type := Store.t -> (Thrown + A) * Store.t.

Definition ret {A : Type} (x : A) : Handler A := fun st => (inr x, st).

Definition throw {A : Type} (e : Thrown) : Handler A := fun st => (inl e, st).

Definition bind {A B : Type} (m : Handler A) (k : A -> Handler B)
  : Handler B :=
  fun st =>
    match m st with
    | (inr x, st') => k x st'
    | (inl e, st') => (inl e, st')
    end.

Declare Scope handler_scope.
Delimit Scope handler_scope with handler.

Notation "x <- m ;; k" := (bind m (fun x => k))
  (at level 61, m at next level, right associativity) : handler_scope.

Notation "m ;;; k" := (bind m (fun _ => k))
  (at level 61, right associativity) : handler_scope.

(** [try { ... } catch (error) { return 400 }] *)
Definition try_catch {A : Type} (h : Handler A) (st : Store.t)
  : Response A * Store.t :=
  match h st with
  | (inr x, st') => (Ok200 x, st')
  | (inl e, st') => (Err400 e, st')
  end.

(** The first lines of both handlers: the bearer token of the request is
    resolved to a user. *)
Definition authenticate (authHeader : option string) : Handler AuthUser.t :=
  match authHeader with
  | None => throw (Error "No authorization header")
  | Some h =>
      if Js.str_truthy h then
        fun st =>
          match Store.getUser st (Js.replace h "Bearer " "") with
          | Some user => (inr user, st)
          | None => (inl (Error "Unauthorized"), st)
          end
      else throw (Error "No authorization header")
  end.

(** The body of a request that has not been read yet, by what
    [await req.json()] and the destructuring of its value will do: throw (a
    SyntaxError for a text that is not JSON, a TypeError for the JSON value
    [null]), or give the fields. The [catch] block looks only at the
    [message] of what was thrown. *)
Inductive Json (B : Type) : Type :=
| json_throws (message : string)
| json_fields (b : B).

Arguments json_throws {B} message.
Arguments json_fields {B} b.

(** [await req.json()] *)
Definition req_json {B : Type} (req : Request (Json B)) : Handler B :=
  match json req with
  | json_throws message => throw (Error message)
  | json_fields b => ret b
  end.

Module CreateRide.

Record CreateRideRequest : Type := mkCreateRideRequest {
  from_location : Js.JsVal;
  to_location : Js.JsVal;
  pickup_time : Js.JsVal;
  vehicle_type : Js.JsVal;
  notes : Js.JsVal
}.

(** [vehicle_type === 'bike' ? 30 : vehicle_type === 'auto' ? 50 : 80] *)
Definition baseFare (vehicle_type : Js.JsVal) : Z :=
  if Js.strict_eq_str vehicle_type "bike" then 30%Z
  else if Js.strict_eq_str vehicle_type "auto" then 50%Z
  else 80%Z.

(** [Math.round(baseFare + Math.random() * 100)] *)
Definition estimatedFare (vehicle_type : Js.JsVal) (random : Q) : Z :=
  Js.Math_round (inject_Z (baseFare vehicle_type) + random * 100)%Q.

Section Handler.

Variable timestamptz_in : string -> option Z.

(** Value of [Math.random()] and of the store's clock during the call. *)
Variable random : Q.
Variable now : Z.

(** The [try] block of the create-ride function. The e-mail step sits in a
    [try]/[catch] of its own that only logs, and touches no table. *)
Definition create_ride_try (req : Request CreateRideRequest)
  : Handler Ride.t :=
  (user <- authenticate (authorization req) ;;
   let b := json req in
   customerProfile <-
     (fun st =>
        match Store.single (Store.profiles_by_user st (AuthUser.id user)) with
        | inr p => (inr p, st)
        | inl _ => (inl (Error "Customer profile not found"), st)
        end) ;;
   let fare := estimatedFare (vehicle_type b) random in
   ride <-
     (fun st =>
        match Store.insert_ride timestamptz_in st now
                (Store.mkRideInsert (AuthUser.id user)
                   (from_location b) (to_location b) (pickup_time b)
                   (vehicle_type b) (notes b) fare) with
        | (inr r, st') => (inr r, st')
        | (inl rideError, st') => (inl (PostgrestError rideError), st')
        end) ;;
   (fun st =>
      (inr tt,
       snd (Store.insert_notification st now
              (Store.mkNotificationInsert (Ride.id ride) (AuthUser.id user)
                 ("Your ride request from " ++ Js.to_display (from_location b)
                  ++ " to " ++ Js.to_display (to_location b)
                  ++ " has been submitted."))))) ;;;
   ret ride)%handler.

Definition create_ride (req : Request CreateRideRequest) (st : Store.t)
  : Response Ride.t * Store.t :=
  try_catch (create_ride_try req) st.

(** The function handed to [serve]. *)
Definition serve (req : Request CreateRideRequest) (st : Store.t)
  : Response Ride.t * Store.t :=
  if String.eqb (method req) "OPTIONS" then (Preflight, st)
  else create_ride req st.

(** The same [try] block on a request whose body is still to be read:
    [await req.json()] is the step between the token check and the profile
    lookup. *)
Definition create_ride_try_raw (req : Request (Json CreateRideRequest))
  : Handler Ride.t :=
  (user <- authenticate (authorization req) ;;
   b <- req_json req ;;
   customerProfile <-
     (fun st =>
        match Store.single (Store.profiles_by_user st (AuthUser.id user)) with
        | inr p => (inr p, st)
        | inl _ => (inl (Error "Customer profile not found"), st)
        end) ;;
   let fare := estimatedFare (vehicle_type b) random in
   ride <-
     (fun st =>
        match Store.insert_ride timestamptz_in st now
                (Store.mkRideInsert (AuthUser.id user)
                   (from_location b) (to_location b) (pickup_time b)
                   (vehicle_type b) (notes b) fare) with
        | (inr r, st') => (inr r, st')
        | (inl rideError, st') => (inl (PostgrestError rideError), st')
        end) ;;
   (fun st =>
      (inr tt,
       snd (Store.insert_notification st now
              (Store.mkNotificationInsert (Ride.id ride) (AuthUser.id user)
                 ("Your ride request from " ++ Js.to_display (from_location b)
                  ++ " to " ++ Js.to_display (to_location b)
                  ++ " has been submitted."))))) ;;;
   ret ride)%handler.

Definition create_ride_raw (req : Request (Json CreateRideRequest))
    (st : Store.t) : Response Ride.t * Store.t :=
  try_catch (create_ride_try_raw req) st.

End Handler.

End CreateRide.

Module AcceptRide.

(** [ride_id] of the request body; [None] when it is absent or is not the
    text of a UUID, in which case the query on [rides] reports an error. *)
Record AcceptRideRequest : Type := mkAcceptRideRequest {
  ride_id : option Uuid
}.

(** What the spec calls RideUnavailable. *)
Definition RideUnavailable : Thrown :=
  Error "Ride not found or already accepted".

Section Handler.

Variable now : Z.

(** [from('rides').select(...).eq('id', ride_id).eq('status', 'pending')] *)
Definition pending_rides_by_id (st : Store.t) (rid : Uuid) : list Ride.t :=
  filter (fun r => RideStatus_eqb (Ride.status r) Pending)
    (filter (fun r => Nat.eqb (Ride.id r) rid)
       (Store.select_rides Store.service_role st)).

(** The [try] block of the accept-ride function. *)
Definition accept_ride_try (req : Request AcceptRideRequest)
  : Handler unit :=
  (user <- authenticate (authorization req) ;;
   driverProfile <-
     (fun st =>
        match Store.single (Store.profiles_by_user st (AuthUser.id user)) with
        | inr p => (inr p, st)
        | inl _ => (inl (Error "Driver profile not found"), st)
        end) ;;
   driverVehicle <-
     (fun st =>
        match Store.single
                (Store.driver_profiles_by_user st (AuthUser.id user)) with
        | inr d => (inr d, st)
        | inl _ => (inl (Error "Driver vehicle profile not found"), st)
        end) ;;
   ride_and_id <-
     (fun st =>
        match ride_id (json req) with
        | None => (inl RideUnavailable, st)
        | Some rid =>
            match Store.single (pending_rides_by_id st rid) with
            | inr r => (inr (r, rid), st)
            | inl _ => (inl RideUnavailable, st)
            end
        end) ;;
   let ride := fst ride_and_id in
   let rid := snd ride_and_id in
   (fun st =>
      match Store.update_rides Store.service_role st rid
              (Store.mkRideUpdate (Some (AuthUser.id user)) (Some "accepted")
                 None None) with
      | (None, st') => (inr tt, st')
      | (Some updateError, st') => (inl (PostgrestError updateError), st')
      end) ;;;
   customer <-
     (fun st =>
        match Store.single
                (Store.profiles_by_user st (Ride.customer_id ride)) with
        | inr p => (inr p, st)
        | inl customerError => (inl (PostgrestError customerError), st)
        end) ;;
   customerAuth <-
     (fun st =>
        match Store.getUserById st (Ride.customer_id ride) with
        | Some u => (inr u, st)
        | None => (inl (Error "Customer auth details not found"), st)
        end) ;;
   (fun st =>
      let st1 :=
        snd (Store.insert_notification st now
               (Store.mkNotificationInsert rid (Ride.customer_id ride)
                  ("Your ride has been accepted by "
                   ++ Js.or_default (Profile.full_name driverProfile) "a driver"
                   ++ ". They will contact you shortly."))) in
      let st2 :=
        snd (Store.insert_notification st1 now
               (Store.mkNotificationInsert rid (AuthUser.id user)
                  ("You have successfully accepted a ride from "
                   ++ Ride.from_location ride ++ " to "
                   ++ Ride.to_location ride ++ "."))) in
      (inr tt, st2)) ;;;
   ret tt)%handler.

Definition accept_ride (req : Request AcceptRideRequest) (st : Store.t)
  : Response unit * Store.t :=
  try_catch (accept_ride_try req) st.

(** The function handed to [serve]. *)
Definition serve (req : Request AcceptRideRequest) (st : Store.t)
  : Response unit * Store.t :=
  if String.eqb (method req) "OPTIONS" then (Preflight, st)
  else accept_ride req st.

(** The same [try] block cut at the [await] after which it starts to
    write: what the reads have found, and the rest of the block. Each store
    call is one step, so another request can run between the two parts. *)
Record Found : Type := mkFound {
  found_user : AuthUser.t;
  found_driverProfile : Profile.t;
  found_ride : Ride.t;
  found_ride_id : Uuid
}.

Definition accept_ride_reads (req : Request AcceptRideRequest)
  : Handler Found :=
  (user <- authenticate (authorization req) ;;
   driverProfile <-
     (fun st =>
        match Store.single (Store.profiles_by_user st (AuthUser.id user)) with
        | inr p => (inr p, st)
        | inl _ => (inl (Error "Driver profile not found"), st)
        end) ;;
   driverVehicle <-
     (fun st =>
        match Store.single
                (Store.driver_profiles_by_user st (AuthUser.id user)) with
        | inr d => (inr d, st)
        | inl _ => (inl (Error "Driver vehicle profile not found"), st)
        end) ;;
   ride_and_id <-
     (fun st =>
        match ride_id (json req) with
        | None => (inl RideUnavailable, st)
        | Some rid =>
            match Store.single (pending_rides_by_id st rid) with
            | inr r => (inr (r, rid), st)
            | inl _ => (inl RideUnavailable, st)
            end
        end) ;;
   ret (mkFound user driverProfile (fst ride_and_id) (snd ride_and_id))
  )%handler.

Definition accept_ride_writes (x : Found) : Handler unit :=
  let user := found_user x in
  let driverProfile := found_driverProfile x in
  let ride := found_ride x in
  let rid := found_ride_id x in
  ((fun st =>
      match Store.update_rides Store.service_role st rid
              (Store.mkRideUpdate (Some (AuthUser.id user)) (Some "accepted")
                 None None) with
      | (None, st') => (inr tt, st')
      | (Some updateError, st') => (inl (PostgrestError updateError), st')
      end) ;;;
   customer <-
     (fun st =>
        match Store.single
                (Store.profiles_by_user st (Ride.customer_id ride)) with
        | inr p => (inr p, st)
        | inl customerError => (inl (PostgrestError customerError), st)
        end) ;;
   customerAuth <-
     (fun st =>
        match Store.getUserById st (Ride.customer_id ride) with
        | Some u => (inr u, st)
        | None => (inl (Error "Customer auth details not found"), st)
        end) ;;
   (fun st =>
      let st1 :=
        snd (Store.insert_notification st now
               (Store.mkNotificationInsert rid (Ride.customer_id ride)
                  ("Your ride has been accepted by "
                   ++ Js.or_default (Profile.full_name driverProfile) "a driver"
                   ++ ". They will contact you shortly."))) in
      let st2 :=
        snd (Store.insert_notification st1 now
               (Store.mkNotificationInsert rid (AuthUser.id user)
                  ("You have successfully accepted a ride from "
                   ++ Ride.from_location ride ++ " to "
                   ++ Ride.to_location ride ++ "."))) in
      (inr tt, st2)) ;;;
   ret tt)%handler.

(** The whole [try] block on a request whose body is still to be read:
    [await req.json()] is the step between the token check and the lookup
    of the caller's profile. *)
Definition accept_ride_try_raw (req : Request (Json AcceptRideRequest))
  : Handler unit :=
  (user <- authenticate (authorization req) ;;
   b <- req_json req ;;
   driverProfile <-
     (fun st =>
        match Store.single (Store.profiles_by_user st (AuthUser.id user)) with
        | inr p => (inr p, st)
        | inl _ => (inl (Error "Driver profile not found"), st)
        end) ;;
   driverVehicle <-
     (fun st =>
        match Store.single
                (Store.driver_profiles_by_user st (AuthUser.id user)) with
        | inr d => (inr d, st)
        | inl _ => (inl (Error "Driver vehicle profile not found"), st)
        end) ;;
   ride_and_id <-
     (fun st =>
        match ride_id b with
        | None => (inl RideUnavailable, st)
        | Some rid =>
            match Store.single (pending_rides_by_id st rid) with
            | inr r => (inr (r, rid), st)
            | inl _ => (inl RideUnavailable, st)
            end
        end) ;;
   let ride := fst ride_and_id in
   let rid := snd ride_and_id in
   (fun st =>
      match Store.update_rides Store.service_role st rid
              (Store.mkRideUpdate (Some (AuthUser.id user)) (Some "accepted")
                 None None) with
      | (None, st') => (inr tt, st')
      | (Some updateError, st') => (inl (PostgrestError updateError), st')
      end) ;;;
   customer <-
     (fun st =>
        match Store.single
                (Store.profiles_by_user st (Ride.customer_id ride)) with
        | inr p => (inr p, st)
        | inl customerError => (inl (PostgrestError customerError), st)
        end) ;;
   customerAuth <-
     (fun st =>
        match Store.getUserById st (Ride.customer_id ride) with
        | Some u => (inr u, st)
        | None => (inl (Error "Customer auth details not found"), st)
        end) ;;
   (fun st =>
      let st1 :=
        snd (Store.insert_notification st now
               (Store.mkNotificationInsert rid (Ride.customer_id ride)
                  ("Your ride has been accepted by "
                   ++ Js.or_default (Profile.full_name driverProfile) "a driver"
                   ++ ". They will contact you shortly."))) in
      let st2 :=
        snd (Store.insert_notification st1 now
               (Store.mkNotificationInsert rid (AuthUser.id user)
                  ("You have successfully accepted a ride from "
                   ++ Ride.from_location ride ++ " to "
                   ++ Ride.to_location ride ++ "."))) in
      (inr tt, st2)) ;;;
   ret tt)%handler.

Definition accept_ride_raw (req : Request (Json AcceptRideRequest))
    (st : Store.t) : Response unit * Store.t :=
  try_catch (accept_ride_try_raw req) st.

End Handler.

End AcceptRide.

(* ===================================================================== *)
(** ** The dashboards                                                     *)
(* ===================================================================== *)

(** What the user is shown after a callback: [toast.success(message)],
    [toast.error(message)] with a fixed message, or [toast.error] with the
    message of a failed call. *)
Inductive Toast : Type :=
| toast_success (message : string)
| toast_error (message : string)
| toast_failure (cause : Thrown).

Module DriverDashboard.

(** [.order('created_at', { ascending: true })] *)
Fixpoint insert_by_created_at (r : Ride.t) (l : list Ride.t) : list Ride.t :=
  match l with
  | [] => [r]
  | x :: l' =>
      if (Ride.created_at r <=? Ride.created_at x)%Z then r :: l
      else x :: insert_by_created_at r l'
  end.

Definition order_by_created_at (l : list Ride.t) : list Ride.t :=
  fold_right insert_by_created_at [] l.

(** The query function of the 'available-rides' query, run as the signed-in
    user [uid] with the driver profile the first query returned. *)
Definition availableRides (st : Store.t) (uid : Uuid)
    (driverProfile : option DriverProfile.t) : list Ride.t :=
  match driverProfile with
  | None => []
  | Some dp =>
      order_by_created_at
        (filter (fun r => VehicleType_eqb (Ride.vehicle_type r)
                            (DriverProfile.vehicle_type dp))
           (filter (fun r => RideStatus_eqb (Ride.status r) Pending)
              (Store.select_rides (Store.authenticated uid) st)))
  end.

(** [updateData] of the mutation: [{ status }], then
    [if (distance) updateData.distance_km = distance] and
    [if (fare) updateData.final_fare = fare]. *)
Definition json_number (n : Js.JsNum) : option Q :=
  match n with
  | Js.Num q => Some q
  | _ => None
  end.

Definition optional_field (v : option Js.JsNum) : option (option Q) :=
  match v with
  | Some n => if Js.num_truthy n then Some (json_number n) else None
  | None => None
  end.

Definition updateData (status : string) (distance fare : option Js.JsNum)
  : Store.RideUpdate :=
  Store.mkRideUpdate None (Some status)
    (optional_field distance) (optional_field fare).

(** [updateRideStatus.mutate({ rideId, status, distance, fare })] followed by
    its [onSuccess] or [onError]. *)
Definition updateRideStatus (uid : Uuid) (st : Store.t) (rideId : Uuid)
    (status : string) (distance fare : option Js.JsNum) : Toast * Store.t :=
  match Store.update_rides (Store.authenticated uid) st rideId
          (updateData status distance fare) with
  | (None, st') => (toast_success "Ride status updated!", st')
  | (Some error, st') => (toast_failure (PostgrestError error), st')
  end.

(** [RideCard.handleStatusUpdate(newStatus)], with the card's [distance] and
    [fare] input strings. *)
Definition handleStatusUpdate (uid : Uuid) (st : Store.t) (ride : Ride.t)
    (distance fare : string) (newStatus : string) : Toast * Store.t :=
  if String.eqb newStatus "completed" then
    if negb (Js.str_truthy distance) || negb (Js.str_truthy fare) then
      (toast_error
         "Please enter distance and fare before completing the ride", st)
    else
      updateRideStatus uid st (Ride.id ride) newStatus
        (Some (Js.parseFloat distance)) (Some (Js.parseFloat fare))
  else
    updateRideStatus uid st (Ride.id ride) newStatus None None.

(** [.order('pickup_time', { ascending: true })] *)
Fixpoint insert_by_pickup_time (r : Ride.t) (l : list Ride.t) : list Ride.t :=
  match l with
  | [] => [r]
  | x :: l' =>
      if (Ride.pickup_time r <=? Ride.pickup_time x)%Z then r :: l
      else x :: insert_by_pickup_time r l'
  end.

Definition order_by_pickup_time (l : list Ride.t) : list Ride.t :=
  fold_right insert_by_pickup_time [] l.

(** The query function of the 'driver-profile' query: the caller's row, or
    [null] when [.single()] reports PGRST116. *)
Definition driverProfile (st : Store.t) (uid : Uuid)
  : option DriverProfile.t :=
  match Store.single
          (Store.select_driver_profiles (Store.authenticated uid) st uid) with
  | inr d => Some d
  | inl _ => None
  end.

(** The 'driver-rides' query ([myRides]); it is enabled only once the driver
    profile is there, and defaults to [[]]. *)
Definition myRides (st : Store.t) (uid : Uuid)
    (driverProfile : option DriverProfile.t) : list Ride.t :=
  match driverProfile with
  | None => []
  | Some _ =>
      order_by_pickup_time
        (filter (fun r => negb (RideStatus_eqb (Ride.status r) Cancelled))
           (filter (fun r => negb (RideStatus_eqb (Ride.status r) Completed))
              (filter (fun r => option_nat_eqb (Ride.driver_id r) uid)
                 (Store.select_rides (Store.authenticated uid) st))))
  end.

(** What a write to [driver_profiles] shows the user. *)
Inductive Notice : Type :=
| notice_success (message : string)
| notice_failure (error : Store.WriteError)
| notice_none.

(** [saveProfile.mutate(profileData)] with its [onSuccess] and [onError];
    [driverProfile] is the query result the component holds. *)
Definition saveProfile (uid : Uuid) (driverProfile : option DriverProfile.t)
    (st : Store.t) (profileData : Store.DriverProfileData)
  : Notice * Store.t :=
  match driverProfile with
  | Some _ =>
      (notice_success "Profile saved successfully!",
       Store.update_driver_profiles uid st
         (fun d =>
            DriverProfile.mk (DriverProfile.id d) (DriverProfile.user_id d)
              (Store.data_vehicle_type profileData)
              (Store.data_vehicle_number profileData)
              (Some (Store.data_license_number profileData))
              (Some (Store.data_is_available profileData))))
  | None =>
      match Store.insert_driver_profile uid st profileData with
      | (None, st') => (notice_success "Profile saved successfully!", st')
      | (Some error, st') => (notice_failure error, st')
      end
  end.

(** [handleProfileSubmit], with the form's state. *)
Definition handleProfileSubmit (uid : Uuid)
    (driverProfile : option DriverProfile.t) (st : Store.t)
    (vehicleType : VehicleType) (vehicleNumber licenseNumber : string)
  : Notice * Store.t :=
  saveProfile uid driverProfile st
    (Store.mkDriverProfileData vehicleType vehicleNumber licenseNumber true).


(** [acceptRide.mutate(rideId)]: the accept-ride function is invoked with the
    session's bearer token. *)
Definition acceptRide (now : Z) (bearer : string) (st : Store.t)
    (rideId : Uuid) : Toast * Store.t :=
  match AcceptRide.serve now
          (mkRequest "POST" (Some ("Bearer " ++ bearer))
             (AcceptRide.mkAcceptRideRequest (Some rideId))) st with
  | (Err400 e, st') => (toast_failure e, st')
  | (_, st') => (toast_success "Ride accepted successfully!", st')
  end.

(** The body of the "Available Rides" card. *)
Inductive AvailableRidesCard : Type :=
| turn_on_availability
| no_ride_requests
| ride_requests (rides : list Ride.t).

Definition availableRidesCard (driverProfile : option DriverProfile.t)
    (availableRides : list Ride.t) : AvailableRidesCard :=
  match driverProfile with
  | Some d =>
      match DriverProfile.is_available d with
      | Some true =>
          match availableRides with
          | [] => no_ride_requests
          | _ :: _ => ride_requests availableRides
          end
      | _ => turn_on_availability
      end
  | None => turn_on_availability
  end.



End DriverDashboard.

Module CustomerDashboard.

Section Submit.

Variable timestamptz_in : string -> option Z.
Variable random : Q.
Variable now : Z.

(** [handleSubmit]: the form's state, then [createRide.mutate(...)], which
    posts to the create-ride function with the session's bearer token. *)
Definition handleSubmit (bearer : string) (st : Store.t)
    (fromLocation toLocation pickupTime : string) (vehicleType : VehicleType)
    (notes : string) : Toast * Store.t :=
  if negb (Js.str_truthy fromLocation) || negb (Js.str_truthy toLocation)
     || negb (Js.str_truthy pickupTime) then
    (toast_error "Please fill in all required fields", st)
  else
    match CreateRide.serve timestamptz_in random now
            (mkRequest "POST" (Some ("Bearer " ++ bearer))
               (CreateRide.mkCreateRideRequest
                  (Js.JString fromLocation) (Js.JString toLocation)
                  (Js.JString pickupTime)
                  (Js.JString (vehicle_type_text vehicleType))
                  (if Js.str_truthy notes then Js.JString notes
                   else Js.JNull)))
            st with
    | (Err400 e, st') => (toast_failure e, st')
    | (_, st') => (toast_success "Ride request created successfully!", st')
    end.

End Submit.

(** [.order('created_at', { ascending: false })] *)
Fixpoint insert_by_created_at_desc (r : Ride.t) (l : list Ride.t)
  : list Ride.t :=
  match l with
  | [] => [r]
  | x :: l' =>
      if (Ride.created_at x <=? Ride.created_at r)%Z then r :: l
      else x :: insert_by_created_at_desc r l'
  end.

Definition order_by_created_at_desc (l : list Ride.t) : list Ride.t :=
  fold_right insert_by_created_at_desc [] l.

(** The query function of the 'customer-rides' query, run as the signed-in
    user [uid]. *)
Definition rides (st : Store.t) (uid : Uuid) : list Ride.t :=
  order_by_created_at_desc
    (filter (fun r => Nat.eqb (Ride.customer_id r) uid)
       (Store.select_rides (Store.authenticated uid) st)).

End CustomerDashboard.

(* ===================================================================== *)
(** ** Vocabulary of the statements                                       *)
(* ===================================================================== *)

(** The base fares as the specification lists them. *)
Definition base (v : VehicleType) : Z :=
  match v with
  | Bike => 30%Z
  | Auto => 50%Z
  | Car => 80%Z
  end.

(** The store's refusal of a value for its column (a data exception or a
    NOT NULL violation): the failures the specification files under
    ValidationError when they reach the caller of create-ride. *)
Definition input_rejected (e : Store.PgError) : bool :=
  match e with
  | Store.not_null_violation _
  | Store.invalid_text_representation _ _
  | Store.invalid_datetime_format _
  | Store.numeric_value_out_of_range _ => true
  | Store.foreign_key_violation _
  | Store.PGRST116 => false
  end.

(** The caller's bearer token resolves to [user], who has exactly one
    profile row. *)
Definition identified (req_authorization : option string) (st : Store.t)
    (user : AuthUser.t) (profile : Profile.t) : Prop :=
  authenticate req_authorization st = (inr user, st)
  /\ Store.single (Store.profiles_by_user st (AuthUser.id user)) = inr profile.

(** The store after accept-ride's update statement for driver [uid] on ride
    [rid]. *)
Definition accept_commit (st : Store.t) (uid rid : Uuid) : Store.t :=
  snd (Store.update_rides Store.service_role st rid
         (Store.mkRideUpdate (Some uid) (Some "accepted") None None)).

(** What accept-ride's update writes into a row. *)
Definition accepted_row (uid : Uuid) (r : Ride.t) : Ride.t :=
  Store.apply_patch
    (Store.mkRidePatch (Some uid) (Some Accepted) None None) r.

(** The two rows accept-ride adds to [ride_notifications], the customer's
    first. *)
Definition accept_notifications (now : Z) (st : Store.t)
    (driverProfile : Profile.t) (uid rid : Uuid) (ride : Ride.t)
  : list RideNotification.t :=
  let n1 :=
    RideNotification.mk
      (Store.gen_random_uuid
         (map RideNotification.id (Store.ride_notifications st)))
      rid (Ride.customer_id ride)
      ("Your ride has been accepted by "
       ++ Js.or_default (Profile.full_name driverProfile) "a driver"
       ++ ". They will contact you shortly.")
      (Some false) now in
  let n2 :=
    RideNotification.mk
      (Store.gen_random_uuid
         (map RideNotification.id (Store.ride_notifications st ++ [n1])))
      rid uid
      ("You have successfully accepted a ride from "
       ++ Ride.from_location ride ++ " to " ++ Ride.to_location ride ++ ".")
      (Some false) now in
  [n1; n2].

(** The row create-ride hands to the insert. *)
Definition create_ride_row (random : Q)
    (req : Request CreateRide.CreateRideRequest) (uid : Uuid)
  : Store.RideInsert :=
  Store.mkRideInsert uid
    (CreateRide.from_location (json req)) (CreateRide.to_location (json req))
    (CreateRide.pickup_time (json req)) (CreateRide.vehicle_type (json req))
    (CreateRide.notes (json req))
    (CreateRide.estimatedFare (CreateRide.vehicle_type (json req)) random).

(** A request field that is absent or [null]. *)
Definition missing (v : Js.JsVal) : Prop := v = Js.JUndefined \/ v = Js.JNull.

(** PRIMARY KEY of [rides]. *)
Definition rides_pkey (st : Store.t) : Prop :=
  NoDup (map Ride.id (Store.rides st)).

Definition created_at_le (a b : Ride.t) : Prop :=
  (Ride.created_at a <= Ride.created_at b)%Z.

(** No pending ride has a driver. *)
Definition pending_unassigned (st : Store.t) : Prop :=
  forall r, In r (Store.rides st) -> Ride.status r = Pending ->
            Ride.driver_id r = None.

(** [UNIQUE(user_id)] of [driver_profiles]. *)
Definition driver_profiles_user_id_key (st : Store.t) : Prop :=
  NoDup (map DriverProfile.user_id (Store.driver_profiles st)).

Definition pickup_time_le (a b : Ride.t) : Prop :=
  (Ride.pickup_time a <= Ride.pickup_time b)%Z.

Definition created_at_ge (a b : Ride.t) : Prop :=
  (Ride.created_at b <= Ride.created_at a)%Z.

(* ===================================================================== *)
(** ** Sample data                                                        *)
(* ===================================================================== *)

Module Sample.

(** A stand-in for the store's timestamp input: any non-empty text. *)
Definition timestamptz_in (s : string) : option Z :=
  if Js.str_truthy s then Some (Z.of_nat (String.length s)) else None.

Definition customer : Uuid := 1.
Definition driver : Uuid := 2.

Definition store : Store.t :=
  Store.mk
    [AuthUser.mk customer "customer@example.org";
     AuthUser.mk driver "driver@example.org"]
    [("customer-token", customer); ("driver-token", driver)]
    [Profile.mk customer (Some "Asha") None Customer;
     Profile.mk driver (Some "Ravi") (Some "555-0100") Rider]
    [DriverProfile.mk 10 driver Car "KA-01-1234" None (Some true)]
    [] [].

Definition booking (vehicle_type : Js.JsVal)
  : Request CreateRide.CreateRideRequest :=
  mkRequest "POST" (Some "Bearer customer-token")
    (CreateRide.mkCreateRideRequest
       (Js.JString "City Center") (Js.JString "Airport")
       (Js.JString "2025-09-02T10:00:00Z") vehicle_type Js.JUndefined).

(** The store once the customer has booked a car. *)
Definition booked : Store.t :=
  snd (CreateRide.create_ride timestamptz_in (1 # 2) 100
         (booking (Js.JString "car")) store).

(** The row that booking created. *)
Definition ride : Ride.t :=
  Ride.mk 1 customer None "City Center" "Airport" 20 Car
    None (Some 13000%Z) None Pending None 100.

Definition acceptance (token : string) (rid : Uuid)
  : Request AcceptRide.AcceptRideRequest :=
  mkRequest "POST" (Some ("Bearer " ++ token))
    (AcceptRide.mkAcceptRideRequest (Some rid)).

(** The store once the driver has accepted ride 1. *)
Definition accepted : Store.t :=
  snd (AcceptRide.accept_ride 200 (acceptance "driver-token" 1) booked).

(** [booked], after the customer's account was deleted from the identity
    service: the profile row and the ride are still there. *)
Definition customer_account_deleted : Store.t :=
  Store.mk [AuthUser.mk driver "driver@example.org"]
    (Store.sessions booked) (Store.profiles booked)
    (Store.driver_profiles booked) (Store.rides booked)
    (Store.ride_notifications booked).

(** [booked], where the customer has also filled in a driver profile, for a
    bike. *)
Definition customer_drives_too : Store.t :=
  Store.mk (Store.auth_users booked) (Store.sessions booked)
    (Store.profiles booked)
    (DriverProfile.mk 11 customer Bike "KA-05-0007" None (Some true)
     :: Store.driver_profiles booked)
    (Store.rides booked) (Store.ride_notifications booked).

(** The store once the driver has started the ride. *)
Definition started : Store.t :=
  snd (DriverDashboard.handleStatusUpdate driver accepted
         (accepted_row driver ride) "" "130" "in_progress").

(** The driver's card for the ride under way. *)
Definition ride_under_way : Ride.t :=
  Ride.mk 1 customer (Some driver) "City Center" "Airport" 20 Car
    None (Some 13000%Z) None InProgress None 100.

(** The driver profile the first query of the dashboard returns. *)
Definition driver_profile : DriverProfile.t :=
  DriverProfile.mk 10 driver Car "KA-01-1234" None (Some true).

End Sample.

(* ===================================================================== *)
(** ** The fare estimate                                                  *)
(* ===================================================================== *)

Lemma baseFare_base (v : VehicleType) :
  CreateRide.baseFare (Js.JString (vehicle_type_text v)) = base v.
Proof. destruct v; reflexivity. Qed.

(** [Math.round] of an integer plus a fraction in [0, 100). *)
Lemma Math_round_range (b : Z) (random : Q) :
  (0 <= random)%Q -> (random < 1)%Q ->
  (b <= Js.Math_round (inject_Z b + random * 100)%Q <= b + 100)%Z.
Proof.
  intros Hlo Hhi. unfold Js.Math_round. split.
  - rewrite <- (Qfloor_Z b) at 1. apply Qfloor_resp_le.
    rewrite <- Qplus_assoc. rewrite <- (Qplus_0_r (inject_Z b)) at 1.
    apply Qplus_le_r.
    apply Qle_trans with (0 * 100 + (1 # 2))%Q; [discriminate|].
    apply Qplus_le_l. apply Qmult_le_compat_r; [exact Hlo | discriminate].
  - assert (H : (inject_Z (Qfloor (inject_Z b + random * 100 + (1 # 2)))
                 < inject_Z (b + 101))%Q).
    { eapply Qle_lt_trans; [apply Qfloor_le|].
      rewrite inject_Z_plus. rewrite <- Qplus_assoc.
      apply Qplus_lt_r.
      apply Qlt_le_trans with (1 * 100 + (1 # 2))%Q; [|discriminate].
      apply Qplus_lt_l. apply Qmult_lt_compat_r; [reflexivity | exact Hhi]. }
    rewrite <- Zlt_Qlt in H. lia.
Qed.

(** C2, as stated, fails: with [Math.random()] returning 255/256 the bike
    fare is [Math.round(30 + 99.609375) = 130], which is not strictly below
    [base(bike) + 100 = 130]. *)
Lemma estimatedFare_upper_bound_reached :
  (0 <= 255 # 256)%Q /\ (255 # 256 < 1)%Q
  /\ CreateRide.estimatedFare (Js.JString "bike") (255 # 256) = 130%Z
  /\ ~ (CreateRide.estimatedFare (Js.JString (vehicle_type_text Bike))
          (255 # 256) < base Bike + 100)%Z.
Proof.
  split; [discriminate|]. split; [reflexivity|]. split; [reflexivity|].
  vm_compute. discriminate.
Qed.

(** C2, amended: for every vehicle type in {auto, car, bike} the estimated
    fare of create-ride is [round(base(type) + random() * 100)] with
    base(bike)=30, base(auto)=50, base(car)=80, and for every outcome of
    [random()] in [0,1) it is at least base(type) and at most
    base(type) + 100. *)
Theorem estimatedFare_range (v : VehicleType) (random : Q) :
  (0 <= random)%Q -> (random < 1)%Q ->
  CreateRide.estimatedFare (Js.JString (vehicle_type_text v)) random
  = Js.Math_round (inject_Z (base v) + random * 100)%Q
  /\ (base v
      <= CreateRide.estimatedFare (Js.JString (vehicle_type_text v)) random
      <= base v + 100)%Z.
Proof.
  intros Hlo Hhi. unfold CreateRide.estimatedFare.
  rewrite baseFare_base. split; [reflexivity|].
  apply Math_round_range; assumption.
Qed.

Lemma estimatedFare_range_witness :
  CreateRide.estimatedFare (Js.JString (vehicle_type_text Car)) (1 # 2)
  = Js.Math_round (inject_Z (base Car) + (1 # 2) * 100)%Q
  /\ (base Car
      <= CreateRide.estimatedFare (Js.JString (vehicle_type_text Car)) (1 # 2)
      <= base Car + 100)%Z.
Proof.
  apply (estimatedFare_range Car (1 # 2)); [discriminate | reflexivity].
Defined.

(* ===================================================================== *)
(** ** Facts about the store primitives                                   *)
(* ===================================================================== *)

Lemma single_inr {A : Type} (l : list A) (x : A) :
  Store.single l = inr x <-> l = [x].
Proof.
  split.
  - destruct l as [|a [|b l]]; simpl; intros H; inversion H; reflexivity.
  - intros ->. reflexivity.
Qed.

Lemma single_has_profile (st : Store.t) (uid : Uuid) (p : Profile.t) :
  Store.single (Store.profiles_by_user st uid) = inr p ->
  Store.has_profile st uid = true.
Proof.
  intros H. apply single_inr in H.
  assert (Hin : In p (Store.profiles_by_user st uid)) by (rewrite H; left; reflexivity).
  unfold Store.profiles_by_user in Hin. apply filter_In in Hin.
  unfold Store.has_profile. apply existsb_exists. exists p. exact Hin.
Qed.

Lemma authenticate_store (h : option string) (st st' : Store.t)
    (r : Thrown + AuthUser.t) :
  authenticate h st = (r, st') -> st' = st.
Proof.
  unfold authenticate, throw.
  destruct h as [h|]; [destruct (Js.str_truthy h)|].
  - destruct (Store.getUser st _); intros H; inversion H; reflexivity.
  - intros H; inversion H; reflexivity.
  - intros H; inversion H; reflexivity.
Qed.

Lemma authenticate_surj (h : option string) (st : Store.t) :
  authenticate h st = (fst (authenticate h st), st).
Proof.
  destruct (authenticate h st) as [r st'] eqn:E.
  apply authenticate_store in E. subst. reflexivity.
Qed.

Lemma update_rides_accept (st : Store.t) (uid rid : Uuid) :
  Store.has_profile st uid = true ->
  Store.update_rides Store.service_role st rid
    (Store.mkRideUpdate (Some uid) (Some "accepted") None None)
  = (None,
     Store.with_rides st
       (map (fun r => if Nat.eqb (Ride.id r) rid then accepted_row uid r else r)
          (Store.rides st))).
Proof.
  intros Hp. unfold Store.update_rides. simpl. rewrite Hp. simpl.
  f_equal. f_equal. apply map_ext. intros r.
  rewrite andb_true_r. reflexivity.
Qed.

Lemma accept_commit_rides (st : Store.t) (uid rid : Uuid) :
  Store.has_profile st uid = true ->
  accept_commit st uid rid
  = Store.with_rides st
      (map (fun r => if Nat.eqb (Ride.id r) rid then accepted_row uid r else r)
         (Store.rides st)).
Proof.
  intros Hp. unfold accept_commit. rewrite update_rides_accept by exact Hp.
  reflexivity.
Qed.

Lemma accepted_row_id (uid : Uuid) (r : Ride.t) :
  Ride.id (accepted_row uid r) = Ride.id r.
Proof. reflexivity. Qed.

(** After the update no row with that id is pending any more. *)
Lemma no_pending_after_commit (rs : list Ride.t) (uid rid : Uuid) :
  filter (fun r => RideStatus_eqb (Ride.status r) Pending)
    (filter (fun r => Nat.eqb (Ride.id r) rid)
       (map (fun r => if Nat.eqb (Ride.id r) rid then accepted_row uid r else r)
          rs))
  = [].
Proof.
  induction rs as [|r rs IH]; [reflexivity|].
  simpl. destruct (Nat.eqb (Ride.id r) rid) eqn:E.
  - rewrite accepted_row_id, E. simpl. exact IH.
  - rewrite E. exact IH.
Qed.

Lemma insert_notification_ok (st : Store.t) (now : Z)
    (row : Store.NotificationInsert) :
  Store.has_ride st (Store.ins_ride_id row) = true ->
  Store.has_profile st (Store.ins_user_id row) = true ->
  Store.insert_notification st now row
  = (None,
     Store.with_ride_notifications st
       (Store.ride_notifications st
        ++ [RideNotification.mk
              (Store.gen_random_uuid
                 (map RideNotification.id (Store.ride_notifications st)))
              (Store.ins_ride_id row) (Store.ins_user_id row)
              (Store.ins_message row) (Some false) now])).
Proof.
  intros Hr Hp. unfold Store.insert_notification.
  rewrite Hr, Hp. reflexivity.
Qed.

(** [gen_random_uuid] yields an id above every id of the table. *)
Lemma gen_random_uuid_fresh (taken : list Uuid) :
  ~ In (Store.gen_random_uuid taken) taken.
Proof.
  assert (H : forall x, In x taken -> x <= fold_right Nat.max 0 taken).
  { induction taken as [|a l IH]; simpl; [contradiction|].
    intros x [->|Hx]; [lia|]. specialize (IH x Hx). lia. }
  intros Hin. apply H in Hin. unfold Store.gen_random_uuid in Hin. lia.
Qed.

(* ===================================================================== *)
(** ** accept-ride, step by step                                          *)
(* ===================================================================== *)

Lemma pending_rides_by_id_In (st : Store.t) (rid : Uuid) (r : Ride.t) :
  In r (AcceptRide.pending_rides_by_id st rid)
  <-> In r (Store.rides st) /\ Ride.id r = rid /\ Ride.status r = Pending.
Proof.
  unfold AcceptRide.pending_rides_by_id, Store.select_rides.
  rewrite !filter_In. simpl.
  rewrite Nat.eqb_eq.
  assert (Hs : RideStatus_eqb (Ride.status r) Pending = true
               <-> Ride.status r = Pending).
  { destruct (Ride.status r); simpl; split; congruence. }
  rewrite Hs. tauto.
Qed.

Lemma has_ride_after_commit (st : Store.t) (uid rid : Uuid) (r : Ride.t) :
  In r (Store.rides st) -> Ride.id r = rid ->
  Store.has_ride
    (Store.with_rides st
       (map (fun r => if Nat.eqb (Ride.id r) rid then accepted_row uid r else r)
          (Store.rides st))) rid = true.
Proof.
  intros Hin Hid. unfold Store.has_ride. simpl.
  apply existsb_exists. exists (accepted_row uid r). split.
  - apply in_map_iff. exists r. split; [|exact Hin].
    rewrite Hid, Nat.eqb_refl. reflexivity.
  - rewrite accepted_row_id, Hid. apply Nat.eqb_refl.
Qed.

(** The handler as a decision tree over the store it is called on: every
    failure before the update leaves the store as it was; after the update
    the store is [accept_commit], whatever the handler answers. *)
Lemma accept_ride_eq (now : Z) (req : Request AcceptRide.AcceptRideRequest)
    (st : Store.t) :
  AcceptRide.accept_ride now req st =
  match fst (authenticate (authorization req) st) with
  | inl e => (Err400 e, st)
  | inr user =>
    match Store.single (Store.profiles_by_user st (AuthUser.id user)) with
    | inl _ => (Err400 (Error "Driver profile not found"), st)
    | inr driverProfile =>
      match Store.single
              (Store.driver_profiles_by_user st (AuthUser.id user)) with
      | inl _ => (Err400 (Error "Driver vehicle profile not found"), st)
      | inr _ =>
        match AcceptRide.ride_id (json req) with
        | None => (Err400 AcceptRide.RideUnavailable, st)
        | Some rid =>
          match Store.single (AcceptRide.pending_rides_by_id st rid) with
          | inl _ => (Err400 AcceptRide.RideUnavailable, st)
          | inr ride =>
            let st_c := accept_commit st (AuthUser.id user) rid in
            match Store.single
                    (Store.profiles_by_user st (Ride.customer_id ride)) with
            | inl e => (Err400 (PostgrestError e), st_c)
            | inr _ =>
              match Store.getUserById st (Ride.customer_id ride) with
              | None =>
                  (Err400 (Error "Customer auth details not found"), st_c)
              | Some _ =>
                  (Ok200 tt,
                   Store.with_ride_notifications st_c
                     (Store.ride_notifications st
                      ++ accept_notifications now st driverProfile
                           (AuthUser.id user) rid ride))
              end
            end
          end
        end
      end
    end
  end.
Proof.
  unfold AcceptRide.accept_ride, try_catch, AcceptRide.accept_ride_try, bind, ret.
  rewrite (authenticate_surj (authorization req) st).
  destruct (fst (authenticate (authorization req) st)) as [e|user];
    cbn [fst snd]; [reflexivity|].
  destruct (Store.single (Store.profiles_by_user st (AuthUser.id user)))
    as [e|driverProfile] eqn:Hp; [reflexivity|].
  destruct (Store.single (Store.driver_profiles_by_user st (AuthUser.id user)))
    as [e|driverVehicle] eqn:Hd; [reflexivity|].
  destruct (AcceptRide.ride_id (json req)) as [rid|]; [|reflexivity].
  destruct (Store.single (AcceptRide.pending_rides_by_id st rid))
    as [e|ride] eqn:Hr; [reflexivity|].
  cbn [fst snd].
  pose proof (single_has_profile _ _ _ Hp) as Hhp.
  rewrite accept_commit_rides by exact Hhp.
  rewrite update_rides_accept by exact Hhp.
  change (Store.profiles_by_user (Store.with_rides st ?rs))
    with (Store.profiles_by_user st).
  set (st_c := Store.with_rides st _).
  change (Store.profiles_by_user st_c (Ride.customer_id ride))
    with (Store.profiles_by_user st (Ride.customer_id ride)).
  destruct (Store.single (Store.profiles_by_user st (Ride.customer_id ride)))
    as [e|customer] eqn:Hc; [reflexivity|].
  change (Store.getUserById st_c (Ride.customer_id ride))
    with (Store.getUserById st (Ride.customer_id ride)).
  destruct (Store.getUserById st (Ride.customer_id ride)) as [cu|];
    [|reflexivity].
  assert (Hin : In ride (Store.rides st) /\ Ride.id ride = rid
                /\ Ride.status ride = Pending).
  { apply pending_rides_by_id_In. apply single_inr in Hr. rewrite Hr.
    left; reflexivity. }
  destruct Hin as (Hin & Hid & _).
  pose proof (has_ride_after_commit st (AuthUser.id user) rid ride Hin Hid)
    as Hhr. fold st_c in Hhr.
  pose proof (single_has_profile _ _ _ Hc) as Hhc.
  rewrite (insert_notification_ok st_c); [|exact Hhr|exact Hhc].
  cbn [snd].
  rewrite insert_notification_ok; [|exact Hhr|exact Hhp].
  cbn [snd]. unfold accept_notifications.
  f_equal. unfold Store.with_ride_notifications. cbn.
  rewrite <- app_assoc. reflexivity.
Qed.

Lemma select_rides_service_role (st : Store.t) :
  Store.select_rides Store.service_role st = Store.rides st.
Proof.
  unfold Store.select_rides. induction (Store.rides st) as [|r rs IH];
    [reflexivity|]. simpl. rewrite IH. reflexivity.
Qed.

Lemma filter_id_absent (rs : list Ride.t) (rid : Uuid) :
  ~ In rid (map Ride.id rs) ->
  filter (fun x => Nat.eqb (Ride.id x) rid) rs = [].
Proof.
  induction rs as [|a rs IH]; [reflexivity|]. simpl. intros Hnotin.
  destruct (Nat.eqb (Ride.id a) rid) eqn:E.
  - apply Nat.eqb_eq in E. exfalso. apply Hnotin. left. exact E.
  - apply IH. intros H. apply Hnotin. right. exact H.
Qed.

(** Under the primary key at most one row has a given id. *)
Lemma filter_id_unique (rs : list Ride.t) (rid : Uuid) (r : Ride.t) :
  NoDup (map Ride.id rs) -> In r rs -> Ride.id r = rid ->
  filter (fun x => Nat.eqb (Ride.id x) rid) rs = [r].
Proof.
  induction rs as [|a rs IH]; simpl; [contradiction|].
  intros Hnd Hin Hid.
  inversion Hnd as [|? ? Hnotin Hnd']; subst.
  destruct Hin as [->|Hin].
  - rewrite Nat.eqb_refl. f_equal. apply filter_id_absent. exact Hnotin.
  - destruct (Nat.eqb (Ride.id a) (Ride.id r)) eqn:E.
    + apply Nat.eqb_eq in E. exfalso. apply Hnotin. rewrite E.
      apply in_map. exact Hin.
    + apply IH; [exact Hnd' | exact Hin | reflexivity].
Qed.

Lemma single_pending_iff (st : Store.t) (rid : Uuid) :
  rides_pkey st ->
  ((exists ride, Store.single (AcceptRide.pending_rides_by_id st rid)
                 = inr ride)
   <-> exists r, In r (Store.rides st) /\ Ride.id r = rid
                 /\ Ride.status r = Pending).
Proof.
  intros Hpk. split.
  - intros [ride H]. exists ride. apply pending_rides_by_id_In.
    apply single_inr in H. rewrite H. left; reflexivity.
  - intros (r & Hin & Hid & Hst). exists r. apply single_inr.
    unfold AcceptRide.pending_rides_by_id.
    rewrite select_rides_service_role.
    rewrite (filter_id_unique _ rid r Hpk Hin Hid).
    simpl. rewrite Hst. reflexivity.
Qed.

(** Once a call has reached its update no row with that id is pending. *)
Lemma no_pending_after_accept (now : Z)
    (req : Request AcceptRide.AcceptRideRequest) (st : Store.t) (rid : Uuid) :
  AcceptRide.ride_id (json req) = Some rid ->
  fst (AcceptRide.accept_ride now req st) = Ok200 tt
  \/ snd (AcceptRide.accept_ride now req st) <> st ->
  AcceptRide.pending_rides_by_id
    (snd (AcceptRide.accept_ride now req st)) rid = [].
Proof.
  intros Hrid. rewrite accept_ride_eq. rewrite Hrid.
  destruct (fst (authenticate (authorization req) st)) as [e|user];
    [cbn; intros [H|H]; [discriminate|contradiction]|].
  destruct (Store.single (Store.profiles_by_user st (AuthUser.id user)))
    as [e|driverProfile] eqn:Hp;
    [cbn; intros [H|H]; [discriminate|contradiction]|].
  destruct (Store.single (Store.driver_profiles_by_user st (AuthUser.id user)))
    as [e|driverVehicle];
    [cbn; intros [H|H]; [discriminate|contradiction]|].
  destruct (Store.single (AcceptRide.pending_rides_by_id st rid))
    as [e|ride];
    [cbn; intros [H|H]; [discriminate|contradiction]|].
  intros _. cbv zeta.
  rewrite accept_commit_rides by (eapply single_has_profile; exact Hp).
  unfold AcceptRide.pending_rides_by_id. rewrite select_rides_service_role.
  destruct (Store.single (Store.profiles_by_user st (Ride.customer_id ride)));
    [|destruct (Store.getUserById st (Ride.customer_id ride))];
    cbn [snd Store.rides Store.with_rides Store.with_ride_notifications];
    apply no_pending_after_commit.
Qed.

(** With no pending row of that id the call fails and writes nothing. *)
Lemma accept_ride_without_pending (now : Z)
    (req : Request AcceptRide.AcceptRideRequest) (st : Store.t) (rid : Uuid) :
  AcceptRide.ride_id (json req) = Some rid ->
  AcceptRide.pending_rides_by_id st rid = [] ->
  (exists e, AcceptRide.accept_ride now req st = (Err400 e, st))
  /\ (forall user profile vehicle,
        identified (authorization req) st user profile ->
        Store.single (Store.driver_profiles_by_user st (AuthUser.id user))
        = inr vehicle ->
        AcceptRide.accept_ride now req st
        = (Err400 AcceptRide.RideUnavailable, st)).
Proof.
  intros Hrid Hnone. rewrite accept_ride_eq. rewrite Hrid, Hnone.
  split.
  - destruct (fst (authenticate (authorization req) st)) as [e|user];
      [eexists; reflexivity|].
    destruct (Store.single (Store.profiles_by_user st (AuthUser.id user)));
      [eexists; reflexivity|].
    destruct (Store.single
                (Store.driver_profiles_by_user st (AuthUser.id user)));
      eexists; reflexivity.
  - intros user profile vehicle [Ha Hp] Hd.
    rewrite Ha. cbn [fst]. rewrite Hp, Hd. reflexivity.
Qed.

(** C1. accept-ride fails with 'Ride not found or already accepted'
    (RideUnavailable) exactly when no row of [rides] has the requested id
    and status pending, for a caller who passes the identity, profile and
    driver-profile checks; and when accept-ride is called twice in sequence
    for the same ride, a second call after a first that succeeded (or that
    got as far as its update) fails, with RideUnavailable for such a caller,
    and writes nothing: at most one call succeeds. *)
Theorem accept_ride_unavailable :
  (forall now req st user profile vehicle rid,
     identified (authorization req) st user profile ->
     Store.single (Store.driver_profiles_by_user st (AuthUser.id user))
     = inr vehicle ->
     AcceptRide.ride_id (json req) = Some rid ->
     rides_pkey st ->
     (fst (AcceptRide.accept_ride now req st)
      = Err400 AcceptRide.RideUnavailable
      <-> ~ exists r, In r (Store.rides st) /\ Ride.id r = rid
                      /\ Ride.status r = Pending))
  /\
  (forall now1 now2 req1 req2 st rid,
     AcceptRide.ride_id (json req1) = Some rid ->
     AcceptRide.ride_id (json req2) = Some rid ->
     fst (AcceptRide.accept_ride now1 req1 st) = Ok200 tt
     \/ snd (AcceptRide.accept_ride now1 req1 st) <> st ->
     let st1 := snd (AcceptRide.accept_ride now1 req1 st) in
     (exists e, AcceptRide.accept_ride now2 req2 st1 = (Err400 e, st1))
     /\ (forall user profile vehicle,
           identified (authorization req2) st1 user profile ->
           Store.single
             (Store.driver_profiles_by_user st1 (AuthUser.id user))
           = inr vehicle ->
           AcceptRide.accept_ride now2 req2 st1
           = (Err400 AcceptRide.RideUnavailable, st1))).
Proof.
  split.
  - intros now req st user profile vehicle rid [Ha Hp] Hd Hrid Hpk.
    rewrite <- (single_pending_iff st rid Hpk).
    rewrite accept_ride_eq. rewrite Ha. cbn [fst]. rewrite Hp, Hd, Hrid.
    destruct (Store.single (AcceptRide.pending_rides_by_id st rid))
      as [e|ride] eqn:Hr.
    + split; [|reflexivity]. intros _ [ride H]. discriminate.
    + split; [|intros H; exfalso; apply H; exists ride; reflexivity].
      cbv zeta.
      destruct (Store.single
                  (Store.profiles_by_user st (Ride.customer_id ride)));
        [|destruct (Store.getUserById st (Ride.customer_id ride))];
        cbn [fst]; intros H; discriminate.
  - intros now1 now2 req1 req2 st rid Hrid1 Hrid2 Hdone st1.
    apply accept_ride_without_pending with (rid := rid); [exact Hrid2|].
    apply no_pending_after_accept; assumption.
Qed.

Lemma accept_ride_unavailable_witness :
  (fst (AcceptRide.accept_ride 200 (Sample.acceptance "driver-token" 1)
          Sample.booked)
   = Err400 AcceptRide.RideUnavailable
   <-> ~ exists r, In r (Store.rides Sample.booked) /\ Ride.id r = 1
                   /\ Ride.status r = Pending)
  /\ ((exists e,
         AcceptRide.accept_ride 300 (Sample.acceptance "driver-token" 1)
           Sample.accepted
         = (Err400 e, Sample.accepted))
      /\ (forall user profile vehicle,
            identified
              (authorization (Sample.acceptance "driver-token" 1))
              Sample.accepted user profile ->
            Store.single
              (Store.driver_profiles_by_user Sample.accepted
                 (AuthUser.id user))
            = inr vehicle ->
            AcceptRide.accept_ride 300 (Sample.acceptance "driver-token" 1)
              Sample.accepted
            = (Err400 AcceptRide.RideUnavailable, Sample.accepted))).
Proof.
  split.
  - apply (proj1 accept_ride_unavailable 200%Z
             (Sample.acceptance "driver-token" 1) Sample.booked
             (AuthUser.mk Sample.driver "driver@example.org")
             (Profile.mk Sample.driver (Some "Ravi") (Some "555-0100") Rider)
             (DriverProfile.mk 10 Sample.driver Car "KA-01-1234" None
                (Some true))
             1).
    + split; reflexivity.
    + reflexivity.
    + reflexivity.
    + unfold rides_pkey. simpl. constructor; [simpl; tauto | constructor].
  - apply (proj2 accept_ride_unavailable 200%Z 300%Z
             (Sample.acceptance "driver-token" 1)
             (Sample.acceptance "driver-token" 1) Sample.booked 1).
    + reflexivity.
    + reflexivity.
    + left. reflexivity.
Defined.

(** C5 fails on the code. The customer of the pending ride 1 has a profile
    but no account in the identity service any more; the driver accepts.
    The handler answers 400 'Customer auth details not found', yet it has
    already written the row: the ride is accepted and assigned. *)
Theorem accept_ride_error_after_update :
  let st := Sample.customer_account_deleted in
  let out := AcceptRide.accept_ride 200 (Sample.acceptance "driver-token" 1)
               st in
  map (fun r => (Ride.id r, Ride.status r, Ride.driver_id r)) (Store.rides st)
  = [(1, Pending, None)]
  /\ fst out = Err400 (Error "Customer auth details not found")
  /\ map (fun r => (Ride.id r, Ride.status r, Ride.driver_id r))
       (Store.rides (snd out))
     = [(1, Accepted, Some Sample.driver)].
Proof. repeat split. Qed.

(** What does hold: a failure of any check up to and including the lookup of
    the pending ride leaves the whole store as it was. *)
Lemma accept_ride_early_failure (now : Z)
    (req : Request AcceptRide.AcceptRideRequest) (st : Store.t)
    (message : string) :
  fst (AcceptRide.accept_ride now req st) = Err400 (Error message) ->
  message <> "Customer auth details not found" ->
  snd (AcceptRide.accept_ride now req st) = st.
Proof.
  rewrite accept_ride_eq.
  destruct (fst (authenticate (authorization req) st)); [reflexivity|].
  destruct (Store.single (Store.profiles_by_user st _)); [reflexivity|].
  destruct (Store.single (Store.driver_profiles_by_user st _));
    [reflexivity|].
  destruct (AcceptRide.ride_id (json req)); [|reflexivity].
  destruct (Store.single (AcceptRide.pending_rides_by_id st _));
    [reflexivity|].
  cbv zeta.
  destruct (Store.single (Store.profiles_by_user st _));
    [cbn; discriminate|].
  destruct (Store.getUserById st _); cbn; [discriminate|].
  intros H Hm. inversion H. congruence.
Qed.

(** C7. Whenever accept-ride answers 200 for driver D and ride R, the ride
    was pending, every row with R's id now has driver_id = D and status
    accepted (and R's row is among them), all other rows are as before, and
    exactly two rows were added to ride_notifications, both for R: the first
    addressed to R's customer, the second to D. *)
Theorem accept_ride_success (now : Z)
    (req : Request AcceptRide.AcceptRideRequest) (st st' : Store.t) :
  AcceptRide.accept_ride now req st = (Ok200 tt, st') ->
  exists D R,
    authenticate (authorization req) st = (inr D, st)
    /\ AcceptRide.ride_id (json req) = Some (Ride.id R)
    /\ In R (Store.rides st) /\ Ride.status R = Pending
    /\ Store.rides st'
       = map (fun r => if Nat.eqb (Ride.id r) (Ride.id R)
                       then accepted_row (AuthUser.id D) r else r)
           (Store.rides st)
    /\ In (accepted_row (AuthUser.id D) R) (Store.rides st')
    /\ (forall r, In r (Store.rides st') -> Ride.id r = Ride.id R ->
          Ride.driver_id r = Some (AuthUser.id D)
          /\ Ride.status r = Accepted)
    /\ exists n1 n2,
         Store.ride_notifications st'
         = (Store.ride_notifications st ++ [n1; n2])%list
         /\ RideNotification.ride_id n1 = Ride.id R
         /\ RideNotification.user_id n1 = Ride.customer_id R
         /\ RideNotification.ride_id n2 = Ride.id R
         /\ RideNotification.user_id n2 = AuthUser.id D.
Proof.
  rewrite accept_ride_eq.
  destruct (fst (authenticate (authorization req) st)) as [e|D] eqn:Ha;
    [discriminate|].
  destruct (Store.single (Store.profiles_by_user st (AuthUser.id D)))
    as [e|driverProfile] eqn:Hp; [discriminate|].
  destruct (Store.single (Store.driver_profiles_by_user st (AuthUser.id D)))
    as [e|driverVehicle]; [discriminate|].
  destruct (AcceptRide.ride_id (json req)) as [rid|]; [|discriminate].
  destruct (Store.single (AcceptRide.pending_rides_by_id st rid))
    as [e|R] eqn:Hr; [discriminate|].
  cbv zeta.
  destruct (Store.single (Store.profiles_by_user st (Ride.customer_id R)));
    [discriminate|].
  destruct (Store.getUserById st (Ride.customer_id R)); [|discriminate].
  rewrite accept_commit_rides by (eapply single_has_profile; exact Hp).
  intros H. inversion H; subst st'; clear H.
  assert (Hin : In R (Store.rides st) /\ Ride.id R = rid
                /\ Ride.status R = Pending).
  { apply pending_rides_by_id_In. apply single_inr in Hr. rewrite Hr.
    left; reflexivity. }
  destruct Hin as (Hin & Hid & Hst). subst rid.
  exists D, R. cbn [Store.rides Store.ride_notifications
                     Store.with_rides Store.with_ride_notifications].
  split; [rewrite (authenticate_surj (authorization req) st), Ha; reflexivity|].
  split; [reflexivity|]. split; [exact Hin|]. split; [exact Hst|].
  split; [reflexivity|]. split.
  - apply in_map_iff. exists R. rewrite Nat.eqb_refl. split; [reflexivity|exact Hin].
  - split.
    + intros r Hr' Hrid. apply in_map_iff in Hr'.
      destruct Hr' as (r0 & Hr0 & _).
      destruct (Nat.eqb (Ride.id r0) (Ride.id R)) eqn:E.
      * subst r. split; reflexivity.
      * subst r. apply Nat.eqb_neq in E. contradiction.
    + unfold accept_notifications. eexists; eexists.
      split; [reflexivity|]. repeat split.
Qed.

Lemma accept_ride_success_witness :
  exists D R,
    authenticate (authorization (Sample.acceptance "driver-token" 1))
      Sample.booked = (inr D, Sample.booked)
    /\ AcceptRide.ride_id (json (Sample.acceptance "driver-token" 1))
       = Some (Ride.id R)
    /\ In R (Store.rides Sample.booked) /\ Ride.status R = Pending
    /\ Store.rides Sample.accepted
       = map (fun r => if Nat.eqb (Ride.id r) (Ride.id R)
                       then accepted_row (AuthUser.id D) r else r)
           (Store.rides Sample.booked)
    /\ In (accepted_row (AuthUser.id D) R) (Store.rides Sample.accepted)
    /\ (forall r, In r (Store.rides Sample.accepted) ->
          Ride.id r = Ride.id R ->
          Ride.driver_id r = Some (AuthUser.id D)
          /\ Ride.status r = Accepted)
    /\ exists n1 n2,
         Store.ride_notifications Sample.accepted
         = (Store.ride_notifications Sample.booked ++ [n1; n2])%list
         /\ RideNotification.ride_id n1 = Ride.id R
         /\ RideNotification.user_id n1 = Ride.customer_id R
         /\ RideNotification.ride_id n2 = Ride.id R
         /\ RideNotification.user_id n2 = AuthUser.id D.
Proof.
  apply (accept_ride_success 200%Z (Sample.acceptance "driver-token" 1)
           Sample.booked Sample.accepted).
  reflexivity.
Defined.

(** C9. accept-ride asks of its caller only a profile row and a
    driver-profile row, and of the ride that it is pending: given those, and
    given that the ride's customer still has a profile and an account (the
    lookups made for the e-mail), it answers 200; it answers 200 only if
    they hold; and nothing compares the caller's vehicle type with the
    ride's, looks at the caller's user_type, or keeps the ride's own customer
    out. In the sample a customer whose driver profile is for a bike accepts
    their own car ride. *)
Theorem accept_ride_preconditions :
  (forall now req st user profile vehicle ride customer account,
     identified (authorization req) st user profile ->
     Store.single (Store.driver_profiles_by_user st (AuthUser.id user))
     = inr vehicle ->
     AcceptRide.ride_id (json req) = Some (Ride.id ride) ->
     Store.single (AcceptRide.pending_rides_by_id st (Ride.id ride))
     = inr ride ->
     Store.single (Store.profiles_by_user st (Ride.customer_id ride))
     = inr customer ->
     Store.getUserById st (Ride.customer_id ride) = Some account ->
     fst (AcceptRide.accept_ride now req st) = Ok200 tt)
  /\
  (forall now req st,
     fst (AcceptRide.accept_ride now req st) = Ok200 tt ->
     exists user profile vehicle ride,
       identified (authorization req) st user profile
       /\ Store.single (Store.driver_profiles_by_user st (AuthUser.id user))
          = inr vehicle
       /\ AcceptRide.ride_id (json req) = Some (Ride.id ride)
       /\ In ride (Store.rides st) /\ Ride.status ride = Pending)
  /\
  (exists now req st user profile vehicle ride,
     identified (authorization req) st user profile
     /\ Store.single (Store.driver_profiles_by_user st (AuthUser.id user))
        = inr vehicle
     /\ Store.single (AcceptRide.pending_rides_by_id st (Ride.id ride))
        = inr ride
     /\ AcceptRide.ride_id (json req) = Some (Ride.id ride)
     /\ DriverProfile.vehicle_type vehicle <> Ride.vehicle_type ride
     /\ Profile.user_type profile = Customer
     /\ Ride.customer_id ride = AuthUser.id user
     /\ fst (AcceptRide.accept_ride now req st) = Ok200 tt).
Proof.
  split; [|split].
  - intros now req st user profile vehicle ride customer account
      [Ha Hp] Hd Hrid Hr Hc Hacc.
    rewrite accept_ride_eq. rewrite Ha. cbn [fst].
    rewrite Hp, Hd, Hrid, Hr. cbv zeta. rewrite Hc, Hacc. reflexivity.
  - intros now req st. rewrite accept_ride_eq.
    destruct (fst (authenticate (authorization req) st)) as [e|user] eqn:Ha;
      [discriminate|].
    destruct (Store.single (Store.profiles_by_user st (AuthUser.id user)))
      as [e|profile] eqn:Hp; [discriminate|].
    destruct (Store.single
                (Store.driver_profiles_by_user st (AuthUser.id user)))
      as [e|vehicle] eqn:Hd; [discriminate|].
    destruct (AcceptRide.ride_id (json req)) as [rid|]; [|discriminate].
    destruct (Store.single (AcceptRide.pending_rides_by_id st rid))
      as [e|ride] eqn:Hr; [discriminate|].
    intros _.
    assert (Hin : In ride (Store.rides st) /\ Ride.id ride = rid
                  /\ Ride.status ride = Pending).
    { apply pending_rides_by_id_In. apply single_inr in Hr. rewrite Hr.
      left; reflexivity. }
    destruct Hin as (Hin & Hid & Hst). subst rid.
    exists user, profile, vehicle, ride.
    split; [split; [|exact Hp]|tauto].
    rewrite (authenticate_surj (authorization req) st), Ha. reflexivity.
  - exists 200%Z, (Sample.acceptance "customer-token" 1),
      Sample.customer_drives_too,
      (AuthUser.mk Sample.customer "customer@example.org"),
      (Profile.mk Sample.customer (Some "Asha") None Customer),
      (DriverProfile.mk 11 Sample.customer Bike "KA-05-0007" None (Some true)),
      Sample.ride.
    split; [split; reflexivity|]. split; [reflexivity|].
    split; [reflexivity|]. split; [reflexivity|].
    split; [discriminate|]. repeat split.
Qed.

Lemma accept_ride_preconditions_witness :
  fst (AcceptRide.accept_ride 200 (Sample.acceptance "driver-token" 1)
         Sample.booked) = Ok200 tt
  /\ exists user profile vehicle ride,
       identified (authorization (Sample.acceptance "driver-token" 1))
         Sample.booked user profile
       /\ Store.single
            (Store.driver_profiles_by_user Sample.booked (AuthUser.id user))
          = inr vehicle
       /\ AcceptRide.ride_id (json (Sample.acceptance "driver-token" 1))
          = Some (Ride.id ride)
       /\ In ride (Store.rides Sample.booked)
       /\ Ride.status ride = Pending.
Proof.
  assert (H : fst (AcceptRide.accept_ride 200
                     (Sample.acceptance "driver-token" 1) Sample.booked)
              = Ok200 tt).
  { apply (proj1 accept_ride_preconditions 200%Z
             (Sample.acceptance "driver-token" 1) Sample.booked
             (AuthUser.mk Sample.driver "driver@example.org")
             (Profile.mk Sample.driver (Some "Ravi") (Some "555-0100") Rider)
             (DriverProfile.mk 10 Sample.driver Car "KA-01-1234" None
                (Some true))
             Sample.ride
             (Profile.mk Sample.customer (Some "Asha") None Customer)
             (AuthUser.mk Sample.customer "customer@example.org")).
    - split; reflexivity.
    - reflexivity.
    - reflexivity.
    - reflexivity.
    - reflexivity.
    - reflexivity. }
  split; [exact H|].
  apply (proj1 (proj2 accept_ride_preconditions) 200%Z
           (Sample.acceptance "driver-token" 1) Sample.booked H).
Defined.

(* ===================================================================== *)
(** ** create-ride, step by step                                          *)
(* ===================================================================== *)

(** A whole number of currency units fits its DECIMAL column unchanged. *)
Lemma numeric2_in_integer (precision z h : Z) :
  Store.numeric2_in precision (inject_Z z) = Some h -> h = (100 * z)%Z.
Proof.
  unfold Store.numeric2_in.
  assert (Hpos : Qfloor (inject_Z z * 100 + (1 # 2))%Q = (100 * z)%Z).
  { unfold Qfloor, Qplus, Qmult, inject_Z. cbn -[Z.mul Z.div Z.add Z.opp].
    symmetry. apply Z.div_unique with (r := 1%Z); lia. }
  assert (Hneg : Qfloor (- inject_Z z * 100 + (1 # 2))%Q = (- (100 * z))%Z).
  { unfold Qfloor, Qplus, Qmult, Qopp, inject_Z.
    cbn -[Z.mul Z.div Z.add Z.opp].
    symmetry. apply Z.div_unique with (r := 1%Z); lia. }
  rewrite Hpos, Hneg.
  destruct (Qle_bool 0 (inject_Z z)).
  - destruct (Z.abs (100 * z) <? 10 ^ precision)%Z;
      [intros [= <-]; reflexivity | discriminate].
  - destruct (Z.abs (- - (100 * z)) <? 10 ^ precision)%Z;
      [intros [= <-]; apply Z.opp_involutive | discriminate].
Qed.

Section CreateRideFacts.

Variable timestamptz_in : string -> option Z.

(** What a row that the insert accepted looks like. *)
Lemma build_ride_inr (st : Store.t) (now : Z) (row : Store.RideInsert)
    (r : Ride.t) :
  Store.build_ride timestamptz_in st now row = inr r ->
  Ride.status r = Pending
  /\ Ride.driver_id r = None
  /\ Ride.distance_km r = None
  /\ Ride.final_fare r = None
  /\ Ride.customer_id r = Store.ins_customer_id row
  /\ Ride.estimated_fare r = Some (100 * Store.ins_estimated_fare row)%Z
  /\ Ride.id r = Store.gen_random_uuid (map Ride.id (Store.rides st))
  /\ Ride.created_at r = now
  /\ Store.ins_from_location row = Js.JString (Ride.from_location r)
  /\ Store.ins_to_location row = Js.JString (Ride.to_location r)
  /\ (exists s, Store.ins_pickup_time row = Js.JString s)
  /\ (exists s, Store.ins_vehicle_type row = Js.JString s
                /\ Store.vehicle_type_in s = Some (Ride.vehicle_type r)).
Proof.
  unfold Store.build_ride, Store.bind_pg, Store.convert, Store.not_null,
    Store.text_column.
  destruct (Store.ins_pickup_time row) as [| |ps];
    destruct (Store.ins_vehicle_type row) as [| |vs];
    destruct (Store.ins_from_location row) as [| |fs];
    destruct (Store.ins_to_location row) as [| |tos];
    try destruct (timestamptz_in ps) as [pickup|];
    try destruct (Store.vehicle_type_in vs) as [vehicle|] eqn:Hv;
    destruct (Store.numeric2_in 10 (inject_Z (Store.ins_estimated_fare row)))
      as [h|] eqn:Hh;
    try discriminate.
  apply numeric2_in_integer in Hh.
  destruct (Store.has_profile st (Store.ins_customer_id row));
    [|discriminate].
  intros H. inversion H; subst r; clear H. cbn.
  subst h. repeat split; try reflexivity.
  - exists ps. reflexivity.
  - exists vs. split; [reflexivity | exact Hv].
Qed.

(** An insert for a customer who has a profile is refused only because a
    value does not fit its column. *)
Lemma build_ride_inl (st : Store.t) (now : Z) (row : Store.RideInsert)
    (e : Store.PgError) :
  Store.has_profile st (Store.ins_customer_id row) = true ->
  Store.build_ride timestamptz_in st now row = inl e ->
  input_rejected e = true.
Proof.
  intros Hp.
  unfold Store.build_ride, Store.bind_pg, Store.convert, Store.not_null.
  rewrite Hp. unfold Store.text_column.
  destruct (Store.ins_pickup_time row) as [| |ps];
    destruct (Store.ins_vehicle_type row) as [| |vs];
    destruct (Store.ins_from_location row) as [| |fs];
    destruct (Store.ins_to_location row) as [| |tos];
    try destruct (timestamptz_in ps) as [pickup|];
    try destruct (Store.vehicle_type_in vs) as [vehicle|];
    destruct (Store.numeric2_in 10 (inject_Z (Store.ins_estimated_fare row)))
      as [h|];
    intros H; inversion H; reflexivity.
Qed.

Variable random : Q.
Variable now : Z.

(** The handler as a decision tree over the store it is called on. *)
Lemma create_ride_eq (req : Request CreateRide.CreateRideRequest)
    (st : Store.t) :
  CreateRide.create_ride timestamptz_in random now req st =
  match fst (authenticate (authorization req) st) with
  | inl e => (Err400 e, st)
  | inr user =>
    match Store.single (Store.profiles_by_user st (AuthUser.id user)) with
    | inl _ => (Err400 (Error "Customer profile not found"), st)
    | inr _ =>
      match Store.build_ride timestamptz_in st now
              (create_ride_row random req (AuthUser.id user)) with
      | inl e => (Err400 (PostgrestError e), st)
      | inr ride =>
          (Ok200 ride,
           Store.with_ride_notifications
             (Store.with_rides st (Store.rides st ++ [ride]))
             (Store.ride_notifications st
              ++ [RideNotification.mk
                    (Store.gen_random_uuid
                       (map RideNotification.id (Store.ride_notifications st)))
                    (Ride.id ride) (AuthUser.id user)
                    ("Your ride request from "
                     ++ Js.to_display (CreateRide.from_location (json req))
                     ++ " to "
                     ++ Js.to_display (CreateRide.to_location (json req))
                     ++ " has been submitted.")
                    (Some false) now]))
      end
    end
  end.
Proof.
  unfold CreateRide.create_ride, try_catch, CreateRide.create_ride_try,
    bind, ret.
  rewrite (authenticate_surj (authorization req) st).
  destruct (fst (authenticate (authorization req) st)) as [e|user];
    cbn [fst snd]; [reflexivity|].
  destruct (Store.single (Store.profiles_by_user st (AuthUser.id user)))
    as [e|customerProfile] eqn:Hp; [reflexivity|].
  unfold Store.insert_ride. fold (create_ride_row random req (AuthUser.id user)).
  destruct (Store.build_ride timestamptz_in st now
              (create_ride_row random req (AuthUser.id user))) as [e|ride] eqn:Hb;
    [reflexivity|].
  rewrite insert_notification_ok.
  - reflexivity.
  - cbn [Store.ins_ride_id]. unfold Store.has_ride. cbn [Store.rides Store.with_rides].
    apply existsb_exists. exists ride.
    split; [apply in_or_app; right; left; reflexivity | apply Nat.eqb_refl].
  - cbn [Store.ins_user_id].
    apply (single_has_profile st _ _ Hp).
Qed.

End CreateRideFacts.

Section CreateRideClaims.

Variable timestamptz_in : string -> option Z.
Variable random : Q.
Variable now : Z.

(** When the store cannot build the row, the call fails and writes nothing;
    for an identified caller the failure is the store's refusal of a
    value. *)
Lemma create_ride_refused (req : Request CreateRide.CreateRideRequest)
    (st : Store.t) :
  (forall uid ride,
     Store.build_ride timestamptz_in st now (create_ride_row random req uid)
     <> inr ride) ->
  (exists e,
     CreateRide.create_ride timestamptz_in random now req st = (Err400 e, st))
  /\ (forall user profile,
        identified (authorization req) st user profile ->
        exists pe,
          CreateRide.create_ride timestamptz_in random now req st
          = (Err400 (PostgrestError pe), st)
          /\ input_rejected pe = true).
Proof.
  intros Hno. rewrite create_ride_eq. split.
  - destruct (fst (authenticate (authorization req) st)) as [e|user];
      [eexists; reflexivity|].
    destruct (Store.single (Store.profiles_by_user st (AuthUser.id user)));
      [eexists; reflexivity|].
    destruct (Store.build_ride timestamptz_in st now
                (create_ride_row random req (AuthUser.id user)))
      as [e|ride] eqn:Hb; [eexists; reflexivity|].
    exfalso. exact (Hno _ _ Hb).
  - intros user profile [Ha Hp]. rewrite Ha. cbn [fst]. rewrite Hp.
    destruct (Store.build_ride timestamptz_in st now
                (create_ride_row random req (AuthUser.id user)))
      as [e|ride] eqn:Hb; [|exfalso; exact (Hno _ _ Hb)].
    exists e. split; [reflexivity|].
    eapply build_ride_inl; [|exact Hb].
    apply (single_has_profile st _ _ Hp).
Qed.

(** C6. Every ride that create-ride returns with its 200 answer has status
    pending and no driver, carries the estimated fare computed for the
    request, belongs to the caller, and is the one row added to [rides]
    (under a new id); and the call has added one row to ride_notifications,
    for that ride and addressed to the customer. *)
Theorem create_ride_success (req : Request CreateRide.CreateRideRequest)
    (st st' : Store.t) (ride : Ride.t) :
  CreateRide.create_ride timestamptz_in random now req st = (Ok200 ride, st') ->
  Ride.status ride = Pending
  /\ Ride.driver_id ride = None
  /\ Ride.estimated_fare ride
     = Some (100 * CreateRide.estimatedFare
                      (CreateRide.vehicle_type (json req)) random)%Z
  /\ Store.rides st' = (Store.rides st ++ [ride])%list
  /\ ~ In (Ride.id ride) (map Ride.id (Store.rides st))
  /\ exists user n,
       authenticate (authorization req) st = (inr user, st)
       /\ Ride.customer_id ride = AuthUser.id user
       /\ Store.ride_notifications st'
          = (Store.ride_notifications st ++ [n])%list
       /\ RideNotification.user_id n = Ride.customer_id ride
       /\ RideNotification.ride_id n = Ride.id ride.
Proof.
  rewrite create_ride_eq.
  destruct (fst (authenticate (authorization req) st)) as [e|user] eqn:Ha;
    [discriminate|].
  destruct (Store.single (Store.profiles_by_user st (AuthUser.id user)));
    [discriminate|].
  destruct (Store.build_ride timestamptz_in st now
              (create_ride_row random req (AuthUser.id user)))
    as [e|r] eqn:Hb; [discriminate|].
  intros H. inversion H; subst r st'; clear H.
  apply build_ride_inr in Hb.
  destruct Hb as (Hst & Hdr & _ & _ & Hcu & Hfare & Hid & _).
  cbn [Store.ins_customer_id Store.ins_estimated_fare create_ride_row]
    in Hcu, Hfare.
  split; [exact Hst|]. split; [exact Hdr|]. split; [exact Hfare|].
  split; [reflexivity|]. split.
  - rewrite Hid. apply gen_random_uuid_fresh.
  - exists user. eexists.
    split; [rewrite (authenticate_surj (authorization req) st), Ha;
            reflexivity|].
    split; [exact Hcu|]. split; [reflexivity|].
    split; [cbn; symmetry; exact Hcu | reflexivity].
Qed.

Lemma vehicle_type_in_other (s : string) :
  s <> "auto" -> s <> "car" -> s <> "bike" -> Store.vehicle_type_in s = None.
Proof.
  intros Ha Hc Hb. unfold Store.vehicle_type_in.
  apply String.eqb_neq in Ha, Hc, Hb. rewrite Ha, Hc, Hb. reflexivity.
Qed.

(** The handler has no check of its own: its base-fare expression falls
    through to 80 for every other value. *)
Remark baseFare_fallthrough (v : Js.JsVal) :
  v <> Js.JString "bike" -> v <> Js.JString "auto" ->
  CreateRide.baseFare v = 80%Z.
Proof.
  intros Hb Ha. unfold CreateRide.baseFare, Js.strict_eq_str.
  destruct v as [| |s]; try reflexivity.
  destruct (String.eqb s "bike") eqn:E1;
    [apply String.eqb_eq in E1; subst; contradiction|].
  destruct (String.eqb s "auto") eqn:E2;
    [apply String.eqb_eq in E2; subst; contradiction|].
  reflexivity.
Qed.

(** C3. A create-ride request whose vehicle_type is not one of 'auto',
    'car', 'bike' is always rejected: the answer is a 400, no ride is stored
    or returned (the store is as it was, so no fare computed from a default
    base ever appears), and for an identified caller the error is the
    store's refusal of a value for its column. *)
Theorem create_ride_invalid_vehicle_type
    (req : Request CreateRide.CreateRideRequest) (st : Store.t) :
  CreateRide.vehicle_type (json req) <> Js.JString "auto" ->
  CreateRide.vehicle_type (json req) <> Js.JString "car" ->
  CreateRide.vehicle_type (json req) <> Js.JString "bike" ->
  (exists e,
     CreateRide.create_ride timestamptz_in random now req st = (Err400 e, st))
  /\ (forall user profile,
        identified (authorization req) st user profile ->
        exists pe,
          CreateRide.create_ride timestamptz_in random now req st
          = (Err400 (PostgrestError pe), st)
          /\ input_rejected pe = true).
Proof.
  intros Ha Hc Hb. apply create_ride_refused.
  intros uid ride Hbuild. apply build_ride_inr in Hbuild.
  destruct Hbuild
    as (_ & _ & _ & _ & _ & _ & _ & _ & _ & _ & _ & (s & Hs & Hv)).
  cbn [Store.ins_vehicle_type create_ride_row] in Hs.
  rewrite Hs in Ha, Hc, Hb.
  rewrite vehicle_type_in_other in Hv; [discriminate| | |];
    intros ->; [apply Ha|apply Hc|apply Hb]; reflexivity.
Qed.

(** C8. create-ride needs from_location, to_location, pickup_time and
    vehicle_type: a request in which any of them is absent or null is
    answered with a 400 and no row is created (the store is as it was); for
    an identified caller the error is the store's refusal of the missing
    value. In the customer dashboard an empty from, to or pickup time is
    refused before any request is made. *)
Theorem create_ride_missing_field :
  (forall (req : Request CreateRide.CreateRideRequest) (st : Store.t),
     missing (CreateRide.from_location (json req))
     \/ missing (CreateRide.to_location (json req))
     \/ missing (CreateRide.pickup_time (json req))
     \/ missing (CreateRide.vehicle_type (json req)) ->
     (exists e,
        CreateRide.create_ride timestamptz_in random now req st
        = (Err400 e, st))
     /\ (forall user profile,
           identified (authorization req) st user profile ->
           exists pe,
             CreateRide.create_ride timestamptz_in random now req st
             = (Err400 (PostgrestError pe), st)
             /\ input_rejected pe = true))
  /\
  (forall bearer st fromLocation toLocation pickupTime vehicleType notes,
     fromLocation = "" \/ toLocation = "" \/ pickupTime = "" ->
     CustomerDashboard.handleSubmit timestamptz_in random now bearer st
       fromLocation toLocation pickupTime vehicleType notes
     = (toast_error "Please fill in all required fields", st)).
Proof.
  split.
  - intros req st Hmiss. apply create_ride_refused.
    intros uid ride Hbuild. apply build_ride_inr in Hbuild.
    destruct Hbuild
      as (_ & _ & _ & _ & _ & _ & _ & _ & Hf & Ht & (ps & Hp) & (vs & Hv & _)).
    cbn [Store.ins_from_location Store.ins_to_location Store.ins_pickup_time
         Store.ins_vehicle_type create_ride_row] in Hf, Ht, Hp, Hv.
    unfold missing in Hmiss. rewrite Hf, Ht, Hp, Hv in Hmiss.
    destruct Hmiss as [[H|H]|[[H|H]|[[H|H]|[H|H]]]]; discriminate.
  - intros bearer st fromLocation toLocation pickupTime vehicleType notes H.
    unfold CustomerDashboard.handleSubmit.
    destruct H as [-> | [-> | ->]]; cbn [Js.str_truthy negb orb];
      rewrite ?orb_true_r; reflexivity.
Qed.

End CreateRideClaims.

Lemma create_ride_success_witness :
  Ride.status Sample.ride = Pending
  /\ Ride.driver_id Sample.ride = None
  /\ Ride.estimated_fare Sample.ride
     = Some (100 * CreateRide.estimatedFare
                      (CreateRide.vehicle_type
                         (json (Sample.booking (Js.JString "car"))))
                      (1 # 2))%Z
  /\ Store.rides Sample.booked = (Store.rides Sample.store ++ [Sample.ride])%list
  /\ ~ In (Ride.id Sample.ride) (map Ride.id (Store.rides Sample.store))
  /\ exists user n,
       authenticate (authorization (Sample.booking (Js.JString "car")))
         Sample.store = (inr user, Sample.store)
       /\ Ride.customer_id Sample.ride = AuthUser.id user
       /\ Store.ride_notifications Sample.booked
          = (Store.ride_notifications Sample.store ++ [n])%list
       /\ RideNotification.user_id n = Ride.customer_id Sample.ride
       /\ RideNotification.ride_id n = Ride.id Sample.ride.
Proof.
  apply (create_ride_success Sample.timestamptz_in (1 # 2) 100%Z
           (Sample.booking (Js.JString "car")) Sample.store Sample.booked
           Sample.ride).
  reflexivity.
Defined.

Lemma create_ride_invalid_vehicle_type_witness :
  (exists e,
     CreateRide.create_ride Sample.timestamptz_in (1 # 2) 100
       (Sample.booking (Js.JString "truck")) Sample.store
     = (Err400 e, Sample.store))
  /\ (forall user profile,
        identified (authorization (Sample.booking (Js.JString "truck")))
          Sample.store user profile ->
        exists pe,
          CreateRide.create_ride Sample.timestamptz_in (1 # 2) 100
            (Sample.booking (Js.JString "truck")) Sample.store
          = (Err400 (PostgrestError pe), Sample.store)
          /\ input_rejected pe = true).
Proof.
  apply (create_ride_invalid_vehicle_type Sample.timestamptz_in (1 # 2) 100%Z
           (Sample.booking (Js.JString "truck")) Sample.store);
    discriminate.
Defined.

Lemma create_ride_missing_field_witness :
  ((exists e,
      CreateRide.create_ride Sample.timestamptz_in (1 # 2) 100
        (Sample.booking Js.JUndefined) Sample.store
      = (Err400 e, Sample.store))
   /\ (forall user profile,
         identified (authorization (Sample.booking Js.JUndefined))
           Sample.store user profile ->
         exists pe,
           CreateRide.create_ride Sample.timestamptz_in (1 # 2) 100
             (Sample.booking Js.JUndefined) Sample.store
           = (Err400 (PostgrestError pe), Sample.store)
           /\ input_rejected pe = true))
  /\ CustomerDashboard.handleSubmit Sample.timestamptz_in (1 # 2) 100
       "customer-token" Sample.store "City Center" "" "2025-09-02T10:00:00Z"
       Car ""
     = (toast_error "Please fill in all required fields", Sample.store).
Proof.
  split.
  - apply (proj1 (create_ride_missing_field Sample.timestamptz_in (1 # 2)
                    100%Z)
             (Sample.booking Js.JUndefined) Sample.store).
    right; right; right. left. reflexivity.
  - apply (proj2 (create_ride_missing_field Sample.timestamptz_in (1 # 2)
                    100%Z)
             "customer-token" Sample.store "City Center" ""
             "2025-09-02T10:00:00Z" Car "").
    right; left. reflexivity.
Defined.

(* ===================================================================== *)
(** ** The driver dashboard                                               *)
(* ===================================================================== *)

Lemma insert_by_created_at_perm (r : Ride.t) (l : list Ride.t) :
  Permutation (r :: l) (DriverDashboard.insert_by_created_at r l).
Proof.
  induction l as [|x l IH]; simpl; [apply Permutation_refl|].
  destruct (Ride.created_at r <=? Ride.created_at x)%Z.
  - apply Permutation_refl.
  - eapply perm_trans; [apply perm_swap|]. apply perm_skip. exact IH.
Qed.

Lemma order_by_created_at_perm (l : list Ride.t) :
  Permutation l (DriverDashboard.order_by_created_at l).
Proof.
  induction l as [|r l IH]; simpl; [constructor|].
  eapply perm_trans; [apply perm_skip; exact IH|].
  apply insert_by_created_at_perm.
Qed.

Lemma insert_by_created_at_sorted (r : Ride.t) (l : list Ride.t) :
  StronglySorted created_at_le l ->
  StronglySorted created_at_le (DriverDashboard.insert_by_created_at r l).
Proof.
  induction l as [|x l IH]; intros Hs; simpl.
  - constructor; constructor.
  - inversion Hs as [|? ? Hs' Hall]; subst.
    destruct (Ride.created_at r <=? Ride.created_at x)%Z eqn:E.
    + apply Z.leb_le in E. constructor; [exact Hs|].
      constructor; [exact E|].
      eapply Forall_impl; [|exact Hall].
      intros y Hy. unfold created_at_le in *. lia.
    + apply Z.leb_gt in E. constructor; [apply IH; exact Hs'|].
      eapply Permutation_Forall; [apply insert_by_created_at_perm|].
      constructor; [unfold created_at_le; lia | exact Hall].
Qed.

Lemma order_by_created_at_sorted (l : list Ride.t) :
  StronglySorted created_at_le (DriverDashboard.order_by_created_at l).
Proof.
  induction l as [|r l IH]; simpl; [constructor|].
  apply insert_by_created_at_sorted. exact IH.
Qed.

Lemma filter_filter_andb {A : Type} (f g : A -> bool) (l : list A) :
  filter f (filter g l) = filter (fun x => g x && f x) l.
Proof.
  induction l as [|a l IH]; [reflexivity|]. simpl.
  destruct (g a); simpl; [destruct (f a)|]; rewrite IH; reflexivity.
Qed.

Lemma VehicleType_eqb_eq (a b : VehicleType) :
  VehicleType_eqb a b = true <-> a = b.
Proof. destruct a, b; simpl; split; congruence. Qed.

Lemma RideStatus_eqb_eq (a b : RideStatus) :
  RideStatus_eqb a b = true <-> a = b.
Proof. destruct a, b; simpl; split; congruence. Qed.

Lemma rides_select_policy_authenticated (uid : Uuid) (r : Ride.t) :
  Store.rides_select_policy (Store.authenticated uid) r = true
  <-> Ride.customer_id r = uid \/ Ride.driver_id r = Some uid.
Proof.
  unfold Store.rides_select_policy, option_nat_eqb.
  rewrite orb_true_iff, Nat.eqb_eq.
  destruct (Ride.driver_id r) as [d|].
  - rewrite Nat.eqb_eq. split.
    + intros [H|H]; [left; symmetry; exact H | right; congruence].
    + intros [H|H]; [left; symmetry; exact H | right; congruence].
  - split.
    + intros [H|H]; [left; symmetry; exact H | discriminate].
    + intros [H|H]; [left; symmetry; exact H | discriminate].
Qed.

(** C10 fails on the code. The ride the customer booked is pending and is
    for a car; the driver is available, the profile the dashboard loads for
    the driver is for a car, and the accept-ride function would hand the
    ride to this driver. Yet the query of the driver's available rides
    returns no row and the card shows that there is no ride request: the
    query runs as the signed-in driver, and the only policy for reading
    [rides] lets a user read the rides they booked or are assigned to. *)
Lemma availableRides_hides_unassigned_ride :
  Store.single (Store.driver_profiles_by_user Sample.booked Sample.driver)
  = inr Sample.driver_profile
  /\ In Sample.ride (Store.rides Sample.booked)
  /\ Ride.status Sample.ride = Pending
  /\ Ride.vehicle_type Sample.ride
     = DriverProfile.vehicle_type Sample.driver_profile
  /\ ~ In Sample.ride
       (DriverDashboard.availableRides Sample.booked Sample.driver
          (Some Sample.driver_profile))
  /\ DriverDashboard.driverProfile Sample.booked Sample.driver
     = Some Sample.driver_profile
  /\ DriverProfile.is_available Sample.driver_profile = Some true
  /\ DriverDashboard.availableRides Sample.booked Sample.driver
       (DriverDashboard.driverProfile Sample.booked Sample.driver)
     = []
  /\ DriverDashboard.availableRidesCard
       (DriverDashboard.driverProfile Sample.booked Sample.driver)
       (DriverDashboard.availableRides Sample.booked Sample.driver
          (DriverDashboard.driverProfile Sample.booked Sample.driver))
     = DriverDashboard.no_ride_requests
  /\ fst (AcceptRide.accept_ride 200 (Sample.acceptance "driver-token" 1)
            Sample.booked)
     = Ok200 tt.
Proof.
  split; [reflexivity|]. split; [left; reflexivity|].
  split; [reflexivity|]. split; [reflexivity|].
  split; [intros H; exact H|].
  repeat split.
Qed.

(** X21. What the query of the available rides returns, for a signed-in
    user with a driver profile: exactly the rows of [rides] that the row
    policy lets this user read (those the user booked or is assigned to)
    with status pending and the vehicle type of the profile, each as often
    as it is in the table, in ascending order of created_at. *)
Theorem availableRides_spec (st : Store.t) (uid : Uuid)
    (dp : DriverProfile.t) :
  (forall r,
     In r (DriverDashboard.availableRides st uid (Some dp))
     <-> In r (Store.rides st)
         /\ (Ride.customer_id r = uid \/ Ride.driver_id r = Some uid)
         /\ Ride.status r = Pending
         /\ Ride.vehicle_type r = DriverProfile.vehicle_type dp)
  /\ Permutation
       (DriverDashboard.availableRides st uid (Some dp))
       (filter (fun r =>
                  Store.rides_select_policy (Store.authenticated uid) r
                  && RideStatus_eqb (Ride.status r) Pending
                  && VehicleType_eqb (Ride.vehicle_type r)
                       (DriverProfile.vehicle_type dp))
          (Store.rides st))
  /\ StronglySorted created_at_le
       (DriverDashboard.availableRides st uid (Some dp)).
Proof.
  unfold DriverDashboard.availableRides, Store.select_rides.
  split; [|split].
  - intros r. split.
    + intros H.
      apply (Permutation_in _
               (Permutation_sym (order_by_created_at_perm _))) in H.
      rewrite !filter_In in H.
      rewrite VehicleType_eqb_eq, RideStatus_eqb_eq,
        rides_select_policy_authenticated in H. tauto.
    + intros H.
      apply (Permutation_in _ (order_by_created_at_perm _)).
      rewrite !filter_In.
      rewrite VehicleType_eqb_eq, RideStatus_eqb_eq,
        rides_select_policy_authenticated. tauto.
  - eapply perm_trans;
      [apply Permutation_sym; apply order_by_created_at_perm|].
    rewrite (filter_filter_andb
               (fun r => RideStatus_eqb (Ride.status r) Pending)).
    rewrite filter_filter_andb. apply Permutation_refl.
  - apply order_by_created_at_sorted.
Qed.

(** Without a driver profile the list is empty. *)
Lemma availableRides_without_profile (st : Store.t) (uid : Uuid) :
  DriverDashboard.availableRides st uid None = [].
Proof. reflexivity. Qed.

(** C4 fails on the code. The driver's ride is under way; the driver enters
    distance 0 and fare 150 and completes it. Both inputs are numeric, yet
    the update carries only status and final_fare: [if (distance)] takes the
    number 0 for an absent value, and the ride is completed with distance_km
    still NULL. A text that is not a number ("abc") goes the same way:
    [parseFloat] gives NaN, the key is dropped, and the ride is completed. *)
Theorem handleStatusUpdate_drops_falsy_number :
  In Sample.ride_under_way (Store.rides Sample.started)
  /\ (let out := DriverDashboard.handleStatusUpdate Sample.driver
                   Sample.started Sample.ride_under_way "0" "150"
                   "completed" in
      fst out = toast_success "Ride status updated!"
      /\ map (fun r => (Ride.status r, Ride.distance_km r, Ride.final_fare r))
           (Store.rides (snd out))
         = [(Completed, None, Some 15000%Z)])
  /\ (let out := DriverDashboard.handleStatusUpdate Sample.driver
                   Sample.started Sample.ride_under_way "abc" "150"
                   "completed" in
      fst out = toast_success "Ride status updated!"
      /\ map (fun r => (Ride.status r, Ride.distance_km r, Ride.final_fare r))
           (Store.rides (snd out))
         = [(Completed, None, Some 15000%Z)]).
Proof.
  split; [left; reflexivity|].
  split; split; reflexivity.
Qed.

(** What does hold of completion: an empty distance or fare is refused and
    nothing is written. *)
Lemma handleStatusUpdate_requires_input (uid : Uuid) (st : Store.t)
    (ride : Ride.t) (distance fare : string) :
  distance = "" \/ fare = "" ->
  DriverDashboard.handleStatusUpdate uid st ride distance fare "completed"
  = (toast_error "Please enter distance and fare before completing the ride",
     st).
Proof.
  intros H. unfold DriverDashboard.handleStatusUpdate.
  change (String.eqb "completed" "completed") with true. cbv iota.
  destruct H as [-> | ->]; cbn [Js.str_truthy negb orb];
    rewrite ?orb_true_r; reflexivity.
Qed.

(** And when both inputs parse to non-zero numbers that fit their columns,
    one update statement writes status, distance_km and final_fare to the
    rows of that ride the driver may update. *)
Lemma handleStatusUpdate_completes (uid : Uuid) (st : Store.t)
    (ride : Ride.t) (distance fare : string) (d f : Q) (hd hf : Z) :
  distance <> "" -> fare <> "" ->
  Js.parseFloat distance = Js.Num d -> Js.parseFloat fare = Js.Num f ->
  ~ (d == 0)%Q -> ~ (f == 0)%Q ->
  Store.numeric2_in 8 d = Some hd -> Store.numeric2_in 10 f = Some hf ->
  DriverDashboard.handleStatusUpdate uid st ride distance fare "completed"
  = (toast_success "Ride status updated!",
     Store.with_rides st
       (map (fun r =>
               if Nat.eqb (Ride.id r) (Ride.id ride)
                  && Store.rides_update_policy (Store.authenticated uid) r
               then Store.apply_patch
                      (Store.mkRidePatch None (Some Completed)
                         (Some (Some hd)) (Some (Some hf))) r
               else r)
          (Store.rides st))).
Proof.
  intros Hd Hf Hpd Hpf Hd0 Hf0 Hnd Hnf.
  unfold DriverDashboard.handleStatusUpdate.
  change (String.eqb "completed" "completed") with true. cbv iota.
  destruct distance as [|c1 s1]; [contradiction|].
  destruct fare as [|c2 s2]; [contradiction|].
  cbn [Js.str_truthy negb orb].
  rewrite Hpd, Hpf.
  unfold DriverDashboard.updateRideStatus, DriverDashboard.updateData,
    DriverDashboard.optional_field, Js.num_truthy.
  assert (Ed : Qeq_bool d 0 = false).
  { destruct (Qeq_bool d 0) eqn:E; [|reflexivity].
    apply Qeq_bool_iff in E. contradiction. }
  assert (Ef : Qeq_bool f 0 = false).
  { destruct (Qeq_bool f 0) eqn:E; [|reflexivity].
    apply Qeq_bool_iff in E. contradiction. }
  rewrite Ed, Ef. cbn [negb DriverDashboard.json_number].
  unfold Store.update_rides, Store.convert_update, Store.convert,
    Store.convert_numeric, Store.bind_pg.
  cbn [Store.upd_status Store.upd_distance_km Store.upd_final_fare
       Store.upd_driver_id].
  change (Store.ride_status_in "completed") with (Some Completed).
  cbv iota. rewrite Hnd, Hnf. reflexivity.
Qed.

(* ===================================================================== *)
(** ** Further properties of the edge functions                           *)
(* ===================================================================== *)

(** What a successful create-ride call did. *)
Lemma create_ride_ok (timestamptz_in : string -> option Z) (random : Q)
    (now : Z) (req : Request CreateRide.CreateRideRequest)
    (st st' : Store.t) (ride : Ride.t) :
  CreateRide.create_ride timestamptz_in random now req st = (Ok200 ride, st') ->
  exists user profile,
    identified (authorization req) st user profile
    /\ Store.build_ride timestamptz_in st now
         (create_ride_row random req (AuthUser.id user)) = inr ride
    /\ Store.auth_users st' = Store.auth_users st
    /\ Store.sessions st' = Store.sessions st
    /\ Store.profiles st' = Store.profiles st
    /\ Store.driver_profiles st' = Store.driver_profiles st
    /\ Store.rides st' = (Store.rides st ++ [ride])%list.
Proof.
  rewrite create_ride_eq.
  destruct (fst (authenticate (authorization req) st)) as [e|user] eqn:Ha;
    [discriminate|].
  destruct (Store.single (Store.profiles_by_user st (AuthUser.id user)))
    as [e|profile] eqn:Hp; [discriminate|].
  destruct (Store.build_ride timestamptz_in st now
              (create_ride_row random req (AuthUser.id user)))
    as [e|r] eqn:Hb; [discriminate|].
  intros H. inversion H; subst r st'; clear H.
  exists user, profile. split; [split; [|exact Hp]|].
  - rewrite (authenticate_surj (authorization req) st), Ha. reflexivity.
  - split; [exact Hb|]. repeat split.
Qed.

(** X1. create-ride is all or nothing: whenever it answers 400, for whatever
    reason, the store is exactly as it was before the call. *)
Theorem create_ride_failure_writes_nothing
    (timestamptz_in : string -> option Z) (random : Q) (now : Z)
    (req : Request CreateRide.CreateRideRequest) (st : Store.t) (e : Thrown) :
  fst (CreateRide.create_ride timestamptz_in random now req st) = Err400 e ->
  snd (CreateRide.create_ride timestamptz_in random now req st) = st.
Proof.
  rewrite create_ride_eq.
  destruct (fst (authenticate (authorization req) st)); [reflexivity|].
  destruct (Store.single (Store.profiles_by_user st _)); [reflexivity|].
  destruct (Store.build_ride timestamptz_in st now _); [reflexivity|].
  discriminate.
Qed.

Lemma create_ride_failure_writes_nothing_witness :
  snd (CreateRide.create_ride Sample.timestamptz_in (1 # 2) 100
         (Sample.booking (Js.JString "truck")) Sample.store)
  = Sample.store.
Proof.
  apply (create_ride_failure_writes_nothing Sample.timestamptz_in (1 # 2)
           100%Z (Sample.booking (Js.JString "truck")) Sample.store
           (PostgrestError
              (Store.invalid_text_representation "vehicle_type" "truck"))).
  reflexivity.
Defined.

Lemma map_id_accepted (uid rid : Uuid) (rs : list Ride.t) :
  map Ride.id
    (map (fun r => if Nat.eqb (Ride.id r) rid then accepted_row uid r else r)
       rs)
  = map Ride.id rs.
Proof.
  induction rs as [|r rs IH]; [reflexivity|]. simpl. rewrite IH.
  destruct (Nat.eqb (Ride.id r) rid); reflexivity.
Qed.

Lemma In_map_other (uid rid : Uuid) (rs : list Ride.t) (r : Ride.t) :
  In r rs -> Ride.id r <> rid ->
  In r (map (fun r => if Nat.eqb (Ride.id r) rid then accepted_row uid r
                      else r) rs).
Proof.
  intros Hin Hne. apply in_map_iff. exists r. split; [|exact Hin].
  apply Nat.eqb_neq in Hne. rewrite Hne. reflexivity.
Qed.

(** X2. Whatever accept-ride answers, it leaves the identity service, the
    profiles and the driver profiles alone, adds or removes no ride, leaves
    every ride other than the requested one as it was, and only appends to
    ride_notifications. *)
Theorem accept_ride_frame (now : Z)
    (req : Request AcceptRide.AcceptRideRequest) (st : Store.t) :
  let st' := snd (AcceptRide.accept_ride now req st) in
  Store.auth_users st' = Store.auth_users st
  /\ Store.sessions st' = Store.sessions st
  /\ Store.profiles st' = Store.profiles st
  /\ Store.driver_profiles st' = Store.driver_profiles st
  /\ map Ride.id (Store.rides st') = map Ride.id (Store.rides st)
  /\ (forall r, In r (Store.rides st) ->
        AcceptRide.ride_id (json req) <> Some (Ride.id r) ->
        In r (Store.rides st'))
  /\ exists added,
       Store.ride_notifications st'
       = (Store.ride_notifications st ++ added)%list.
Proof.
  cbv zeta. rewrite accept_ride_eq.
  assert (Hsame : forall e : Thrown,
            let st' := snd (@Err400 unit e, st) in
            Store.auth_users st' = Store.auth_users st
            /\ Store.sessions st' = Store.sessions st
            /\ Store.profiles st' = Store.profiles st
            /\ Store.driver_profiles st' = Store.driver_profiles st
            /\ map Ride.id (Store.rides st') = map Ride.id (Store.rides st)
            /\ (forall r, In r (Store.rides st) ->
                  AcceptRide.ride_id (json req) <> Some (Ride.id r) ->
                  In r (Store.rides st'))
            /\ exists added,
                 Store.ride_notifications st'
                 = (Store.ride_notifications st ++ added)%list).
  { intros e. cbn. repeat split; auto.
    exists []. rewrite app_nil_r. reflexivity. }
  destruct (fst (authenticate (authorization req) st)) as [e|user];
    [apply Hsame|].
  destruct (Store.single (Store.profiles_by_user st (AuthUser.id user)))
    as [e|driverProfile] eqn:Hp; [apply Hsame|].
  destruct (Store.single (Store.driver_profiles_by_user st (AuthUser.id user)));
    [apply Hsame|].
  destruct (AcceptRide.ride_id (json req)) as [rid|]; [|apply Hsame].
  destruct (Store.single (AcceptRide.pending_rides_by_id st rid))
    as [e|r]; [apply Hsame|].
  clear Hsame. cbv zeta.
  rewrite accept_commit_rides by (eapply single_has_profile; exact Hp).
  assert (Hother : forall r0, In r0 (Store.rides st) ->
            Some rid <> Some (Ride.id r0) ->
            In r0 (map (fun r => if Nat.eqb (Ride.id r) rid
                                 then accepted_row (AuthUser.id user) r
                                 else r) (Store.rides st))).
  { intros r0 Hin Hne. apply In_map_other; [exact Hin|]. congruence. }
  destruct (Store.single (Store.profiles_by_user st (Ride.customer_id r)));
    [|destruct (Store.getUserById st (Ride.customer_id r))]; cbn;
    (split; [reflexivity|]); (split; [reflexivity|]);
    (split; [reflexivity|]); (split; [reflexivity|]);
    (split; [apply map_id_accepted|]); (split; [exact Hother|]).
  - exists []. rewrite app_nil_r. reflexivity.
  - eexists. reflexivity.
  - exists []. rewrite app_nil_r. reflexivity.
Qed.

Lemma accept_ride_frame_witness :
  let st' := snd (AcceptRide.accept_ride 200
                    (Sample.acceptance "driver-token" 1) Sample.booked) in
  Store.auth_users st' = Store.auth_users Sample.booked
  /\ Store.sessions st' = Store.sessions Sample.booked
  /\ Store.profiles st' = Store.profiles Sample.booked
  /\ Store.driver_profiles st' = Store.driver_profiles Sample.booked
  /\ map Ride.id (Store.rides st') = map Ride.id (Store.rides Sample.booked)
  /\ (forall r, In r (Store.rides Sample.booked) ->
        AcceptRide.ride_id (json (Sample.acceptance "driver-token" 1))
        <> Some (Ride.id r) ->
        In r (Store.rides st'))
  /\ exists added,
       Store.ride_notifications st'
       = (Store.ride_notifications Sample.booked ++ added)%list.
Proof.
  exact (accept_ride_frame 200%Z (Sample.acceptance "driver-token" 1)
           Sample.booked).
Defined.

(** Every outcome of a status update by a signed-in user: a refusal by the
    store, which writes nothing, or one statement that gives the rows of
    that ride the user may update their new column values. *)
Lemma updateRideStatus_cases (uid : Uuid) (st : Store.t) (rideId : Uuid)
    (status : string) (distance fare : option Js.JsNum) :
  (exists e,
     DriverDashboard.updateRideStatus uid st rideId status distance fare
     = (toast_failure (PostgrestError e), st))
  \/ (exists p s,
        Store.ride_status_in status = Some s
        /\ Store.set_driver_id p = None
        /\ Store.set_status p = Some s
        /\ (distance = None -> Store.set_distance_km p = None)
        /\ (fare = None -> Store.set_final_fare p = None)
        /\ DriverDashboard.updateRideStatus uid st rideId status distance fare
           = (toast_success "Ride status updated!",
              Store.with_rides st
                (map (fun r =>
                        if Nat.eqb (Ride.id r) rideId
                           && Store.rides_update_policy
                                (Store.authenticated uid) r
                        then Store.apply_patch p r else r)
                   (Store.rides st)))).
Proof.
  unfold DriverDashboard.updateRideStatus, Store.update_rides,
    DriverDashboard.updateData, Store.convert_update, Store.convert,
    Store.bind_pg.
  cbn [Store.upd_status Store.upd_distance_km Store.upd_final_fare
       Store.upd_driver_id].
  destruct (Store.ride_status_in status) as [s|];
    [|left; eexists; reflexivity].
  destruct (Store.convert_numeric 8 "distance_km"
              (DriverDashboard.optional_field distance)) as [e|dk] eqn:Hd;
    [left; eexists; reflexivity|].
  destruct (Store.convert_numeric 10 "final_fare"
              (DriverDashboard.optional_field fare)) as [e|ff] eqn:Hf;
    [left; eexists; reflexivity|].
  right. exists (Store.mkRidePatch None (Some s) dk ff), s.
  split; [reflexivity|]. split; [reflexivity|]. split; [reflexivity|].
  split; [|split; [|reflexivity]].
  - intros ->. cbn in Hd. inversion Hd. reflexivity.
  - intros ->. cbn in Hf. inversion Hf. reflexivity.
Qed.

Lemma handleStatusUpdate_cases (uid : Uuid) (st : Store.t) (ride : Ride.t)
    (distance fare newStatus : string) :
  (exists t,
     DriverDashboard.handleStatusUpdate uid st ride distance fare newStatus
     = (t, st)
     /\ forall m, t <> toast_success m)
  \/ (exists p s,
        Store.ride_status_in newStatus = Some s
        /\ Store.set_driver_id p = None
        /\ Store.set_status p = Some s
        /\ (newStatus <> "completed" ->
            Store.set_distance_km p = None /\ Store.set_final_fare p = None)
        /\ DriverDashboard.handleStatusUpdate uid st ride distance fare
             newStatus
           = (toast_success "Ride status updated!",
              Store.with_rides st
                (map (fun r =>
                        if Nat.eqb (Ride.id r) (Ride.id ride)
                           && Store.rides_update_policy
                                (Store.authenticated uid) r
                        then Store.apply_patch p r else r)
                   (Store.rides st)))).
Proof.
  unfold DriverDashboard.handleStatusUpdate.
  destruct (String.eqb newStatus "completed") eqn:Ec.
  - destruct (negb (Js.str_truthy distance) || negb (Js.str_truthy fare)).
    + left. eexists. split; [reflexivity|]. discriminate.
    + destruct (updateRideStatus_cases uid st (Ride.id ride) newStatus
                  (Some (Js.parseFloat distance)) (Some (Js.parseFloat fare)))
        as [[e He]|(p & s & Hs & Hd & Hst & _ & _ & Hu)].
      * left. eexists. split; [exact He|]. discriminate.
      * right. exists p, s. repeat split; try assumption;
          apply String.eqb_eq in Ec; contradiction.
  - destruct (updateRideStatus_cases uid st (Ride.id ride) newStatus None None)
      as [[e He]|(p & s & Hs & Hd & Hst & Hdk & Hff & Hu)].
    + left. eexists. split; [exact He|]. discriminate.
    + right. exists p, s. repeat split; auto.
Qed.

Lemma map_id_patch (p : Store.RidePatch) (c : Ride.t -> bool)
    (rs : list Ride.t) :
  map Ride.id (map (fun r => if c r then Store.apply_patch p r else r) rs)
  = map Ride.id rs.
Proof.
  induction rs as [|r rs IH]; [reflexivity|]. simpl. rewrite IH.
  destruct (c r); reflexivity.
Qed.

Lemma build_ride_fresh_id (timestamptz_in : string -> option Z)
    (st : Store.t) (now : Z) (row : Store.RideInsert) (r : Ride.t) :
  Store.build_ride timestamptz_in st now row = inr r ->
  ~ In (Ride.id r) (map Ride.id (Store.rides st)).
Proof.
  intros H. apply build_ride_inr in H.
  destruct H as (_ & _ & _ & _ & _ & _ & Hid & _).
  rewrite Hid. apply gen_random_uuid_fresh.
Qed.

(** The store after any create-ride call: as before, or with the new ride
    and its notification appended. *)
Lemma create_ride_store (timestamptz_in : string -> option Z) (random : Q)
    (now : Z) (req : Request CreateRide.CreateRideRequest) (st : Store.t) :
  snd (CreateRide.create_ride timestamptz_in random now req st) = st
  \/ exists user ride n,
       fst (authenticate (authorization req) st) = inr user
       /\ Store.build_ride timestamptz_in st now
            (create_ride_row random req (AuthUser.id user)) = inr ride
       /\ snd (CreateRide.create_ride timestamptz_in random now req st)
          = Store.with_ride_notifications
              (Store.with_rides st (Store.rides st ++ [ride]))
              (Store.ride_notifications st ++ [n]).
Proof.
  rewrite create_ride_eq.
  destruct (fst (authenticate (authorization req) st)) as [e|user];
    [left; reflexivity|].
  destruct (Store.single (Store.profiles_by_user st _));
    [left; reflexivity|].
  destruct (Store.build_ride timestamptz_in st now _) as [e|ride] eqn:Hb;
    [left; reflexivity|].
  right. exists user, ride. eexists. split; [reflexivity|].
  split; [exact Hb | reflexivity].
Qed.

(** The store after any accept-ride call: as before, or with the rows of the
    requested ride accepted and, on success, two notifications appended. *)
Lemma accept_ride_store (now : Z)
    (req : Request AcceptRide.AcceptRideRequest) (st : Store.t) :
  snd (AcceptRide.accept_ride now req st) = st
  \/ exists user rid ride added,
       fst (authenticate (authorization req) st) = inr user
       /\ AcceptRide.ride_id (json req) = Some rid
       /\ Store.single (AcceptRide.pending_rides_by_id st rid) = inr ride
       /\ snd (AcceptRide.accept_ride now req st)
          = Store.with_ride_notifications
              (Store.with_rides st
                 (map (fun r => if Nat.eqb (Ride.id r) rid
                                then accepted_row (AuthUser.id user) r
                                else r)
                    (Store.rides st)))
              (Store.ride_notifications st ++ added).
Proof.
  rewrite accept_ride_eq.
  destruct (fst (authenticate (authorization req) st)) as [e|user];
    [left; reflexivity|].
  destruct (Store.single (Store.profiles_by_user st (AuthUser.id user)))
    as [e|driverProfile] eqn:Hp; [left; reflexivity|].
  destruct (Store.single (Store.driver_profiles_by_user st (AuthUser.id user)));
    [left; reflexivity|].
  destruct (AcceptRide.ride_id (json req)) as [rid|]; [|left; reflexivity].
  destruct (Store.single (AcceptRide.pending_rides_by_id st rid))
    as [e|ride] eqn:Hr; [left; reflexivity|].
  right. exists user, rid, ride. cbv zeta.
  rewrite accept_commit_rides by (eapply single_has_profile; exact Hp).
  destruct (Store.single (Store.profiles_by_user st (Ride.customer_id ride)));
    [|destruct (Store.getUserById st (Ride.customer_id ride))].
  - exists []. split; [reflexivity|]. split; [reflexivity|].
    split; [exact Hr|]. rewrite app_nil_r. reflexivity.
  - eexists. split; [reflexivity|]. split; [reflexivity|].
    split; [exact Hr | reflexivity].
  - exists []. split; [reflexivity|]. split; [reflexivity|].
    split; [exact Hr|]. rewrite app_nil_r. reflexivity.
Qed.

(** X3. The primary key of [rides] is kept by every write of the
    application: create-ride inserts under an id no row has, accept-ride and
    the driver's status updates keep the ids of the rows they touch. *)
Theorem rides_pkey_preserved (timestamptz_in : string -> option Z)
    (random : Q) (now : Z) (st : Store.t) :
  rides_pkey st ->
  (forall req,
     rides_pkey
       (snd (CreateRide.create_ride timestamptz_in random now req st)))
  /\ (forall req, rides_pkey (snd (AcceptRide.accept_ride now req st)))
  /\ (forall uid ride distance fare newStatus,
        rides_pkey
          (snd (DriverDashboard.handleStatusUpdate uid st ride distance fare
                  newStatus))).
Proof.
  intros Hpk. unfold rides_pkey in *. split; [|split].
  - intros req.
    destruct (create_ride_store timestamptz_in random now req st)
      as [H|(user & ride & n & _ & Hb & H)]; rewrite H; [exact Hpk|].
    cbn [Store.rides Store.with_rides Store.with_ride_notifications].
    rewrite map_app. cbn [map].
    apply NoDup_app; [exact Hpk | constructor; [intros []|constructor] |].
    intros a Ha [<-|[]].
    exact (build_ride_fresh_id _ _ _ _ _ Hb Ha).
  - intros req.
    destruct (accept_ride_store now req st)
      as [H|(user & rid & ride & added & _ & _ & _ & H)];
      rewrite H; [exact Hpk|].
    cbn [Store.rides Store.with_rides Store.with_ride_notifications].
    rewrite map_id_accepted. exact Hpk.
  - intros uid ride distance fare newStatus.
    destruct (handleStatusUpdate_cases uid st ride distance fare newStatus)
      as [(t & Ht & _)|(p & s & _ & _ & _ & _ & Hu)].
    + rewrite Ht. exact Hpk.
    + rewrite Hu. cbn [snd Store.rides Store.with_rides].
      rewrite map_id_patch. exact Hpk.
Qed.

Lemma rides_pkey_preserved_witness :
  (forall req,
     rides_pkey
       (snd (CreateRide.create_ride Sample.timestamptz_in (1 # 2) 100 req
               Sample.booked)))
  /\ (forall req, rides_pkey (snd (AcceptRide.accept_ride 100 req Sample.booked)))
  /\ (forall uid ride distance fare newStatus,
        rides_pkey
          (snd (DriverDashboard.handleStatusUpdate uid Sample.booked ride
                  distance fare newStatus))).
Proof.
  apply (rides_pkey_preserved Sample.timestamptz_in (1 # 2) 100%Z
           Sample.booked).
  unfold rides_pkey. simpl. constructor; [simpl; tauto | constructor].
Defined.

Lemma apply_patch_status (p : Store.RidePatch) (s : RideStatus) (r : Ride.t) :
  Store.set_status p = Some s -> Ride.status (Store.apply_patch p r) = s.
Proof. intros H. unfold Store.apply_patch. cbn. rewrite H. reflexivity. Qed.

Lemma ride_status_in_button (newStatus : string) (s : RideStatus) :
  newStatus = "in_progress" \/ newStatus = "completed" ->
  Store.ride_status_in newStatus = Some s -> s <> Pending.
Proof. intros [-> | ->] H; inversion H; discriminate. Qed.

(** X4. "A pending ride has no driver" is an invariant of the application's
    writes: create-ride inserts pending rides without a driver, accept-ride
    takes the rows it assigns out of pending, and the two status updates the
    ride card can make (start, complete) never produce a pending ride. *)
Theorem pending_unassigned_preserved (timestamptz_in : string -> option Z)
    (random : Q) (now : Z) (st : Store.t) :
  pending_unassigned st ->
  (forall req,
     pending_unassigned
       (snd (CreateRide.create_ride timestamptz_in random now req st)))
  /\ (forall req,
        pending_unassigned (snd (AcceptRide.accept_ride now req st)))
  /\ (forall uid ride distance fare newStatus,
        newStatus = "in_progress" \/ newStatus = "completed" ->
        pending_unassigned
          (snd (DriverDashboard.handleStatusUpdate uid st ride distance fare
                  newStatus))).
Proof.
  intros Hinv. unfold pending_unassigned in *. split; [|split].
  - intros req r.
    destruct (create_ride_store timestamptz_in random now req st)
      as [H|(user & ride & n & _ & Hb & H)]; rewrite H; [apply Hinv|].
    cbn [Store.rides Store.with_rides Store.with_ride_notifications].
    intros Hin Hst. apply in_app_or in Hin. destruct Hin as [Hin|[<-|[]]].
    + apply Hinv; assumption.
    + apply build_ride_inr in Hb. tauto.
  - intros req r.
    destruct (accept_ride_store now req st)
      as [H|(user & rid & ride & added & _ & _ & _ & H)];
      rewrite H; [apply Hinv|].
    cbn [Store.rides Store.with_rides Store.with_ride_notifications].
    intros Hin Hst. apply in_map_iff in Hin. destruct Hin as (r0 & Hr0 & Hin).
    destruct (Nat.eqb (Ride.id r0) rid); subst r.
    + discriminate.
    + apply Hinv; assumption.
  - intros uid ride distance fare newStatus Hnew r.
    destruct (handleStatusUpdate_cases uid st ride distance fare newStatus)
      as [(t & Ht & _)|(p & s & Hs & Hd & Hps & _ & Hu)].
    + rewrite Ht. apply Hinv.
    + rewrite Hu. cbn [snd Store.rides Store.with_rides].
      intros Hin Hst. apply in_map_iff in Hin.
      destruct Hin as (r0 & Hr0 & Hin).
      destruct (Nat.eqb (Ride.id r0) (Ride.id ride)
                && Store.rides_update_policy (Store.authenticated uid) r0);
        subst r.
      * rewrite (apply_patch_status p s r0 Hps) in Hst.
        exfalso. exact (ride_status_in_button newStatus s Hnew Hs Hst).
      * apply Hinv; assumption.
Qed.

Lemma pending_unassigned_preserved_witness :
  (forall req,
     pending_unassigned
       (snd (CreateRide.create_ride Sample.timestamptz_in (1 # 2) 100 req
               Sample.accepted)))
  /\ (forall req,
        pending_unassigned (snd (AcceptRide.accept_ride 100 req Sample.accepted)))
  /\ (forall uid ride distance fare newStatus,
        newStatus = "in_progress" \/ newStatus = "completed" ->
        pending_unassigned
          (snd (DriverDashboard.handleStatusUpdate uid Sample.accepted ride
                  distance fare newStatus))).
Proof.
  apply (pending_unassigned_preserved Sample.timestamptz_in (1 # 2) 100%Z
           Sample.accepted).
  intros r [<-|[]]. simpl. discriminate.
Defined.

Lemma NoDup_map_In_inj {A B : Type} (f : A -> B) (l : list A) (a b : A) :
  NoDup (map f l) -> In a l -> In b l -> f a = f b -> a = b.
Proof.
  induction l as [|x l IH]; simpl; [contradiction|].
  intros Hnd Ha Hb Hf. inversion Hnd as [|? ? Hnotin Hnd']; subst.
  destruct Ha as [->|Ha], Hb as [->|Hb].
  - reflexivity.
  - exfalso. apply Hnotin. rewrite Hf. apply in_map. exact Hb.
  - exfalso. apply Hnotin. rewrite <- Hf. apply in_map. exact Ha.
  - apply IH; assumption.
Qed.

(** X5. Under the primary key, accept-ride never touches a ride that is not
    pending, whoever calls it and whatever it answers; so, as long as pending
    rides have no driver, a ride that has a driver keeps that driver and
    every other column across any accept-ride call. *)
Theorem accept_ride_leaves_assigned_rides (now : Z)
    (req : Request AcceptRide.AcceptRideRequest) (st : Store.t) :
  rides_pkey st ->
  (forall r, In r (Store.rides st) -> Ride.status r <> Pending ->
             In r (Store.rides (snd (AcceptRide.accept_ride now req st))))
  /\ (pending_unassigned st ->
      forall r d, In r (Store.rides st) -> Ride.driver_id r = Some d ->
                  In r (Store.rides (snd (AcceptRide.accept_ride now req st)))).
Proof.
  intros Hpk.
  assert (H1 : forall r, In r (Store.rides st) -> Ride.status r <> Pending ->
               In r (Store.rides (snd (AcceptRide.accept_ride now req st)))).
  { intros r Hin Hst.
    destruct (accept_ride_store now req st)
      as [H|(user & rid & ride & added & _ & _ & Hr & H)];
      rewrite H; [exact Hin|].
    cbn [Store.rides Store.with_rides Store.with_ride_notifications].
    apply In_map_other; [exact Hin|]. intros Hid.
    assert (Hride : In ride (Store.rides st) /\ Ride.id ride = rid
                    /\ Ride.status ride = Pending).
    { apply pending_rides_by_id_In. apply single_inr in Hr. rewrite Hr.
      left; reflexivity. }
    destruct Hride as (Hin' & Hid' & Hst').
    assert (r = ride).
    { apply (NoDup_map_In_inj Ride.id (Store.rides st)); try assumption.
      congruence. }
    subst r. contradiction. }
  split; [exact H1|].
  intros Hinv r d Hin Hd. apply H1; [exact Hin|].
  intros Hst. rewrite (Hinv r Hin Hst) in Hd. discriminate.
Qed.

Lemma accept_ride_leaves_assigned_rides_witness :
  (forall r, In r (Store.rides Sample.accepted) -> Ride.status r <> Pending ->
             In r (Store.rides
                     (snd (AcceptRide.accept_ride 300
                             (Sample.acceptance "customer-token" 1)
                             Sample.accepted))))
  /\ (pending_unassigned Sample.accepted ->
      forall r d, In r (Store.rides Sample.accepted) ->
                  Ride.driver_id r = Some d ->
                  In r (Store.rides
                          (snd (AcceptRide.accept_ride 300
                                  (Sample.acceptance "customer-token" 1)
                                  Sample.accepted)))).
Proof.
  apply (accept_ride_leaves_assigned_rides 300%Z
           (Sample.acceptance "customer-token" 1) Sample.accepted).
  unfold rides_pkey. simpl. constructor; [simpl; tauto | constructor].
Defined.

Lemma authenticate_getUserById (h : option string) (st : Store.t)
    (user : AuthUser.t) :
  authenticate h st = (inr user, st) ->
  Store.getUserById st (AuthUser.id user) = Some user.
Proof.
  unfold authenticate, throw, Store.getUser, Store.getUserById.
  destruct h as [h|]; [|discriminate].
  destruct (Js.str_truthy h); [|discriminate].
  destruct (find _ (Store.sessions st)) as [[tok uid]|]; [|discriminate].
  destruct (find (fun u => Nat.eqb (AuthUser.id u) uid) (Store.auth_users st))
    as [u|] eqn:Hf; [|discriminate].
  intros H. inversion H; subst u; clear H.
  pose proof (find_some _ _ Hf) as [_ Hid]. apply Nat.eqb_eq in Hid.
  rewrite Hid. exact Hf.
Qed.

Lemma pending_rides_by_id_new (st st' : Store.t) (ride : Ride.t) :
  Store.rides st' = (Store.rides st ++ [ride])%list ->
  ~ In (Ride.id ride) (map Ride.id (Store.rides st)) ->
  Ride.status ride = Pending ->
  AcceptRide.pending_rides_by_id st' (Ride.id ride) = [ride].
Proof.
  intros Hr Hfresh Hst. unfold AcceptRide.pending_rides_by_id.
  rewrite select_rides_service_role, Hr, filter_app.
  rewrite (filter_id_absent _ _ Hfresh). cbn.
  rewrite Nat.eqb_refl. cbn. rewrite Hst. reflexivity.
Qed.

(** X6. A ride that create-ride has just returned can be accepted: a caller
    who has a profile and a driver profile and asks for that ride's id gets
    200, and the ride is then assigned to that caller with status accepted.
    The lookups accept-ride makes about the customer cannot fail here, since
    create-ride has just checked the customer's profile and account. *)
Theorem booked_ride_can_be_accepted
    (timestamptz_in : string -> option Z) (random : Q) (now1 now2 : Z)
    (req1 : Request CreateRide.CreateRideRequest)
    (req2 : Request AcceptRide.AcceptRideRequest)
    (st st1 : Store.t) (ride : Ride.t)
    (user : AuthUser.t) (profile : Profile.t) (vehicle : DriverProfile.t) :
  CreateRide.create_ride timestamptz_in random now1 req1 st
  = (Ok200 ride, st1) ->
  identified (authorization req2) st1 user profile ->
  Store.single (Store.driver_profiles_by_user st1 (AuthUser.id user))
  = inr vehicle ->
  AcceptRide.ride_id (json req2) = Some (Ride.id ride) ->
  fst (AcceptRide.accept_ride now2 req2 st1) = Ok200 tt
  /\ exists r,
       In r (Store.rides (snd (AcceptRide.accept_ride now2 req2 st1)))
       /\ Ride.id r = Ride.id ride
       /\ Ride.customer_id r = Ride.customer_id ride
       /\ Ride.driver_id r = Some (AuthUser.id user)
       /\ Ride.status r = Accepted.
Proof.
  intros Hc [Ha Hp] Hd Hrid.
  apply create_ride_ok in Hc.
  destruct Hc as (u0 & p0 & [Ha0 Hp0] & Hb & Hau & _ & Hpr & _ & Hr).
  pose proof (build_ride_fresh_id _ _ _ _ _ Hb) as Hfresh.
  apply build_ride_inr in Hb.
  destruct Hb as (Hst & _ & _ & _ & Hcu & _).
  cbn [Store.ins_customer_id create_ride_row] in Hcu.
  pose proof (pending_rides_by_id_new st st1 ride Hr Hfresh Hst) as Hpend.
  assert (Hcp : Store.single (Store.profiles_by_user st1 (Ride.customer_id ride))
                = inr p0).
  { unfold Store.profiles_by_user. rewrite Hpr, Hcu. exact Hp0. }
  assert (Hca : Store.getUserById st1 (Ride.customer_id ride) = Some u0).
  { unfold Store.getUserById. rewrite Hau, Hcu.
    exact (authenticate_getUserById _ _ _ Ha0). }
  rewrite accept_ride_eq. rewrite Ha. cbn [fst]. rewrite Hp, Hd, Hrid.
  rewrite Hpend. cbn [Store.single]. cbv zeta. rewrite Hcp, Hca.
  split; [reflexivity|].
  exists (accepted_row (AuthUser.id user) ride).
  split; [|repeat split].
  rewrite accept_commit_rides by (eapply single_has_profile; exact Hp).
  cbn [snd Store.rides Store.with_rides Store.with_ride_notifications].
  apply in_map_iff. exists ride. rewrite Nat.eqb_refl.
  split; [reflexivity|]. rewrite Hr. apply in_or_app. right. left. reflexivity.
Qed.

Lemma booked_ride_can_be_accepted_witness :
  fst (AcceptRide.accept_ride 200 (Sample.acceptance "driver-token" 1)
         Sample.booked) = Ok200 tt
  /\ exists r,
       In r (Store.rides
               (snd (AcceptRide.accept_ride 200
                       (Sample.acceptance "driver-token" 1) Sample.booked)))
       /\ Ride.id r = Ride.id Sample.ride
       /\ Ride.customer_id r = Ride.customer_id Sample.ride
       /\ Ride.driver_id r = Some Sample.driver
       /\ Ride.status r = Accepted.
Proof.
  apply (booked_ride_can_be_accepted Sample.timestamptz_in (1 # 2) 100%Z
           200%Z (Sample.booking (Js.JString "car"))
           (Sample.acceptance "driver-token" 1) Sample.store Sample.booked
           Sample.ride
           (AuthUser.mk Sample.driver "driver@example.org")
           (Profile.mk Sample.driver (Some "Ravi") (Some "555-0100") Rider)
           Sample.driver_profile).
  - reflexivity.
  - split; reflexivity.
  - reflexivity.
  - reflexivity.
Defined.

(* ===================================================================== *)
(** ** Further properties of the dashboards                               *)
(* ===================================================================== *)

Lemma insert_by_pickup_time_perm (r : Ride.t) (l : list Ride.t) :
  Permutation (r :: l) (DriverDashboard.insert_by_pickup_time r l).
Proof.
  induction l as [|x l IH]; simpl; [apply Permutation_refl|].
  destruct (Ride.pickup_time r <=? Ride.pickup_time x)%Z.
  - apply Permutation_refl.
  - eapply perm_trans; [apply perm_swap|]. apply perm_skip. exact IH.
Qed.

Lemma order_by_pickup_time_perm (l : list Ride.t) :
  Permutation l (DriverDashboard.order_by_pickup_time l).
Proof.
  induction l as [|r l IH]; simpl; [constructor|].
  eapply perm_trans; [apply perm_skip; exact IH|].
  apply insert_by_pickup_time_perm.
Qed.

Lemma order_by_pickup_time_sorted (l : list Ride.t) :
  StronglySorted pickup_time_le (DriverDashboard.order_by_pickup_time l).
Proof.
  induction l as [|r l IH]; simpl; [constructor|].
  revert IH. generalize (DriverDashboard.order_by_pickup_time l) as s.
  induction s as [|x s IHs]; intros Hs; simpl.
  - constructor; constructor.
  - inversion Hs as [|? ? Hs' Hall]; subst.
    destruct (Ride.pickup_time r <=? Ride.pickup_time x)%Z eqn:E.
    + apply Z.leb_le in E. constructor; [exact Hs|].
      constructor; [exact E|].
      eapply Forall_impl; [|exact Hall].
      intros y Hy. unfold pickup_time_le in *. lia.
    + apply Z.leb_gt in E. constructor; [apply IHs; exact Hs'|].
      eapply Permutation_Forall; [apply insert_by_pickup_time_perm|].
      constructor; [unfold pickup_time_le; lia | exact Hall].
Qed.

Lemma insert_by_created_at_desc_perm (r : Ride.t) (l : list Ride.t) :
  Permutation (r :: l) (CustomerDashboard.insert_by_created_at_desc r l).
Proof.
  induction l as [|x l IH]; simpl; [apply Permutation_refl|].
  destruct (Ride.created_at x <=? Ride.created_at r)%Z.
  - apply Permutation_refl.
  - eapply perm_trans; [apply perm_swap|]. apply perm_skip. exact IH.
Qed.

Lemma order_by_created_at_desc_perm (l : list Ride.t) :
  Permutation l (CustomerDashboard.order_by_created_at_desc l).
Proof.
  induction l as [|r l IH]; simpl; [constructor|].
  eapply perm_trans; [apply perm_skip; exact IH|].
  apply insert_by_created_at_desc_perm.
Qed.

Lemma order_by_created_at_desc_sorted (l : list Ride.t) :
  StronglySorted created_at_ge (CustomerDashboard.order_by_created_at_desc l).
Proof.
  induction l as [|r l IH]; simpl; [constructor|].
  revert IH. generalize (CustomerDashboard.order_by_created_at_desc l) as s.
  induction s as [|x s IHs]; intros Hs; simpl.
  - constructor; constructor.
  - inversion Hs as [|? ? Hs' Hall]; subst.
    destruct (Ride.created_at x <=? Ride.created_at r)%Z eqn:E.
    + apply Z.leb_le in E. constructor; [exact Hs|].
      constructor; [exact E|].
      eapply Forall_impl; [|exact Hall].
      intros y Hy. unfold created_at_ge in *. lia.
    + apply Z.leb_gt in E. constructor; [apply IHs; exact Hs'|].
      eapply Permutation_Forall; [apply insert_by_created_at_desc_perm|].
      constructor; [unfold created_at_ge; lia | exact Hall].
Qed.

Lemma option_nat_eqb_eq (a : option nat) (b : nat) :
  option_nat_eqb a b = true <-> a = Some b.
Proof.
  unfold option_nat_eqb. destruct a as [x|].
  - rewrite Nat.eqb_eq. split; congruence.
  - split; discriminate.
Qed.

Lemma RideStatus_neqb (a b : RideStatus) :
  negb (RideStatus_eqb a b) = true <-> a <> b.
Proof. destruct a, b; simpl; split; congruence. Qed.

(** Which rides the 'driver-rides' query returns. *)
Lemma myRides_In (st : Store.t) (uid : Uuid) (dp : DriverProfile.t)
    (r : Ride.t) :
  In r (DriverDashboard.myRides st uid (Some dp))
  <-> In r (Store.rides st)
      /\ Ride.driver_id r = Some uid
      /\ Ride.status r <> Completed
      /\ Ride.status r <> Cancelled.
Proof.
  unfold DriverDashboard.myRides, Store.select_rides.
  split.
  - intros H.
    apply (Permutation_in _
             (Permutation_sym (order_by_pickup_time_perm _))) in H.
    rewrite !filter_In in H.
    rewrite !RideStatus_neqb, option_nat_eqb_eq in H. tauto.
  - intros (Hin & Hd & Hc & Hx).
    apply (Permutation_in _ (order_by_pickup_time_perm _)).
    rewrite !filter_In.
    rewrite !RideStatus_neqb, option_nat_eqb_eq,
      rides_select_policy_authenticated. tauto.
Qed.

(** Which rides the 'available-rides' query returns. *)
Lemma availableRides_In (st : Store.t) (uid : Uuid) (dp : DriverProfile.t)
    (r : Ride.t) :
  In r (DriverDashboard.availableRides st uid (Some dp))
  <-> In r (Store.rides st)
      /\ (Ride.customer_id r = uid \/ Ride.driver_id r = Some uid)
      /\ Ride.status r = Pending
      /\ Ride.vehicle_type r = DriverProfile.vehicle_type dp.
Proof.
  unfold DriverDashboard.availableRides, Store.select_rides. split.
  - intros H.
    apply (Permutation_in _
             (Permutation_sym (order_by_created_at_perm _))) in H.
    rewrite !filter_In in H.
    rewrite VehicleType_eqb_eq, RideStatus_eqb_eq,
      rides_select_policy_authenticated in H. tauto.
  - intros H.
    apply (Permutation_in _ (order_by_created_at_perm _)).
    rewrite !filter_In.
    rewrite VehicleType_eqb_eq, RideStatus_eqb_eq,
      rides_select_policy_authenticated. tauto.
Qed.

(** Which rides the 'customer-rides' query returns. *)
Lemma customer_rides_In (st : Store.t) (uid : Uuid) (r : Ride.t) :
  In r (CustomerDashboard.rides st uid)
  <-> In r (Store.rides st) /\ Ride.customer_id r = uid.
Proof.
  unfold CustomerDashboard.rides, Store.select_rides. split.
  - intros H.
    apply (Permutation_in _
             (Permutation_sym (order_by_created_at_desc_perm _))) in H.
    rewrite !filter_In in H. rewrite Nat.eqb_eq in H. tauto.
  - intros [Hin Hc].
    apply (Permutation_in _ (order_by_created_at_desc_perm _)).
    rewrite !filter_In.
    rewrite Nat.eqb_eq, rides_select_policy_authenticated. tauto.
Qed.

(** X7. The driver's "Your Rides" list holds exactly the rides assigned to
    the signed-in driver that are neither completed nor cancelled, each as
    often as it is in the table, in ascending order of pickup time; without
    a driver profile the list is empty. *)
Theorem myRides_spec (st : Store.t) (uid : Uuid) (dp : DriverProfile.t) :
  (forall r,
     In r (DriverDashboard.myRides st uid (Some dp))
     <-> In r (Store.rides st)
         /\ Ride.driver_id r = Some uid
         /\ Ride.status r <> Completed
         /\ Ride.status r <> Cancelled)
  /\ Permutation
       (DriverDashboard.myRides st uid (Some dp))
       (filter (fun r =>
                  option_nat_eqb (Ride.driver_id r) uid
                  && negb (RideStatus_eqb (Ride.status r) Completed)
                  && negb (RideStatus_eqb (Ride.status r) Cancelled))
          (Store.rides st))
  /\ StronglySorted pickup_time_le (DriverDashboard.myRides st uid (Some dp))
  /\ DriverDashboard.myRides st uid None = [].
Proof.
  split; [intros r; apply myRides_In|].
  split; [|split; [apply order_by_pickup_time_sorted | reflexivity]].
  unfold DriverDashboard.myRides, Store.select_rides.
  eapply perm_trans; [apply Permutation_sym; apply order_by_pickup_time_perm|].
  rewrite (filter_filter_andb
             (fun r => option_nat_eqb (Ride.driver_id r) uid)).
  rewrite (filter_filter_andb
             (fun r => negb (RideStatus_eqb (Ride.status r) Completed))).
  rewrite filter_filter_andb.
  erewrite filter_ext; [apply Permutation_refl|].
  intros r. cbn beta. unfold Store.rides_select_policy.
  destruct (option_nat_eqb (Ride.driver_id r) uid);
    rewrite ?orb_true_r, ?andb_false_r; reflexivity.
Qed.

(** X9. The customer's "Your Rides" list holds exactly the rides the
    signed-in user booked, whatever their status, each as often as it is in
    the table, newest first. *)
Theorem customer_rides_spec (st : Store.t) (uid : Uuid) :
  (forall r,
     In r (CustomerDashboard.rides st uid)
     <-> In r (Store.rides st) /\ Ride.customer_id r = uid)
  /\ Permutation
       (CustomerDashboard.rides st uid)
       (filter (fun r => Nat.eqb (Ride.customer_id r) uid) (Store.rides st))
  /\ StronglySorted created_at_ge (CustomerDashboard.rides st uid).
Proof.
  split; [intros r; apply customer_rides_In|].
  split; [|apply order_by_created_at_desc_sorted].
  unfold CustomerDashboard.rides, Store.select_rides.
  eapply perm_trans;
    [apply Permutation_sym; apply order_by_created_at_desc_perm|].
  rewrite filter_filter_andb.
  erewrite filter_ext; [apply Permutation_refl|].
  intros r. cbn beta. unfold Store.rides_select_policy.
  destruct (Nat.eqb (Ride.customer_id r) uid) eqn:E.
  - apply Nat.eqb_eq in E. rewrite <- E, Nat.eqb_refl. reflexivity.
  - apply andb_false_r.
Qed.

(** What a successful accept-ride call did to [rides]. *)
Lemma accept_ride_ok (now : Z) (req : Request AcceptRide.AcceptRideRequest)
    (st st' : Store.t) :
  AcceptRide.accept_ride now req st = (Ok200 tt, st') ->
  exists user rid ride,
    fst (authenticate (authorization req) st) = inr user
    /\ AcceptRide.ride_id (json req) = Some rid
    /\ In ride (Store.rides st) /\ Ride.id ride = rid
    /\ Ride.status ride = Pending
    /\ Store.rides st'
       = map (fun r => if Nat.eqb (Ride.id r) rid
                       then accepted_row (AuthUser.id user) r else r)
           (Store.rides st).
Proof.
  rewrite accept_ride_eq.
  destruct (fst (authenticate (authorization req) st)) as [e|user];
    [discriminate|].
  destruct (Store.single (Store.profiles_by_user st (AuthUser.id user)))
    as [e|driverProfile] eqn:Hp; [discriminate|].
  destruct (Store.single (Store.driver_profiles_by_user st (AuthUser.id user)));
    [discriminate|].
  destruct (AcceptRide.ride_id (json req)) as [rid|]; [|discriminate].
  destruct (Store.single (AcceptRide.pending_rides_by_id st rid))
    as [e|ride] eqn:Hr; [discriminate|].
  cbv zeta.
  destruct (Store.single (Store.profiles_by_user st (Ride.customer_id ride)));
    [discriminate|].
  destruct (Store.getUserById st (Ride.customer_id ride)); [|discriminate].
  rewrite accept_commit_rides by (eapply single_has_profile; exact Hp).
  intros H. inversion H; subst st'; clear H.
  assert (Hin : In ride (Store.rides st) /\ Ride.id ride = rid
                /\ Ride.status ride = Pending).
  { apply pending_rides_by_id_In. apply single_inr in Hr. rewrite Hr.
    left; reflexivity. }
  exists user, rid, ride. repeat split; tauto.
Qed.

(** X8. After a successful accept-ride call the ride is in the accepting
    driver's "Your Rides" list, with status accepted, and no row with its id
    is in anyone's list of available rides any more. *)
Theorem accepted_ride_changes_lists (now : Z)
    (req : Request AcceptRide.AcceptRideRequest) (st st' : Store.t)
    (user : AuthUser.t) (rid : Uuid) :
  AcceptRide.accept_ride now req st = (Ok200 tt, st') ->
  fst (authenticate (authorization req) st) = inr user ->
  AcceptRide.ride_id (json req) = Some rid ->
  (forall dp,
     exists r, In r (DriverDashboard.myRides st' (AuthUser.id user) (Some dp))
               /\ Ride.id r = rid /\ Ride.status r = Accepted)
  /\ (forall uid dp r,
        In r (DriverDashboard.availableRides st' uid (Some dp)) ->
        Ride.id r <> rid).
Proof.
  intros Hok Ha Hrid. apply accept_ride_ok in Hok.
  destruct Hok as (user' & rid' & ride & Ha' & Hrid' & Hin & Hid & Hst & Hr).
  assert (Eu : user' = user) by congruence.
  assert (Er : rid' = rid) by congruence.
  rewrite Eu, Er in *. clear Eu Er Ha' Hrid'.
  split.
  - intros dp. exists (accepted_row (AuthUser.id user) ride).
    split; [|split; [exact Hid | reflexivity]].
    apply myRides_In. rewrite Hr.
    split; [|cbn; repeat split; discriminate].
    apply in_map_iff. exists ride. rewrite Hid, Nat.eqb_refl.
    split; [reflexivity | exact Hin].
  - intros uid dp r Hav Hrid'.
    apply availableRides_In in Hav. destruct Hav as (Hin' & _ & Hpend & _).
    rewrite Hr in Hin'. apply in_map_iff in Hin'.
    destruct Hin' as (r0 & Hr0 & _).
    destruct (Nat.eqb (Ride.id r0) rid) eqn:E; subst r.
    + discriminate.
    + apply Nat.eqb_neq in E. contradiction.
Qed.

Lemma accepted_ride_changes_lists_witness :
  (forall dp,
     exists r, In r (DriverDashboard.myRides Sample.accepted
                       (AuthUser.id
                          (AuthUser.mk Sample.driver "driver@example.org"))
                       (Some dp))
               /\ Ride.id r = 1 /\ Ride.status r = Accepted)
  /\ (forall uid dp r,
        In r (DriverDashboard.availableRides Sample.accepted uid (Some dp)) ->
        Ride.id r <> 1).
Proof.
  apply (accepted_ride_changes_lists 200%Z
           (Sample.acceptance "driver-token" 1) Sample.booked Sample.accepted
           (AuthUser.mk Sample.driver "driver@example.org") 1);
    reflexivity.
Defined.

(** X10. As long as pending rides have no driver, every ride the dashboard
    lists as available to a driver is one that this same user booked: the
    row policy on [rides] hides the pending rides of all other customers. *)
Theorem availableRides_are_own_bookings (st : Store.t) (uid : Uuid)
    (dp : DriverProfile.t) (r : Ride.t) :
  pending_unassigned st ->
  In r (DriverDashboard.availableRides st uid (Some dp)) ->
  Ride.customer_id r = uid.
Proof.
  intros Hinv Hav. apply availableRides_In in Hav.
  destruct Hav as (Hin & [Hc|Hd] & Hpend & _); [exact Hc|].
  rewrite (Hinv r Hin Hpend) in Hd. discriminate.
Qed.

Lemma availableRides_are_own_bookings_witness :
  Ride.customer_id Sample.ride = Sample.customer.
Proof.
  apply (availableRides_are_own_bookings Sample.booked Sample.customer
           (DriverProfile.mk 11 Sample.customer Car "KA-05-0007" None
              (Some true))
           Sample.ride).
  - intros r [<-|[]] _. reflexivity.
  - left. reflexivity.
Defined.





(** X12. Once "Complete Ride" has reported success, no row with that ride's
    id is in the driver's "Your Rides" list any more. *)
Theorem completed_ride_leaves_my_rides (uid : Uuid) (st : Store.t)
    (ride : Ride.t) (distance fare message : string) :
  fst (DriverDashboard.handleStatusUpdate uid st ride distance fare
         "completed") = toast_success message ->
  forall dp r,
    In r (DriverDashboard.myRides
            (snd (DriverDashboard.handleStatusUpdate uid st ride distance
                    fare "completed")) uid (Some dp)) ->
    Ride.id r <> Ride.id ride.
Proof.
  intros Hok dp r Hmy Hid.
  destruct (handleStatusUpdate_cases uid st ride distance fare "completed")
    as [(t & Ht & Hne)|(p & s & Hs & _ & Hps & _ & Hu)].
  - rewrite Ht in Hok. cbn in Hok. exact (Hne message Hok).
  - rewrite Hu in Hmy. cbn [snd] in Hmy. apply myRides_In in Hmy.
    destruct Hmy as (Hin & Hd & Hc & _).
    cbn [Store.rides Store.with_rides] in Hin.
    apply in_map_iff in Hin. destruct Hin as (r0 & Hr0 & _).
    unfold Store.rides_update_policy in Hr0.
    destruct (Nat.eqb (Ride.id r0) (Ride.id ride)) eqn:E.
    + destruct (option_nat_eqb (Ride.driver_id r0) uid) eqn:Ed;
        cbn [andb orb] in Hr0.
      * subst r. rewrite (apply_patch_status p s r0 Hps) in Hc.
        inversion Hs; subst s. contradiction.
      * destruct (Nat.eqb uid (Ride.customer_id r0)); cbn in Hr0; subst r.
        -- rewrite (apply_patch_status p s r0 Hps) in Hc.
           inversion Hs; subst s. contradiction.
        -- apply option_nat_eqb_eq in Hd. congruence.
    + cbn in Hr0. subst r. apply Nat.eqb_neq in E. contradiction.
Qed.

Lemma completed_ride_leaves_my_rides_witness :
  ~ In Sample.ride_under_way
      (DriverDashboard.myRides
         (snd (DriverDashboard.handleStatusUpdate Sample.driver
                 Sample.started Sample.ride_under_way "12.5" "150"
                 "completed")) Sample.driver (Some Sample.driver_profile)).
Proof.
  intros H.
  apply (completed_ride_leaves_my_rides Sample.driver Sample.started
           Sample.ride_under_way "12.5" "150" "Ride status updated!"
           eq_refl Sample.driver_profile Sample.ride_under_way H).
  reflexivity.
Defined.

Lemma with_rides_same (st : Store.t) : Store.with_rides st (Store.rides st) = st.
Proof. destruct st; reflexivity. Qed.

(** X13. The status update looks only at the error of the store, not at how
    many rows it changed: for a ride the signed-in user neither drives nor
    booked (or that is no longer in the table), "Start Ride" or any other
    status but completed is answered with "Ride status updated!" although
    nothing was written. *)
Theorem status_update_of_foreign_ride (uid : Uuid) (st : Store.t)
    (ride : Ride.t) (distance fare newStatus : string) (s : RideStatus) :
  Store.ride_status_in newStatus = Some s ->
  newStatus <> "completed" ->
  (forall r, In r (Store.rides st) -> Ride.id r = Ride.id ride ->
             Ride.driver_id r <> Some uid /\ Ride.customer_id r <> uid) ->
  DriverDashboard.handleStatusUpdate uid st ride distance fare newStatus
  = (toast_success "Ride status updated!", st).
Proof.
  intros Hs Hnc Hforeign. unfold DriverDashboard.handleStatusUpdate.
  apply String.eqb_neq in Hnc. rewrite Hnc.
  destruct (updateRideStatus_cases uid st (Ride.id ride) newStatus None None)
    as [[e He]|(p & s' & _ & _ & _ & _ & _ & Hu)].
  - exfalso. revert He.
    unfold DriverDashboard.updateRideStatus, Store.update_rides,
      DriverDashboard.updateData, Store.convert_update, Store.convert,
      Store.bind_pg.
    cbn. rewrite Hs. cbn. discriminate.
  - rewrite Hu. f_equal.
    transitivity (Store.with_rides st (Store.rides st));
      [|apply with_rides_same].
    f_equal.
    transitivity (map (fun r : Ride.t => r) (Store.rides st));
      [|apply map_id].
    apply map_ext_in. intros r Hr.
    destruct (Nat.eqb (Ride.id r) (Ride.id ride)) eqn:E; [|reflexivity].
    apply Nat.eqb_eq in E. destruct (Hforeign r Hr E) as [Hd Hc].
    unfold Store.rides_update_policy.
    destruct (option_nat_eqb (Ride.driver_id r) uid) eqn:Ed;
      [apply option_nat_eqb_eq in Ed; contradiction|].
    destruct (Nat.eqb uid (Ride.customer_id r)) eqn:Ec;
      [apply Nat.eqb_eq in Ec; congruence|].
    reflexivity.
Qed.

Lemma status_update_of_foreign_ride_witness :
  DriverDashboard.handleStatusUpdate 7 Sample.accepted
    (accepted_row Sample.driver Sample.ride) "" "" "in_progress"
  = (toast_success "Ride status updated!", Sample.accepted).
Proof.
  apply (status_update_of_foreign_ride 7 Sample.accepted
           (accepted_row Sample.driver Sample.ride) "" "" "in_progress"
           InProgress).
  - reflexivity.
  - discriminate.
  - intros r [<-|[]] _. split; discriminate.
Defined.

Lemma select_own_driver_profiles (st : Store.t) (uid : Uuid) :
  Store.select_driver_profiles (Store.authenticated uid) st uid
  = filter (fun d => Nat.eqb (DriverProfile.user_id d) uid)
      (Store.driver_profiles st).
Proof.
  unfold Store.select_driver_profiles. rewrite filter_filter_andb.
  apply filter_ext. intros d. unfold Store.driver_profiles_select_policy.
  destruct (Nat.eqb (DriverProfile.user_id d) uid) eqn:E;
    [|apply andb_false_r].
  apply Nat.eqb_eq in E. rewrite E, Nat.eqb_refl. reflexivity.
Qed.

Lemma filter_user_absent (uid : Uuid) (ds : list DriverProfile.t) :
  (forall d, In d ds -> DriverProfile.user_id d <> uid) ->
  filter (fun d => Nat.eqb (DriverProfile.user_id d) uid) ds = [].
Proof.
  induction ds as [|d ds IH]; [reflexivity|]. intros H. simpl.
  destruct (Nat.eqb (DriverProfile.user_id d) uid) eqn:E.
  - apply Nat.eqb_eq in E. exfalso. apply (H d); [left; reflexivity|exact E].
  - apply IH. intros d' Hd'. apply H. right. exact Hd'.
Qed.

Lemma existsb_user_absent (uid : Uuid) (ds : list DriverProfile.t) :
  (forall d, In d ds -> DriverProfile.user_id d <> uid) ->
  existsb (fun d => Nat.eqb (DriverProfile.user_id d) uid) ds = false.
Proof.
  intros H. destruct (existsb _ ds) eqn:E; [|reflexivity].
  apply existsb_exists in E. destruct E as (d & Hd & Hu).
  apply Nat.eqb_eq in Hu. exfalso. exact (H d Hd Hu).
Qed.

(** X14. Setting up a driver profile: when the signed-in user has a profile
    row and no driver profile yet, submitting the form stores one row with
    the entered vehicle type, number and licence and with is_available =
    true, and the dashboard's profile query then returns exactly that row.
    When the user already has a driver profile the form does not know of,
    or has no profile row, the store refuses and nothing is written. *)
Theorem handleProfileSubmit_saves (uid : Uuid) (st : Store.t)
    (vehicleType : VehicleType) (vehicleNumber licenseNumber : string) :
  let out := DriverDashboard.handleProfileSubmit uid None st vehicleType
               vehicleNumber licenseNumber in
  ((forall d, In d (Store.driver_profiles st) ->
              DriverProfile.user_id d <> uid) ->
   Store.has_profile st uid = true ->
   fst out = DriverDashboard.notice_success "Profile saved successfully!"
   /\ exists d,
        DriverDashboard.driverProfile (snd out) uid = Some d
        /\ Store.driver_profiles (snd out)
           = (Store.driver_profiles st ++ [d])%list
        /\ DriverProfile.user_id d = uid
        /\ DriverProfile.vehicle_type d = vehicleType
        /\ DriverProfile.vehicle_number d = vehicleNumber
        /\ DriverProfile.license_number d = Some licenseNumber
        /\ DriverProfile.is_available d = Some true)
  /\ ((exists d, In d (Store.driver_profiles st)
                 /\ DriverProfile.user_id d = uid)
      \/ Store.has_profile st uid = false ->
      exists e, out = (DriverDashboard.notice_failure e, st)).
Proof.
  cbv zeta.
  unfold DriverDashboard.handleProfileSubmit, DriverDashboard.saveProfile,
    Store.insert_driver_profile.
  split.
  - intros Hnone Hp.
    rewrite (existsb_user_absent uid _ Hnone), Hp. cbn [negb fst snd].
    split; [reflexivity|]. eexists.
    split; [|split; [reflexivity|repeat split]].
    unfold DriverDashboard.driverProfile.
    rewrite select_own_driver_profiles.
    cbn [Store.driver_profiles Store.with_driver_profiles].
    rewrite filter_app, (filter_user_absent uid _ Hnone).
    cbn. rewrite Nat.eqb_refl. reflexivity.
  - intros [(d & Hd & Hu)|Hp].
    + assert (E : existsb (fun d => Nat.eqb (DriverProfile.user_id d) uid)
                    (Store.driver_profiles st) = true).
      { apply existsb_exists. exists d. split; [exact Hd|].
        apply Nat.eqb_eq. exact Hu. }
      rewrite E. eexists. reflexivity.
    + destruct (existsb _ (Store.driver_profiles st));
        [eexists; reflexivity|].
      rewrite Hp. eexists. reflexivity.
Qed.

Lemma handleProfileSubmit_saves_witness :
  let out := DriverDashboard.handleProfileSubmit Sample.customer None
               Sample.store Bike "KA-05-0007" "" in
  fst out = DriverDashboard.notice_success "Profile saved successfully!"
  /\ exists d,
       DriverDashboard.driverProfile (snd out) Sample.customer = Some d
       /\ Store.driver_profiles (snd out)
          = (Store.driver_profiles Sample.store ++ [d])%list
       /\ DriverProfile.user_id d = Sample.customer
       /\ DriverProfile.vehicle_type d = Bike
       /\ DriverProfile.vehicle_number d = "KA-05-0007"
       /\ DriverProfile.license_number d = Some ""
       /\ DriverProfile.is_available d = Some true.
Proof.
  apply (proj1 (handleProfileSubmit_saves Sample.customer Sample.store Bike
                  "KA-05-0007" "")).
  - intros d [<-|[]]. discriminate.
  - reflexivity.
Defined.




(* ===================================================================== *)
(** ** From the dashboards through the edge functions                     *)
(* ===================================================================== *)

(** A header ["Bearer " ++ jwt] is resolved through the session of [jwt]. *)
Lemma authenticate_bearer (jwt : string) (st : Store.t) :
  authenticate (Some ("Bearer " ++ jwt)) st
  = match Store.getUser st jwt with
    | Some user => (inr user, st)
    | None => (inl (Error "Unauthorized"), st)
    end.
Proof. reflexivity. Qed.

Lemma numeric2_in_integer_fits (precision z : Z) :
  (Z.abs (100 * z) < 10 ^ precision)%Z ->
  Store.numeric2_in precision (inject_Z z) = Some (100 * z)%Z.
Proof.
  intros Hfit. unfold Store.numeric2_in.
  assert (Hpos : Qfloor (inject_Z z * 100 + (1 # 2))%Q = (100 * z)%Z).
  { unfold Qfloor, Qplus, Qmult, inject_Z. cbn -[Z.mul Z.div Z.add Z.opp].
    symmetry. apply Z.div_unique with (r := 1%Z); lia. }
  assert (Hneg : Qfloor (- inject_Z z * 100 + (1 # 2))%Q = (- (100 * z))%Z).
  { unfold Qfloor, Qplus, Qmult, Qopp, inject_Z.
    cbn -[Z.mul Z.div Z.add Z.opp].
    symmetry. apply Z.div_unique with (r := 1%Z); lia. }
  rewrite Hpos, Hneg, Z.opp_involutive.
  apply Z.ltb_lt in Hfit.
  destruct (Qle_bool 0 (inject_Z z)); rewrite Hfit; reflexivity.
Qed.

Lemma vehicle_type_in_text (v : VehicleType) :
  Store.vehicle_type_in (vehicle_type_text v) = Some v.
Proof. destruct v; reflexivity. Qed.

Lemma str_truthy_nonempty (s : string) : s <> "" -> Js.str_truthy s = true.
Proof. destruct s; [contradiction | reflexivity]. Qed.

(** X16. Booking from the customer dashboard succeeds whenever it can: with
    a session the identity service resolves, one profile row for that user,
    non-empty from, to and pickup time, and a pickup time the store reads as
    a timestamp, [handleSubmit] reports success, and the customer's ride list
    then holds a new pending ride without driver, with the entered places,
    time, vehicle type and notes (empty notes stored as NULL) and an
    estimated fare between base(type) and base(type) + 100. *)
Theorem handleSubmit_books_ride (timestamptz_in : string -> option Z)
    (random : Q) (now : Z) (bearer : string) (st : Store.t)
    (user : AuthUser.t) (profile : Profile.t)
    (fromLocation toLocation pickupTime : string) (vehicleType : VehicleType)
    (notes : string) (t : Z) :
  (0 <= random)%Q -> (random < 1)%Q ->
  Store.getUser st bearer = Some user ->
  Store.single (Store.profiles_by_user st (AuthUser.id user)) = inr profile ->
  fromLocation <> "" -> toLocation <> "" -> pickupTime <> "" ->
  timestamptz_in pickupTime = Some t ->
  let out := CustomerDashboard.handleSubmit timestamptz_in random now bearer
               st fromLocation toLocation pickupTime vehicleType notes in
  fst out = toast_success "Ride request created successfully!"
  /\ exists ride fare,
       In ride (CustomerDashboard.rides (snd out) (AuthUser.id user))
       /\ ~ In (Ride.id ride) (map Ride.id (Store.rides st))
       /\ Ride.status ride = Pending
       /\ Ride.driver_id ride = None
       /\ Ride.from_location ride = fromLocation
       /\ Ride.to_location ride = toLocation
       /\ Ride.pickup_time ride = t
       /\ Ride.vehicle_type ride = vehicleType
       /\ Ride.notes ride
          = (if Js.str_truthy notes then Some notes else None)
       /\ Ride.created_at ride = now
       /\ Ride.estimated_fare ride = Some (100 * fare)%Z
       /\ (base vehicleType <= fare <= base vehicleType + 100)%Z.
Proof.
  intros Hlo Hhi Hu Hp Hf Ht Hpk Hts. cbv zeta.
  unfold CustomerDashboard.handleSubmit.
  rewrite (str_truthy_nonempty _ Hf), (str_truthy_nonempty _ Ht),
    (str_truthy_nonempty _ Hpk). cbn [negb orb].
  unfold CreateRide.serve. cbn [method]. cbn [String.eqb Ascii.eqb Bool.eqb].
  rewrite create_ride_eq. cbn [authorization json].
  rewrite authenticate_bearer, Hu. cbn [fst]. rewrite Hp.
  pose proof (Math_round_range (base vehicleType) random Hlo Hhi) as Hrange.
  set (fare := Js.Math_round (inject_Z (base vehicleType) + random * 100)%Q)
    in *.
  assert (Hfare : CreateRide.estimatedFare
                    (Js.JString (vehicle_type_text vehicleType)) random
                  = fare).
  { unfold CreateRide.estimatedFare. rewrite baseFare_base. reflexivity. }
  assert (Hbase : (30 <= base vehicleType <= 80)%Z)
    by (destruct vehicleType; cbn; lia).
  assert (Hbuild :
            Store.build_ride timestamptz_in st now
              (create_ride_row random
                 (mkRequest "POST" (Some ("Bearer " ++ bearer))
                    (CreateRide.mkCreateRideRequest (Js.JString fromLocation)
                       (Js.JString toLocation) (Js.JString pickupTime)
                       (Js.JString (vehicle_type_text vehicleType))
                       (if Js.str_truthy notes then Js.JString notes
                        else Js.JNull)))
                 (AuthUser.id user))
            = inr (Ride.mk
                     (Store.gen_random_uuid (map Ride.id (Store.rides st)))
                     (AuthUser.id user) None fromLocation toLocation t
                     vehicleType None (Some (100 * fare)%Z) None Pending
                     (if Js.str_truthy notes then Some notes else None)
                     now)).
  { unfold Store.build_ride, create_ride_row, Store.bind_pg, Store.convert,
      Store.not_null, Store.text_column.
    cbn [json CreateRide.from_location CreateRide.to_location
         CreateRide.pickup_time CreateRide.vehicle_type CreateRide.notes
         Store.ins_customer_id Store.ins_from_location Store.ins_to_location
         Store.ins_pickup_time Store.ins_vehicle_type Store.ins_notes
         Store.ins_estimated_fare].
    rewrite Hts, vehicle_type_in_text, Hfare.
    rewrite numeric2_in_integer_fits
      by (change (10 ^ 10)%Z with 10000000000%Z; lia).
    rewrite (single_has_profile st _ _ Hp).
    destruct (Js.str_truthy notes); reflexivity. }
  rewrite Hbuild. cbn [fst snd]. split; [reflexivity|].
  exists (Ride.mk (Store.gen_random_uuid (map Ride.id (Store.rides st)))
            (AuthUser.id user) None fromLocation toLocation t vehicleType
            None (Some (100 * fare)%Z) None Pending
            (if Js.str_truthy notes then Some notes else None) now), fare.
  split; [|split; [apply gen_random_uuid_fresh|]].
  - apply customer_rides_In.
    cbn [Store.rides Store.with_rides Store.with_ride_notifications
         Ride.customer_id].
    split; [apply in_or_app; right; left; reflexivity | reflexivity].
  - destruct Hrange as [Hr1 Hr2].
    repeat split; try reflexivity; assumption.
Qed.

Lemma handleSubmit_books_ride_witness :
  let out := CustomerDashboard.handleSubmit Sample.timestamptz_in (1 # 2) 100
               "customer-token" Sample.store "City Center" "Airport"
               "2025-09-02T10:00:00Z" Car "" in
  fst out = toast_success "Ride request created successfully!"
  /\ exists ride fare,
       In ride (CustomerDashboard.rides (snd out) Sample.customer)
       /\ ~ In (Ride.id ride) (map Ride.id (Store.rides Sample.store))
       /\ Ride.status ride = Pending
       /\ Ride.driver_id ride = None
       /\ Ride.from_location ride = "City Center"
       /\ Ride.to_location ride = "Airport"
       /\ Ride.pickup_time ride = 20%Z
       /\ Ride.vehicle_type ride = Car
       /\ Ride.notes ride = None
       /\ Ride.created_at ride = 100%Z
       /\ Ride.estimated_fare ride = Some (100 * fare)%Z
       /\ (base Car <= fare <= base Car + 100)%Z.
Proof.
  apply (handleSubmit_books_ride Sample.timestamptz_in (1 # 2) 100%Z
           "customer-token" Sample.store
           (AuthUser.mk Sample.customer "customer@example.org")
           (Profile.mk Sample.customer (Some "Asha") None Customer)
           "City Center" "Airport" "2025-09-02T10:00:00Z" Car "" 20%Z);
    try discriminate; reflexivity.
Defined.

(** X17. Clicking "Accept" on a ride of the available list works: with a
    session the identity service resolves, one profile and one driver
    profile for that user, the primary key on rides and no driver on pending
    rides, [acceptRide] reports success, and the ride (which, by the row
    policy, the accepting user booked) is then in that user's "Your Rides"
    list with status accepted. *)
Theorem acceptRide_of_listed_ride (now : Z) (bearer : string) (st : Store.t)
    (user : AuthUser.t) (profile : Profile.t) (vehicle dp : DriverProfile.t)
    (r : Ride.t) :
  rides_pkey st -> pending_unassigned st ->
  Store.getUser st bearer = Some user ->
  Store.single (Store.profiles_by_user st (AuthUser.id user)) = inr profile ->
  Store.single (Store.driver_profiles_by_user st (AuthUser.id user))
  = inr vehicle ->
  In r (DriverDashboard.availableRides st (AuthUser.id user) (Some dp)) ->
  let out := DriverDashboard.acceptRide now bearer st (Ride.id r) in
  fst out = toast_success "Ride accepted successfully!"
  /\ exists r',
       In r' (DriverDashboard.myRides (snd out) (AuthUser.id user) (Some dp))
       /\ Ride.id r' = Ride.id r
       /\ Ride.status r' = Accepted
       /\ Ride.customer_id r' = AuthUser.id user.
Proof.
  intros Hpk Hinv Hu Hp Hd Hav. cbv zeta.
  apply availableRides_In in Hav.
  destruct Hav as (Hin & Hown & Hpend & _).
  assert (Hcu : Ride.customer_id r = AuthUser.id user).
  { destruct Hown as [H|H]; [exact H|].
    rewrite (Hinv r Hin Hpend) in H. discriminate. }
  assert (Hsingle : Store.single
                      (AcceptRide.pending_rides_by_id st (Ride.id r)) = inr r).
  { apply single_inr. unfold AcceptRide.pending_rides_by_id.
    rewrite select_rides_service_role.
    rewrite (filter_id_unique _ (Ride.id r) r Hpk Hin eq_refl).
    cbn. rewrite Hpend. reflexivity. }
  assert (Ha : authenticate (Some ("Bearer " ++ bearer)) st = (inr user, st))
    by (rewrite authenticate_bearer, Hu; reflexivity).
  unfold DriverDashboard.acceptRide, AcceptRide.serve.
  cbn [method]. cbn [String.eqb Ascii.eqb Bool.eqb].
  rewrite accept_ride_eq. cbn [authorization json AcceptRide.ride_id].
  rewrite Ha. cbn [fst]. rewrite Hp, Hd, Hsingle. cbv zeta.
  rewrite Hcu, Hp, (authenticate_getUserById _ _ _ Ha).
  cbn [fst snd]. split; [reflexivity|].
  exists (accepted_row (AuthUser.id user) r).
  split; [|repeat split; exact Hcu].
  apply myRides_In.
  rewrite accept_commit_rides by (eapply single_has_profile; exact Hp).
  cbn [Store.rides Store.with_rides Store.with_ride_notifications].
  split; [|cbn; repeat split; discriminate].
  apply in_map_iff. exists r. rewrite Nat.eqb_refl.
  split; [reflexivity | exact Hin].
Qed.

Lemma acceptRide_of_listed_ride_witness :
  let out := DriverDashboard.acceptRide 200 "customer-token"
               Sample.customer_drives_too (Ride.id Sample.ride) in
  fst out = toast_success "Ride accepted successfully!"
  /\ exists r',
       In r' (DriverDashboard.myRides (snd out) Sample.customer
                (Some (DriverProfile.mk 11 Sample.customer Car "KA-05-0007"
                         None (Some true))))
       /\ Ride.id r' = Ride.id Sample.ride
       /\ Ride.status r' = Accepted
       /\ Ride.customer_id r' = Sample.customer.
Proof.
  apply (acceptRide_of_listed_ride 200%Z "customer-token"
           Sample.customer_drives_too
           (AuthUser.mk Sample.customer "customer@example.org")
           (Profile.mk Sample.customer (Some "Asha") None Customer)
           (DriverProfile.mk 11 Sample.customer Bike "KA-05-0007" None
              (Some true))
           (DriverProfile.mk 11 Sample.customer Car "KA-05-0007" None
              (Some true))
           Sample.ride).
  - unfold rides_pkey. simpl. constructor; [simpl; tauto | constructor].
  - intros r [<-|[]] _. reflexivity.
  - reflexivity.
  - reflexivity.
  - reflexivity.
  - left. reflexivity.
Defined.

(** X18. The caller checks of the two functions on a request as it arrives,
    in the order they are made. Without an authorization header (or with an
    empty one) the answer is 'No authorization header', and with a header
    whose token the identity service does not resolve it is 'Unauthorized':
    these two do not depend on the body, not even on whether it can be read.
    Once the token is resolved the body is read, and a body that
    [req.json()] or the destructuring rejects is answered with the message
    of that error, whether the user has a profile or not. For a body that
    can be read, a user without a profile row gets 'Customer profile not
    found' from create-ride and 'Driver profile not found' from accept-ride,
    and a user with one profile row but no driver profile gets 'Driver
    vehicle profile not found' from accept-ride, whatever the fields are.
    None of these answers writes to the store; and on a body that can be
    read each function does what it does on the fields. *)
Theorem caller_checks (timestamptz_in : string -> option Z) (random : Q)
    (now : Z) (st : Store.t) :
  (forall m j1 j2,
     CreateRide.create_ride_raw timestamptz_in random now
       (mkRequest m None j1) st
     = (Err400 (Error "No authorization header"), st)
     /\ CreateRide.create_ride_raw timestamptz_in random now
          (mkRequest m (Some "") j1) st
        = (Err400 (Error "No authorization header"), st)
     /\ AcceptRide.accept_ride_raw now (mkRequest m None j2) st
        = (Err400 (Error "No authorization header"), st)
     /\ AcceptRide.accept_ride_raw now (mkRequest m (Some "") j2) st
        = (Err400 (Error "No authorization header"), st))
  /\ (forall m h j1 j2,
        h <> "" -> Store.getUser st (Js.replace h "Bearer " "") = None ->
        CreateRide.create_ride_raw timestamptz_in random now
          (mkRequest m (Some h) j1) st
        = (Err400 (Error "Unauthorized"), st)
        /\ AcceptRide.accept_ride_raw now (mkRequest m (Some h) j2) st
           = (Err400 (Error "Unauthorized"), st))
  /\ (forall m h message user,
        authenticate (Some h) st = (inr user, st) ->
        CreateRide.create_ride_raw timestamptz_in random now
          (mkRequest m (Some h) (json_throws message)) st
        = (Err400 (Error message), st)
        /\ AcceptRide.accept_ride_raw now
             (mkRequest m (Some h) (json_throws message)) st
           = (Err400 (Error message), st))
  /\ (forall m h b1 b2 user,
        authenticate (Some h) st = (inr user, st) ->
        Store.profiles_by_user st (AuthUser.id user) = [] ->
        CreateRide.create_ride_raw timestamptz_in random now
          (mkRequest m (Some h) (json_fields b1)) st
        = (Err400 (Error "Customer profile not found"), st)
        /\ AcceptRide.accept_ride_raw now
             (mkRequest m (Some h) (json_fields b2)) st
           = (Err400 (Error "Driver profile not found"), st))
  /\ (forall m h b2 user profile,
        identified (Some h) st user profile ->
        Store.driver_profiles_by_user st (AuthUser.id user) = [] ->
        AcceptRide.accept_ride_raw now
          (mkRequest m (Some h) (json_fields b2)) st
        = (Err400 (Error "Driver vehicle profile not found"), st))
  /\ (forall m a b1 b2,
        CreateRide.create_ride_raw timestamptz_in random now
          (mkRequest m a (json_fields b1)) st
        = CreateRide.create_ride timestamptz_in random now
            (mkRequest m a b1) st
        /\ AcceptRide.accept_ride_raw now (mkRequest m a (json_fields b2)) st
           = AcceptRide.accept_ride now (mkRequest m a b2) st).
Proof.
  assert (Hfields : forall m a b1 b2,
            CreateRide.create_ride_raw timestamptz_in random now
              (mkRequest m a (json_fields b1)) st
            = CreateRide.create_ride timestamptz_in random now
                (mkRequest m a b1) st
            /\ AcceptRide.accept_ride_raw now
                 (mkRequest m a (json_fields b2)) st
               = AcceptRide.accept_ride now (mkRequest m a b2) st).
  { intros m a b1 b2. split; reflexivity. }
  assert (Hearly : forall m a j1 j2 e,
            authenticate a st = (inl e, st) ->
            CreateRide.create_ride_raw timestamptz_in random now
              (mkRequest m a j1) st = (Err400 e, st)
            /\ AcceptRide.accept_ride_raw now (mkRequest m a j2) st
               = (Err400 e, st)).
  { intros m a j1 j2 e Ha.
    unfold CreateRide.create_ride_raw, AcceptRide.accept_ride_raw, try_catch,
      CreateRide.create_ride_try_raw, AcceptRide.accept_ride_try_raw, bind.
    cbn [authorization]. rewrite Ha. split; reflexivity. }
  split; [|split; [|split; [|split; [|split]]]].
  - intros m j1 j2.
    destruct (Hearly m None j1 j2 (Error "No authorization header") eq_refl)
      as [H1 H2].
    destruct (Hearly m (Some "") j1 j2 (Error "No authorization header")
                eq_refl) as [H3 H4].
    repeat split; assumption.
  - intros m h j1 j2 Hh Hnone. apply Hearly.
    unfold authenticate. rewrite (str_truthy_nonempty _ Hh), Hnone.
    reflexivity.
  - intros m h message user Ha.
    unfold CreateRide.create_ride_raw, AcceptRide.accept_ride_raw, try_catch,
      CreateRide.create_ride_try_raw, AcceptRide.accept_ride_try_raw, bind.
    cbn [authorization]. rewrite Ha. split; reflexivity.
  - intros m h b1 b2 user Ha Hnone.
    destruct (Hfields m (Some h) b1 b2) as [-> ->].
    split; rewrite ?create_ride_eq, ?accept_ride_eq; cbn [authorization];
      rewrite Ha; cbn [fst]; rewrite Hnone; reflexivity.
  - intros m h b2 user profile [Ha Hp] Hnone.
    rewrite (proj2 (Hfields m (Some h)
                      (CreateRide.mkCreateRideRequest Js.JUndefined
                         Js.JUndefined Js.JUndefined Js.JUndefined
                         Js.JUndefined) b2)).
    rewrite accept_ride_eq. cbn [authorization]. rewrite Ha. cbn [fst].
    rewrite Hp, Hnone. reflexivity.
  - exact Hfields.
Qed.

Lemma caller_checks_witness :
  (CreateRide.create_ride_raw Sample.timestamptz_in (1 # 2) 100
     (mkRequest "POST" (Some "Bearer stale-token")
        (json_fields (json (Sample.booking (Js.JString "car")))))
     Sample.store
   = (Err400 (Error "Unauthorized"), Sample.store)
   /\ AcceptRide.accept_ride_raw 100
        (mkRequest "POST" (Some "Bearer stale-token")
           (json_throws "Unexpected end of JSON input")) Sample.store
      = (Err400 (Error "Unauthorized"), Sample.store))
  /\ (CreateRide.create_ride_raw Sample.timestamptz_in (1 # 2) 100
        (mkRequest "POST" (Some "Bearer customer-token")
           (json_throws "Unexpected end of JSON input")) Sample.store
      = (Err400 (Error "Unexpected end of JSON input"), Sample.store)
      /\ AcceptRide.accept_ride_raw 100
           (mkRequest "POST" (Some "Bearer customer-token")
              (json_throws "Unexpected end of JSON input")) Sample.store
         = (Err400 (Error "Unexpected end of JSON input"), Sample.store))
  /\ AcceptRide.accept_ride_raw 100
       (mkRequest "POST" (Some "Bearer customer-token")
          (json_fields (AcceptRide.mkAcceptRideRequest (Some 1))))
       Sample.booked
     = (Err400 (Error "Driver vehicle profile not found"), Sample.booked).
Proof.
  pose proof (caller_checks Sample.timestamptz_in (1 # 2) 100%Z Sample.store)
    as (_ & Hunauthorized & Hbody & _).
  pose proof (caller_checks Sample.timestamptz_in (1 # 2) 100%Z Sample.booked)
    as (_ & _ & _ & _ & Hvehicle & _).
  split; [|split].
  - apply Hunauthorized; [discriminate | reflexivity].
  - apply (Hbody "POST" "Bearer customer-token"
             "Unexpected end of JSON input"
             (AuthUser.mk Sample.customer "customer@example.org")).
    reflexivity.
  - apply (Hvehicle "POST" "Bearer customer-token"
             (AcceptRide.mkAcceptRideRequest (Some 1))
             (AuthUser.mk Sample.customer "customer@example.org")
             (Profile.mk Sample.customer (Some "Asha") None Customer)).
    + split; reflexivity.
    + reflexivity.
Defined.

(* ===================================================================== *)
(** ** Two accept-ride requests at once                                   *)
(* ===================================================================== *)

(** The handler is its reads followed by its writes. *)
Lemma accept_ride_try_split (now : Z)
    (req : Request AcceptRide.AcceptRideRequest) (st : Store.t) :
  AcceptRide.accept_ride_try now req st
  = bind (AcceptRide.accept_ride_reads req) (AcceptRide.accept_ride_writes now)
      st.
Proof.
  unfold AcceptRide.accept_ride_try, AcceptRide.accept_ride_reads,
    AcceptRide.accept_ride_writes, bind, ret.
  destruct (authenticate (authorization req) st) as [[e|user] st1];
    [reflexivity|].
  destruct (Store.single (Store.profiles_by_user st1 (AuthUser.id user)));
    [reflexivity|].
  destruct (Store.single
              (Store.driver_profiles_by_user st1 (AuthUser.id user)));
    [reflexivity|].
  destruct (AcceptRide.ride_id (json req)) as [rid|]; [|reflexivity].
  destruct (Store.single (AcceptRide.pending_rides_by_id st1 rid));
    reflexivity.
Qed.

(** What the reads have established when they go through; they write
    nothing. *)
Lemma accept_ride_reads_ok (req : Request AcceptRide.AcceptRideRequest)
    (st st' : Store.t) (x : AcceptRide.Found) :
  AcceptRide.accept_ride_reads req st = (inr x, st') ->
  st' = st
  /\ Store.has_profile st (AuthUser.id (AcceptRide.found_user x)) = true
  /\ AcceptRide.ride_id (json req) = Some (AcceptRide.found_ride_id x)
  /\ Store.single
       (AcceptRide.pending_rides_by_id st (AcceptRide.found_ride_id x))
     = inr (AcceptRide.found_ride x).
Proof.
  unfold AcceptRide.accept_ride_reads, bind, ret.
  rewrite (authenticate_surj (authorization req) st).
  destruct (fst (authenticate (authorization req) st)) as [e|user];
    [discriminate|].
  destruct (Store.single (Store.profiles_by_user st (AuthUser.id user)))
    as [e|p] eqn:Hp; [discriminate|].
  destruct (Store.single
              (Store.driver_profiles_by_user st (AuthUser.id user)));
    [discriminate|].
  destruct (AcceptRide.ride_id (json req)) as [rid|]; [|discriminate].
  destruct (Store.single (AcceptRide.pending_rides_by_id st rid))
    as [e|ride] eqn:Hr; [discriminate|].
  intros H. inversion H; subst; clear H. cbn.
  repeat split; try assumption. eapply single_has_profile. exact Hp.
Qed.

Lemma has_ride_ids (a b : Store.t) (rid : Uuid) :
  map Ride.id (Store.rides a) = map Ride.id (Store.rides b) ->
  Store.has_ride a rid = Store.has_ride b rid.
Proof.
  unfold Store.has_ride. generalize (Store.rides a), (Store.rides b).
  induction l as [|x l IH]; intros [|y l'] H; try discriminate;
    [reflexivity|].
  cbn in *. inversion H as [[Hid Hrest]]. rewrite Hid, (IH l' Hrest).
  reflexivity.
Qed.

(** The writes, on a store in which the accepting driver has a profile and
    the ride has a row. *)
Lemma accept_ride_writes_eq (now : Z) (x : AcceptRide.Found) (st : Store.t) :
  Store.has_profile st (AuthUser.id (AcceptRide.found_user x)) = true ->
  Store.has_ride st (AcceptRide.found_ride_id x) = true ->
  let ride := AcceptRide.found_ride x in
  let st_c :=
    Store.with_rides st
      (map (fun r => if Nat.eqb (Ride.id r) (AcceptRide.found_ride_id x)
                     then accepted_row (AuthUser.id (AcceptRide.found_user x)) r
                     else r)
         (Store.rides st)) in
  try_catch (AcceptRide.accept_ride_writes now x) st
  = match Store.single (Store.profiles_by_user st (Ride.customer_id ride)) with
    | inl e => (Err400 (PostgrestError e), st_c)
    | inr _ =>
        match Store.getUserById st (Ride.customer_id ride) with
        | None => (Err400 (Error "Customer auth details not found"), st_c)
        | Some _ =>
            (Ok200 tt,
             Store.with_ride_notifications st_c
               (Store.ride_notifications st
                ++ accept_notifications now st (AcceptRide.found_driverProfile x)
                     (AuthUser.id (AcceptRide.found_user x))
                     (AcceptRide.found_ride_id x) ride))
        end
    end.
Proof.
  intros Hp Hr. cbv zeta.
  unfold try_catch, AcceptRide.accept_ride_writes, bind, ret.
  rewrite update_rides_accept by exact Hp.
  set (st_c := Store.with_rides st _).
  change (Store.profiles_by_user st_c) with (Store.profiles_by_user st).
  destruct (Store.single
              (Store.profiles_by_user st
                 (Ride.customer_id (AcceptRide.found_ride x))))
    as [e|customer] eqn:Hc; [reflexivity|].
  change (Store.getUserById st_c) with (Store.getUserById st).
  destruct (Store.getUserById st (Ride.customer_id (AcceptRide.found_ride x)));
    [|reflexivity].
  assert (Hrc : Store.has_ride st_c (AcceptRide.found_ride_id x) = true).
  { rewrite <- Hr. apply has_ride_ids. unfold st_c. cbn [Store.rides Store.with_rides].
    apply map_id_accepted. }
  rewrite (insert_notification_ok st_c);
    [|exact Hrc | exact (single_has_profile st _ _ Hc)].
  cbn [snd].
  rewrite insert_notification_ok; [|exact Hrc | exact Hp].
  cbn [snd]. unfold accept_notifications.
  f_equal. unfold Store.with_ride_notifications. cbn.
  rewrite <- app_assoc. reflexivity.
Qed.

Lemma rows_after_accept (uid rid : Uuid) (rs : list Ride.t) (r : Ride.t) :
  In r (map (fun r => if Nat.eqb (Ride.id r) rid then accepted_row uid r
                      else r) rs) ->
  Ride.id r = rid ->
  Ride.driver_id r = Some uid /\ Ride.status r = Accepted.
Proof.
  intros Hin Hid. apply in_map_iff in Hin. destruct Hin as (r0 & Hr0 & _).
  destruct (Nat.eqb (Ride.id r0) rid) eqn:E; subst r.
  - split; reflexivity.
  - apply Nat.eqb_neq in E. contradiction.
Qed.

(** X19. accept-ride reads the pending ride in one store call and updates
    it, by id alone, in a later one. If a second request for the same ride
    does its reads before the first has written, both pass the pending
    check; whichever writes last ends up as the ride's driver, and when the
    customer's profile and account are found both requests are answered 200
    and four notifications are stored. The first driver is told 200 for a
    ride that is no longer theirs. *)
Theorem accept_ride_race (now1 now2 : Z)
    (req1 req2 : Request AcceptRide.AcceptRideRequest) (st : Store.t)
    (x1 x2 : AcceptRide.Found) :
  AcceptRide.accept_ride_reads req1 st = (inr x1, st) ->
  AcceptRide.accept_ride_reads req2 st = (inr x2, st) ->
  AcceptRide.found_ride_id x1 = AcceptRide.found_ride_id x2 ->
  let out1 := try_catch (AcceptRide.accept_ride_writes now1 x1) st in
  let out2 := try_catch (AcceptRide.accept_ride_writes now2 x2) (snd out1) in
  (forall now req s,
     AcceptRide.accept_ride now req s
     = try_catch (bind (AcceptRide.accept_ride_reads req)
                    (AcceptRide.accept_ride_writes now)) s)
  /\ (exists r, In r (Store.rides (snd out2))
                /\ Ride.id r = AcceptRide.found_ride_id x2)
  /\ (forall r, In r (Store.rides (snd out2)) ->
                Ride.id r = AcceptRide.found_ride_id x2 ->
                Ride.driver_id r = Some (AuthUser.id (AcceptRide.found_user x2))
                /\ Ride.status r = Accepted)
  /\ (forall customer account,
        Store.single
          (Store.profiles_by_user st
             (Ride.customer_id (AcceptRide.found_ride x1))) = inr customer ->
        Store.getUserById st (Ride.customer_id (AcceptRide.found_ride x1))
        = Some account ->
        fst out1 = Ok200 tt /\ fst out2 = Ok200 tt
        /\ exists added,
             Store.ride_notifications (snd out2)
             = (Store.ride_notifications st ++ added)%list
             /\ List.length added = 4).
Proof.
  intros H1 H2 Hsame. cbv zeta.
  apply accept_ride_reads_ok in H1. destruct H1 as (_ & Hp1 & _ & Hr1).
  apply accept_ride_reads_ok in H2. destruct H2 as (_ & Hp2 & _ & Hr2).
  rewrite Hsame in Hr1.
  assert (Hride : AcceptRide.found_ride x1 = AcceptRide.found_ride x2)
    by congruence.
  assert (Hin : In (AcceptRide.found_ride x2) (Store.rides st)
                /\ Ride.id (AcceptRide.found_ride x2)
                   = AcceptRide.found_ride_id x2
                /\ Ride.status (AcceptRide.found_ride x2) = Pending).
  { apply pending_rides_by_id_In. apply single_inr in Hr2. rewrite Hr2.
    left; reflexivity. }
  destruct Hin as (Hin & Hid & _).
  assert (Hhr : Store.has_ride st (AcceptRide.found_ride_id x2) = true).
  { unfold Store.has_ride. apply existsb_exists.
    exists (AcceptRide.found_ride x2). split; [exact Hin|].
    apply Nat.eqb_eq. exact Hid. }
  pose proof (accept_ride_writes_eq now1 x1 st Hp1) as E1.
  rewrite Hsame in E1. specialize (E1 Hhr). cbv zeta in E1.
  set (rid := AcceptRide.found_ride_id x2) in *.
  set (u1 := AuthUser.id (AcceptRide.found_user x1)) in *.
  set (u2 := AuthUser.id (AcceptRide.found_user x2)) in *.
  set (rs1 := map (fun r => if Nat.eqb (Ride.id r) rid
                            then accepted_row u1 r else r) (Store.rides st))
    in *.
  assert (Hout1 : Store.profiles (snd (try_catch
                    (AcceptRide.accept_ride_writes now1 x1) st))
                  = Store.profiles st
                  /\ Store.auth_users (snd (try_catch
                       (AcceptRide.accept_ride_writes now1 x1) st))
                     = Store.auth_users st
                  /\ Store.rides (snd (try_catch
                       (AcceptRide.accept_ride_writes now1 x1) st)) = rs1).
  { rewrite E1.
    destruct (Store.single (Store.profiles_by_user st _));
      [|destruct (Store.getUserById st _)]; repeat split. }
  destruct Hout1 as (Hpr1 & Hau1 & Hrs1).
  set (st1 := snd (try_catch (AcceptRide.accept_ride_writes now1 x1) st)) in *.
  assert (Hp2' : Store.has_profile st1 u2 = true).
  { unfold Store.has_profile. rewrite Hpr1. exact Hp2. }
  assert (Hhr' : Store.has_ride st1 rid = true).
  { rewrite <- Hhr. apply has_ride_ids. rewrite Hrs1.
    apply map_id_accepted. }
  pose proof (accept_ride_writes_eq now2 x2 st1 Hp2' Hhr') as E2.
  cbv zeta in E2. fold rid u2 in E2.
  assert (Hrs2 : Store.rides (snd (try_catch
                   (AcceptRide.accept_ride_writes now2 x2) st1))
                 = map (fun r => if Nat.eqb (Ride.id r) rid
                                 then accepted_row u2 r else r) rs1).
  { rewrite E2, Hrs1.
    destruct (Store.single (Store.profiles_by_user st1 _));
      [|destruct (Store.getUserById st1 _)]; reflexivity. }
  split; [|split; [|split]].
  - intros now req s. unfold AcceptRide.accept_ride, try_catch.
    rewrite accept_ride_try_split. reflexivity.
  - rewrite Hrs2.
    exists (accepted_row u2 (accepted_row u1 (AcceptRide.found_ride x2))).
    split; [|exact Hid].
    apply in_map_iff. exists (accepted_row u1 (AcceptRide.found_ride x2)).
    split.
    + rewrite accepted_row_id, Hid, Nat.eqb_refl. reflexivity.
    + unfold rs1. apply in_map_iff. exists (AcceptRide.found_ride x2).
      rewrite Hid, Nat.eqb_refl. split; [reflexivity | exact Hin].
  - intros r Hr Hrid. rewrite Hrs2 in Hr.
    exact (rows_after_accept u2 rid rs1 r Hr Hrid).
  - intros customer account Hc Hacc.
    rewrite Hc, Hacc in E1.
    assert (Hc2 : Store.single
                    (Store.profiles_by_user st1
                       (Ride.customer_id (AcceptRide.found_ride x2)))
                  = inr customer).
    { unfold Store.profiles_by_user. rewrite Hpr1, <- Hride. exact Hc. }
    assert (Hacc2 : Store.getUserById st1
                      (Ride.customer_id (AcceptRide.found_ride x2))
                    = Some account).
    { unfold Store.getUserById. rewrite Hau1, <- Hride. exact Hacc. }
    rewrite Hc2, Hacc2 in E2.
    split; [unfold st1; rewrite E1; reflexivity|].
    split; [rewrite E2; reflexivity|].
    rewrite E2. cbn [snd Store.ride_notifications
                       Store.with_ride_notifications].
    unfold st1 at 1. rewrite E1.
    cbn [snd Store.ride_notifications Store.with_ride_notifications].
    rewrite <- app_assoc. eexists. split; [reflexivity|].
    rewrite length_app. reflexivity.
Qed.

(** Two drivers for one pending ride. *)
Lemma accept_ride_race_witness :
  let st := Store.mk
              (AuthUser.mk 3 "second@example.org"
               :: Store.auth_users Sample.booked)
              (("second-token", 3) :: Store.sessions Sample.booked)
              (Profile.mk 3 (Some "Sita") None Rider
               :: Store.profiles Sample.booked)
              (DriverProfile.mk 12 3 Car "KA-09-4321" None (Some true)
               :: Store.driver_profiles Sample.booked)
              (Store.rides Sample.booked)
              (Store.ride_notifications Sample.booked) in
  let out1 := AcceptRide.accept_ride 200
                (Sample.acceptance "driver-token" 1) st in
  fst out1 = Ok200 tt
  /\ forall r, In r (Store.rides
                       (snd (try_catch
                               (AcceptRide.accept_ride_writes 201
                                  (AcceptRide.mkFound
                                     (AuthUser.mk 3 "second@example.org")
                                     (Profile.mk 3 (Some "Sita") None Rider)
                                     Sample.ride 1))
                               (snd out1)))) ->
               Ride.id r = 1 -> Ride.driver_id r = Some 3.
Proof.
  cbv zeta.
  pose proof
    (accept_ride_race 200%Z 201%Z
       (Sample.acceptance "driver-token" 1)
       (Sample.acceptance "second-token" 1)
       (Store.mk
          (AuthUser.mk 3 "second@example.org"
           :: Store.auth_users Sample.booked)
          (("second-token", 3) :: Store.sessions Sample.booked)
          (Profile.mk 3 (Some "Sita") None Rider
           :: Store.profiles Sample.booked)
          (DriverProfile.mk 12 3 Car "KA-09-4321" None (Some true)
           :: Store.driver_profiles Sample.booked)
          (Store.rides Sample.booked)
          (Store.ride_notifications Sample.booked))
       (AcceptRide.mkFound
          (AuthUser.mk Sample.driver "driver@example.org")
          (Profile.mk Sample.driver (Some "Ravi") (Some "555-0100") Rider)
          Sample.ride 1)
       (AcceptRide.mkFound
          (AuthUser.mk 3 "second@example.org")
          (Profile.mk 3 (Some "Sita") None Rider)
          Sample.ride 1)
       eq_refl eq_refl eq_refl) as H.
  cbv zeta in H. destruct H as (_ & _ & Hrows & _).
  split; [reflexivity|].
  intros r Hin Hid. exact (proj1 (Hrows r Hin Hid)).
Defined.

(** Resolving a token looks only at the identity service. *)
Lemma authenticate_same_identity (h : option string) (a b : Store.t) :
  Store.auth_users b = Store.auth_users a ->
  Store.sessions b = Store.sessions a ->
  fst (authenticate h b) = fst (authenticate h a).
Proof.
  intros Hu Hs. unfold authenticate, throw, Store.getUser.
  destruct h as [h|]; [|reflexivity].
  destruct (Js.str_truthy h); [|reflexivity].
  rewrite Hu, Hs.
  destruct (find _ (Store.sessions a)) as [[tok uid]|]; [|reflexivity].
  destruct (find _ (Store.auth_users a)); reflexivity.
Qed.

(** Whatever the vehicle type is, the fare of a draw in [0,1) fits the
    column. *)
Lemma estimatedFare_fits (vehicle_type : Js.JsVal) (random : Q) :
  (0 <= random)%Q -> (random < 1)%Q ->
  Store.numeric2_in 10 (inject_Z (CreateRide.estimatedFare vehicle_type random))
  = Some (100 * CreateRide.estimatedFare vehicle_type random)%Z.
Proof.
  intros Hlo Hhi. apply numeric2_in_integer_fits.
  unfold CreateRide.estimatedFare.
  pose proof (Math_round_range (CreateRide.baseFare vehicle_type) random
                Hlo Hhi) as Hrange.
  assert (Hbase : (30 <= CreateRide.baseFare vehicle_type <= 80)%Z).
  { unfold CreateRide.baseFare.
    destruct (Js.strict_eq_str vehicle_type "bike"); [lia|].
    destruct (Js.strict_eq_str vehicle_type "auto"); lia. }
  change (10 ^ 10)%Z with 10000000000%Z. lia.
Qed.

(** A booking the store accepted once is accepted again, with another draw
    of the fare, as long as the customer's profile is there: the new row
    differs from the first in the generated id, the fare and the time of
    creation only. *)
Lemma build_ride_again (timestamptz_in : string -> option Z)
    (random random' : Q) (a b : Store.t) (now now' : Z)
    (req : Request CreateRide.CreateRideRequest) (uid : Uuid) (r : Ride.t) :
  (0 <= random')%Q -> (random' < 1)%Q ->
  Store.profiles b = Store.profiles a ->
  Store.build_ride timestamptz_in a now (create_ride_row random req uid)
  = inr r ->
  Store.build_ride timestamptz_in b now' (create_ride_row random' req uid)
  = inr (Ride.mk (Store.gen_random_uuid (map Ride.id (Store.rides b)))
           (Ride.customer_id r) None
           (Ride.from_location r) (Ride.to_location r) (Ride.pickup_time r)
           (Ride.vehicle_type r) None
           (Some (100 * CreateRide.estimatedFare
                          (CreateRide.vehicle_type (json req)) random')%Z)
           None Pending (Ride.notes r) now').
Proof.
  intros Hlo Hhi Hp. unfold Store.build_ride, create_ride_row.
  cbn [Store.ins_customer_id Store.ins_from_location Store.ins_to_location
       Store.ins_pickup_time Store.ins_vehicle_type Store.ins_notes
       Store.ins_estimated_fare].
  rewrite (estimatedFare_fits _ random' Hlo Hhi).
  unfold Store.bind_pg, Store.convert, Store.not_null, Store.text_column,
    Store.has_profile.
  rewrite Hp.
  destruct (Store.numeric2_in 10
              (inject_Z (CreateRide.estimatedFare
                           (CreateRide.vehicle_type (json req)) random)))
    as [h|];
    destruct (CreateRide.pickup_time (json req)) as [| |ps];
    destruct (CreateRide.vehicle_type (json req)) as [| |vs];
    destruct (CreateRide.from_location (json req)) as [| |fs];
    destruct (CreateRide.to_location (json req)) as [| |tos];
    try destruct (timestamptz_in ps) as [pickup|];
    try destruct (Store.vehicle_type_in vs) as [vehicle|];
    try discriminate.
  destruct (existsb _ (Store.profiles a)); [|discriminate].
  intros [= <-]. reflexivity.
Qed.

(** X20. create-ride does not merge repeated requests: after a booking that
    succeeded, the same request sent again, with a draw of [Math.random()]
    of its own, succeeds again and stores a second ride under a different
    id, right after the first: pending, without driver, for the same
    customer, places, pickup time, vehicle type and notes, with the fare of
    the second draw. *)
Theorem repeated_booking_creates_second_ride
    (timestamptz_in : string -> option Z) (random random' : Q) (now now' : Z)
    (req : Request CreateRide.CreateRideRequest) (st st1 : Store.t)
    (r1 : Ride.t) :
  (0 <= random')%Q -> (random' < 1)%Q ->
  CreateRide.create_ride timestamptz_in random now req st = (Ok200 r1, st1) ->
  exists r2 st2,
    CreateRide.create_ride timestamptz_in random' now' req st1
    = (Ok200 r2, st2)
    /\ Ride.id r2 <> Ride.id r1
    /\ Store.rides st2 = (Store.rides st ++ [r1; r2])%list
    /\ r2 = Ride.mk (Ride.id r2) (Ride.customer_id r1) None
              (Ride.from_location r1) (Ride.to_location r1)
              (Ride.pickup_time r1) (Ride.vehicle_type r1) None
              (Some (100 * CreateRide.estimatedFare
                             (CreateRide.vehicle_type (json req)) random')%Z)
              None Pending (Ride.notes r1) now'.
Proof.
  intros Hlo Hhi H1. apply create_ride_ok in H1.
  destruct H1 as (user & profile & [Ha Hp] & Hb & Hau & Hse & Hpr & _ & Hr).
  pose proof (build_ride_again timestamptz_in random random' st st1 now now'
                req (AuthUser.id user) r1 Hlo Hhi Hpr Hb) as Hb2.
  set (r2 := Ride.mk (Store.gen_random_uuid (map Ride.id (Store.rides st1)))
               (Ride.customer_id r1) None
               (Ride.from_location r1) (Ride.to_location r1)
               (Ride.pickup_time r1) (Ride.vehicle_type r1) None
               (Some (100 * CreateRide.estimatedFare
                              (CreateRide.vehicle_type (json req)) random')%Z)
               None Pending (Ride.notes r1) now') in *.
  assert (Hcall : CreateRide.create_ride timestamptz_in random' now' req st1
                  = (Ok200 r2,
                     snd (CreateRide.create_ride timestamptz_in random' now'
                            req st1))).
  { rewrite create_ride_eq.
    rewrite (authenticate_same_identity _ st st1 Hau Hse), Ha. cbn [fst].
    unfold Store.profiles_by_user. rewrite Hpr.
    fold (Store.profiles_by_user st (AuthUser.id user)). rewrite Hp, Hb2.
    reflexivity. }
  exists r2. eexists. split; [exact Hcall|].
  pose proof (build_ride_fresh_id _ _ _ _ _ Hb2) as Hfresh.
  apply create_ride_ok in Hcall.
  destruct Hcall as (_ & _ & _ & _ & _ & _ & _ & _ & Hr2).
  split; [|split].
  - intros Hid. apply Hfresh. rewrite Hid, Hr. rewrite map_app.
    apply in_or_app. right. left. reflexivity.
  - rewrite Hr2, Hr, <- app_assoc. reflexivity.
  - reflexivity.
Qed.

Lemma repeated_booking_creates_second_ride_witness :
  exists r2 st2,
    CreateRide.create_ride Sample.timestamptz_in (3 # 4) 101
      (Sample.booking (Js.JString "car")) Sample.booked
    = (Ok200 r2, st2)
    /\ Ride.id r2 <> Ride.id Sample.ride
    /\ Store.rides st2 = (Store.rides Sample.store ++ [Sample.ride; r2])%list
    /\ r2 = Ride.mk (Ride.id r2) Sample.customer None "City Center" "Airport"
              20 Car None (Some 15500%Z) None Pending None 101.
Proof.
  apply (repeated_booking_creates_second_ride Sample.timestamptz_in (1 # 2)
           (3 # 4) 100%Z 101%Z (Sample.booking (Js.JString "car"))
           Sample.store Sample.booked Sample.ride).
  - discriminate.
  - reflexivity.
  - reflexivity.
Defined.
